(** * Student dropout prediction: scoring pipeline, CSV import and alerts

    A shallow embedding of [ml_model.py] (class [DropoutPredictor]) and of the
    prediction and import routes of [app.py], with the properties of the
    feature-normalisation and risk-scoring pipeline proved about it.

    Python values are modelled as the code has them: floats are IEEE-754
    binary64 numbers ([spec_float] with precision 53 and [emax] 1024, the
    specification the Rocq kernel floats follow), Python ints are [Z],
    strings are [string] (the UTF-8 bytes of the text), a [pandas.Series]
    row and a JSON request object are finite maps with string keys, a data
    frame keeps the index label of each row, dict literals are association
    lists in insertion order, and exceptions are an explicit result type. *)

From Stdlib Require Import ZArith String Ascii List Bool Lia.
From Stdlib Require Import Floats.SpecFloat.
From Stdlib Require Import Numbers.DecimalString Numbers.DecimalNat.
From stdpp Require Import gmap strings list fin_maps.

Import ListNotations.
Open Scope string_scope.
Open Scope Z_scope.

(** ** Exceptions *)

Inductive exn :=
| KeyError
| ValueError (msg : string)
| TypeError
| OverflowError
| IntegrityError
| ParserError (msg : string).

Inductive result (A : Type) :=
| Ok (a : A)
| Raise (e : exn).
Arguments Ok {A} a.
Arguments Raise {A} e.

#[global] Instance result_ret : MRet result := fun A a => Ok a.
#[global] Instance result_bind : MBind result := fun A B k r =>
  match r with
  | Ok a => k a
  | Raise e => Raise e
  end.

#[global] Instance result_fmap : FMap result := fun A B f r =>
  match r with
  | Ok a => Ok (f a)
  | Raise e => Raise e
  end.

(** ** Python strings

    A [str] is kept as its UTF-8 bytes.  The operations that look at
    characters decode them: a character is the code point a UTF-8 sequence
    encodes, together with its bytes.  The character tables are those of
    Unicode 14.0, which CPython 3.11 carries. *)

Module PyStr.

Definition code (c : ascii) : N := N_of_ascii c.

(** The white space the number readers skip (C's [isspace]). *)
Definition c_isspace (c : ascii) : bool :=
  let n := nat_of_ascii c in
  ((9 <=? n) && (n <=? 13) || (n =? 32))%nat.

Definition isdigit (c : ascii) : bool :=
  let n := nat_of_ascii c in ((48 <=? n) && (n <=? 57))%nat.

Definition lower_char (c : ascii) : ascii :=
  let n := nat_of_ascii c in
  if ((65 <=? n) && (n <=? 90))%nat then ascii_of_nat (n + 32) else c.

Definition continuation (c : ascii) : bool :=
  ((128 <=? code c) && (code c <=? 191))%N.

Definition payload (c : ascii) : N := (code c mod 64)%N.

(** The code point of a two-, three- or four-byte sequence; [None] when
    the bytes are not the UTF-8 encoding of a code point (a wrong lead or
    continuation byte, an overlong form, a surrogate, a value past
    U+10FFFF). *)
Definition seq2 (b0 b1 : ascii) : option N :=
  if ((194 <=? code b0) && (code b0 <=? 223))%N && continuation b1
  then Some ((code b0 - 192) * 64 + payload b1)%N
  else None.

Definition seq3 (b0 b1 b2 : ascii) : option N :=
  let cp := ((code b0 - 224) * 4096 + payload b1 * 64 + payload b2)%N in
  if ((224 <=? code b0) && (code b0 <=? 239))%N && continuation b1 && continuation b2
     && (2048 <=? cp)%N && negb ((55296 <=? cp) && (cp <=? 57343))%N
  then Some cp
  else None.

Definition seq4 (b0 b1 b2 b3 : ascii) : option N :=
  let cp := ((code b0 - 240) * 262144 + payload b1 * 4096 + payload b2 * 64
             + payload b3)%N in
  if ((240 <=? code b0) && (code b0 <=? 244))%N
     && continuation b1 && continuation b2 && continuation b3
     && (65536 <=? cp)%N && (cp <=? 1114111)%N
  then Some cp
  else None.

(** A character: its code point ([None] for a byte that belongs to no
    UTF-8 sequence) and its bytes. *)
Definition char : Type := option N * list ascii.

Fixpoint chars (s : list ascii) : list char :=
  match s with
  | [] => []
  | b0 :: s1 =>
      if (code b0 <? 128)%N then (Some (code b0), [b0]) :: chars s1
      else
        match s1 with
        | [] => [(None, [b0])]
        | b1 :: s2 =>
            match seq2 b0 b1 with
            | Some cp => (Some cp, [b0; b1]) :: chars s2
            | None =>
                match s2 with
                | [] => (None, [b0]) :: chars s1
                | b2 :: s3 =>
                    match seq3 b0 b1 b2 with
                    | Some cp => (Some cp, [b0; b1; b2]) :: chars s3
                    | None =>
                        match s3 with
                        | [] => (None, [b0]) :: chars s1
                        | b3 :: s4 =>
                            match seq4 b0 b1 b2 b3 with
                            | Some cp => (Some cp, [b0; b1; b2; b3]) :: chars s4
                            | None => (None, [b0]) :: chars s1
                            end
                        end
                    end
                end
            end
        end
  end.

(** [str.isspace] of a character: the code points [str.strip] removes
    and the number readers take for a blank. *)
Definition white_space : list N :=
  [
    9; 10; 11; 12; 13; 28; 29; 30; 31; 32;
    133; 160; 5760; 8192; 8193; 8194; 8195; 8196; 8197; 8198;
    8199; 8200; 8201; 8202; 8232; 8233; 8239; 8287; 12288 ]%N.

Definition isspace (c : char) : bool :=
  match c.1 with
  | Some cp => existsb (N.eqb cp) white_space
  | None => false
  end.

(** The zero of every run of ten decimal digits (the characters with a
    decimal value). *)
Definition decimal_zeros : list N :=
  [
    48; 1632; 1776; 1984; 2406; 2534; 2662; 2790; 2918; 3046;
    3174; 3302; 3430; 3558; 3664; 3792; 3872; 4160; 4240; 6112;
    6160; 6470; 6608; 6784; 6800; 6992; 7088; 7232; 7248; 42528;
    43216; 43264; 43472; 43504; 43600; 44016; 65296; 66720; 68912; 69734;
    69872; 69942; 70096; 70384; 70736; 70864; 71248; 71360; 71472; 71904;
    72016; 72784; 73040; 73120; 92768; 92864; 93008; 120782; 120792; 120802;
    120812; 120822; 123200; 123632; 125264; 130032 ]%N.

(** The decimal value of a character, if it is a decimal digit. *)
Definition decimal (cp : N) : option N :=
  match List.find (fun z => (z <=? cp) && (cp <? z + 10))%N decimal_zeros with
  | Some z => Some (cp - z)%N
  | None => None
  end.

Fixpoint lstrip {A : Type} (space : A -> bool) (s : list A) : list A :=
  match s with
  | c :: s' => if space c then lstrip space s' else s
  | [] => []
  end.

Definition strip_chars {A : Type} (space : A -> bool) (s : list A) : list A :=
  rev (lstrip space (rev (lstrip space s))).

(** The text a number reader works on: an ASCII character stands for
    itself, any other white space for a blank, any other decimal digit for
    the ASCII digit of its value; at the first character that is none of
    these the text is cut and a question mark put in its place. *)
Fixpoint number_text (cs : list char) : list ascii :=
  match cs with
  | [] => []
  | (Some cp, bytes) :: rest =>
      if (cp <? 128)%N then (bytes ++ number_text rest)%list
      else if isspace (Some cp, bytes) then " "%char :: number_text rest
      else
        match decimal cp with
        | Some d => ascii_of_N (48 + d) :: number_text rest
        | None => ["?"%char]
        end
  | (None, _) :: _ => ["?"%char]
  end.

(** [s.lower()] on the ASCII letters, which is all the test of the file
    name needs: no character outside ASCII has a lower-case form that
    holds one of the characters of [".csv"]. *)
Definition lower (s : string) : string :=
  string_of_list_ascii (map lower_char (list_ascii_of_string s)).

(** [s.strip()]. *)
Definition strip (s : string) : string :=
  string_of_list_ascii
    (concat (map snd (strip_chars isspace (chars (list_ascii_of_string s))))).

(** [s.endswith(suffix)]. *)
Definition endswith (s suffix : string) : bool :=
  let n := String.length s in
  let k := String.length suffix in
  (k <=? n)%nat && String.eqb (String.substring (n - k) k s) suffix.

End PyStr.

(** ** Python floats: IEEE-754 binary64 *)

Module PyFloat.

Definition prec : Z := 53.
Definition emax : Z := 1024.

Definition float := spec_float.

Definition nan : float := S754_nan.
Definition inf : float := S754_infinity false.
Definition zero : float := S754_zero false.

Definition leb : float -> float -> bool := SFleb.
Definition ltb : float -> float -> bool := SFltb.
Definition eqb : float -> float -> bool := SFeqb.

(** [a >= b] and [a > b] of Python (false when either side is NaN). *)
Definition geb (a b : float) : bool := leb b a.
Definition gtb (a b : float) : bool := ltb b a.

Definition is_nan (f : float) : bool :=
  match f with S754_nan => true | _ => false end.

(** [math.isfinite]. *)
Definition is_finite (f : float) : bool :=
  match f with
  | S754_zero _ | S754_finite _ _ _ => true
  | S754_infinity _ | S754_nan => false
  end.

(** The binary64 number nearest to [m * 10^e] (ties to even):
    what the literal reader and [float(str)] compute from a decimal
    numeral.  For a negative exponent the quotient [m / 10^-e] is taken with
    enough bits and a rounding position, then rounded once. *)
Definition of_decimal (neg : bool) (m : N) (e : Z) : float :=
  match m with
  | N0 => S754_zero neg
  | Npos p =>
      if 0 <=? e then
        binary_round prec emax neg (Z.to_pos (Zpos p * 10 ^ e)) 0
      else
        let '(q, e', l) := SFdiv_core_binary prec emax (Zpos p) 0 (10 ^ (- e)) 0 in
        binary_round_aux prec emax neg q e' l
  end.

(** [float(n)] for a Python int: nearest binary64, [OverflowError] when the
    int is too large. *)
Definition of_int (z : Z) : result float :=
  match binary_normalize prec emax z 0 false with
  | S754_infinity _ => Raise OverflowError
  | f => Ok f
  end.

(** [int(f)]: truncation toward zero; NaN and the infinities raise. *)
Definition to_int (f : float) : result Z :=
  match f with
  | S754_nan => Raise (ValueError "cannot convert float NaN to integer")
  | S754_infinity _ => Raise OverflowError
  | S754_zero _ => Ok 0
  | S754_finite s m e => Ok (cond_Zopp s (Z.shiftl (Zpos m) e))
  end.

(** *** [float(s)] for a string

    The grammar of the built-in [float]: the text is first brought to
    ASCII ([PyStr.number_text]); surrounding white space is dropped; an
    optional sign; then [inf], [infinity] or [nan] in any letter case, or a
    decimal numeral with an optional fraction and an optional exponent.  An
    underscore is accepted only between two digits. *)

Definition digit_val (c : ascii) : N := N.of_nat (nat_of_ascii c - 48).

(** Every underscore stands between two digits; [prev] is the character
    before [s]. *)
Fixpoint underscores_ok (prev : ascii) (s : list ascii) : bool :=
  match s with
  | [] => negb (Ascii.eqb prev "_")
  | c :: s' =>
      (if Ascii.eqb c "_" then PyStr.isdigit prev
       else if Ascii.eqb prev "_" then PyStr.isdigit c else true)
      && underscores_ok c s'
  end.

Definition remove_underscores (s : list ascii) : list ascii :=
  List.filter (fun c => negb (Ascii.eqb c "_")) s.

Fixpoint span_digits (s : list ascii) : list ascii * list ascii :=
  match s with
  | c :: s' =>
      if PyStr.isdigit c then let '(ds, r) := span_digits s' in (c :: ds, r)
      else ([], s)
  | [] => ([], [])
  end.

Definition digits_value (ds : list ascii) : N :=
  fold_left (fun acc c => 10 * acc + digit_val c)%N ds 0%N.

Definition parse_sign (s : list ascii) : bool * list ascii :=
  match s with
  | "-"%char :: r => (true, r)
  | "+"%char :: r => (false, r)
  | _ => (false, s)
  end.

Definition is_word (w : string) (s : list ascii) : bool :=
  String.eqb (PyStr.lower (string_of_list_ascii s)) w.

Definition parse_unsigned (neg : bool) (s : list ascii) : option float :=
  if is_word "inf" s || is_word "infinity" s then Some (S754_infinity neg)
  else if is_word "nan" s then Some S754_nan
  else
    let '(ip, r1) := span_digits s in
    let '(fp, r2) :=
      match r1 with
      | "."%char :: r => span_digits r
      | _ => ([], r1)
      end in
    let mant := digits_value (ip ++ fp)%list in
    let scale := Z.of_nat (length fp) in
    match (ip ++ fp)%list with
    | [] => None
    | _ :: _ =>
        match r2 with
        | [] => Some (of_decimal neg mant (- scale))
        | c :: r3 =>
            if Ascii.eqb (PyStr.lower_char c) "e" then
              let '(eneg, r4) := parse_sign r3 in
              let '(ed, r5) := span_digits r4 in
              match ed, r5 with
              | _ :: _, [] =>
                  Some (of_decimal neg mant
                          (cond_Zopp eneg (Z.of_N (digits_value ed)) - scale))
              | _, _ => None
              end
            else None
        end
    end.

Definition of_string (s : string) : option float :=
  let cs := PyStr.number_text (PyStr.chars (list_ascii_of_string s)) in
  if underscores_ok "000" cs then
    let '(neg, r) :=
      parse_sign (PyStr.strip_chars PyStr.c_isspace (remove_underscores cs)) in
    parse_unsigned neg r
  else None.

(** A float literal of the source text, read as Python reads it. *)
Definition literal (s : string) : float :=
  match of_string s with
  | Some f => f
  | None => nan
  end.

End PyFloat.

Abbreviation float := PyFloat.float.

(** ** Python values *)

Inductive pyval :=
| VNone
| VBool (b : bool)
| VInt (z : Z)
| VFloat (f : float)
| VStr (s : string).

(** A dict literal, in insertion order. *)
Abbreviation dict := (list (string * pyval)).

Fixpoint dict_get (k : string) (d : dict) : option pyval :=
  match d with
  | [] => None
  | (k', v) :: d' => if String.eqb k k' then Some v else dict_get k d'
  end.

(** [float(v)]. *)
Definition py_float (v : pyval) : result float :=
  match v with
  | VFloat f => Ok f
  | VInt z => PyFloat.of_int z
  | VBool b => PyFloat.of_int (if b then 1 else 0)
  | VStr s =>
      match PyFloat.of_string s with
      | Some f => Ok f
      | None => Raise (ValueError "could not convert string to float")
      end
  | VNone => Raise TypeError
  end.

(** Truth value of an object, as [if v:] tests it. *)
Definition truthy (v : pyval) : bool :=
  match v with
  | VNone => false
  | VBool b => b
  | VInt z => negb (z =? 0)
  | VFloat f => negb (PyFloat.eqb f PyFloat.zero)
  | VStr s => negb (String.eqb s "")
  end.

(** A feature value is finite when it is a number other than NaN and the
    infinities. *)
Definition finite_value (v : pyval) : bool :=
  match v with
  | VInt _ | VBool _ => true
  | VFloat f => PyFloat.is_finite f
  | VNone | VStr _ => false
  end.

(** [int(s)] for a string, base 10: the text is first brought to ASCII
    ([PyStr.number_text]); surrounding white space is dropped; an optional
    sign; then decimal digits, with an underscore accepted only between two
    digits; more than 4300 digits are refused. *)
Definition int_of_string (s : string) : option Z :=
  let cs := PyStr.number_text (PyStr.chars (list_ascii_of_string s)) in
  if PyFloat.underscores_ok "000" cs then
    let '(neg, r) :=
      PyFloat.parse_sign (PyStr.strip_chars PyStr.c_isspace (PyFloat.remove_underscores cs)) in
    match PyFloat.span_digits r with
    | ((_ :: _) as ds, []) =>
        if 4300 <? Z.of_nat (length ds) then None
        else Some (cond_Zopp neg (Z.of_N (PyFloat.digits_value ds)))
    | _ => None
    end
  else None.

(** [int(v)]. *)
Definition py_int (v : pyval) : result Z :=
  match v with
  | VInt z => Ok z
  | VBool b => Ok (if b then 1 else 0)
  | VFloat f => PyFloat.to_int f
  | VStr s =>
      match int_of_string s with
      | Some z => Ok z
      | None => Raise (ValueError "invalid literal for int() with base 10")
      end
  | VNone => Raise TypeError
  end.

(** The decimal numeral of a natural number. *)
Definition str_of_nat (n : nat) : string :=
  NilEmpty.string_of_uint (Nat.to_uint n).

(** [str(z)], [f"{z}"] for an int. *)
Definition str_of_int (z : Z) : string :=
  if z <? 0 then "-" ++ str_of_nat (Z.to_nat (- z)) else str_of_nat (Z.to_nat z).

Fixpoint zeros (n : nat) : string :=
  match n with
  | O => ""
  | S n' => String "0" (zeros n')
  end.

(** [f"{n:05d}"] for [n >= 0]: zero padding on the left up to five
    characters, nothing cut. *)
Definition format_05d (n : nat) : string :=
  let s := str_of_nat n in
  zeros (5 - String.length s) ++ s.

(** [f"{z:05d}"] for an int: the sign of a negative number counts among
    the five characters and the zeros follow it. *)
Definition format_05d_int (z : Z) : string :=
  if z <? 0 then
    let s := str_of_nat (Z.to_nat (- z)) in
    "-" ++ zeros (4 - String.length s) ++ s
  else format_05d (Z.to_nat z).

(** The ordinal read back from an identifier made of a three-letter
    prefix and a zero-padded numeral. *)
Definition csv_ordinal (id : string) : option nat :=
  match id with
  | String _ (String _ (String _ digits)) =>
      Nat.of_uint <$> NilEmpty.uint_of_string digits
  | _ => None
  end.

(** ** SQLite: what a column keeps of a bound float

    A NaN is stored as NULL, and the zero is stored without its sign; every
    other float is read back as it was bound. *)

Definition sqlite_real (f : float) : option float :=
  match f with
  | S754_nan => None
  | S754_zero _ => Some (S754_zero false)
  | _ => Some f
  end.

Definition sqlite_value (v : pyval) : pyval :=
  match v with
  | VFloat f =>
      match sqlite_real f with
      | Some g => VFloat g
      | None => VNone
      end
  | _ => v
  end.

(** ** pandas: rows read with [dtype=str] *)

Module pd.

(** A cell of a frame read by [read_csv(path, dtype=str)]: the text of the
    cell, or the float NaN for a cell that is empty or holds one of the
    reader's missing-value markers. *)
Inductive cell :=
| Text (s : string)
| NaN.

Definition cell_val (c : cell) : pyval :=
  match c with
  | Text s => VStr s
  | NaN => VFloat PyFloat.nan
  end.

(** An index label: a scalar (the 0-based position under the default index,
    the value of the first field when the data rows are longer than the
    header), or the tuple of a multi-level index. *)
Inductive label :=
| Label (v : pyval)
| Labels (vs : list pyval).

(** What a row holds under a column label: one cell, or, when several
    columns carry the label, the sub-series of their cells, of which the
    text [str] gives is kept. *)
Inductive entry :=
| One (c : cell)
| Several (text : string).

(** One row as [iterrows] yields it: [name] is the index label, [cells]
    maps a column label to what the row holds under it. *)
Record Series := { name : label; cells : gmap string entry }.

(** What [row[label]] and [row.get(label, default)] evaluate to. *)
Inductive value :=
| Scalar (v : pyval)
| SubSeries (text : string).

Definition entry_val (e : entry) : value :=
  match e with
  | One c => Scalar (cell_val c)
  | Several text => SubSeries text
  end.

(** [label in row]. *)
Definition contains (row : Series) (label : string) : bool :=
  bool_decide (is_Some (cells row !! label)).

(** [row.get(label, default)]. *)
Definition get (row : Series) (label : string) (default : pyval) : value :=
  match cells row !! label with
  | Some e => entry_val e
  | None => Scalar default
  end.

(** [row[label]]. *)
Definition getitem (row : Series) (label : string) : result value :=
  match cells row !! label with
  | Some e => Ok (entry_val e)
  | None => Raise KeyError
  end.

(** [pd.isna(v)] on a scalar. *)
Definition isna (v : pyval) : bool :=
  match v with
  | VNone => true
  | VFloat f => PyFloat.is_nan f
  | _ => false
  end.

(** The truth value of [pd.isna(val)], as [if] and [or] take it: on a
    series [pd.isna] gives a series, which has none. *)
Definition isna_truth (val : value) : result bool :=
  match val with
  | Scalar v => Ok (isna v)
  | SubSeries _ => Raise (ValueError "The truth value of a Series is ambiguous")
  end.

(** [float(val)]. *)
Definition float_of (val : value) : result float :=
  match val with
  | Scalar v => py_float v
  | SubSeries _ => Raise TypeError
  end.

(** [int(row.name)]. *)
Definition int_name (row : Series) : result Z :=
  match name row with
  | Label v => py_int v
  | Labels _ => Raise TypeError
  end.

(** A frame: the column labels and the data rows, each with its index
    label and one cell per column. *)
Record DataFrame := { columns : list string; data : list (label * list cell) }.

(** The default index ([RangeIndex]): each row is labelled with its
    position, from 0. *)
Definition range_index (rows : list (list cell)) : list (label * list cell) :=
  imap (fun i r => (Label (VInt (Z.of_nat i)), r)) rows.

Section Rows.

(** The text [str] gives for the sub-series a row holds under a label that
    several columns carry: how pandas prints a series with this name, this
    label and these cells. *)
Variable series_text : label -> string -> list cell -> string.

(** The cells under a label, in column order. *)
Definition under (k : string) (bindings : list (string * cell)) : list cell :=
  map snd (List.filter (fun b => String.eqb b.1 k) bindings).

Definition row_entry (name : label) (bindings : list (string * cell)) (k : string)
  : entry :=
  match under k bindings with
  | [c] => One c
  | cs => Several (series_text name k cs)
  end.

Definition row_cells (name : label) (bindings : list (string * cell))
  : gmap string entry :=
  list_to_map (map (fun b => (b.1, row_entry name bindings b.1)) bindings).

(** [df.iterrows()]. *)
Definition iterrows (df : DataFrame) : list Series :=
  map (fun r => {| name := r.1; cells := row_cells r.1 (zip (columns df) r.2) |})
      (data df).

End Rows.

End pd.

(** ** ml_model.py *)

Module ml_model.

(** The fitted scaler and classifier are loaded from pickled artifacts;
    they are taken as given capabilities that may raise.  [transform]
    receives the feature list as passed to [np.array(...).reshape(1, -1)];
    [predict_proba] returns the class distribution of that single sample
    (row [0] of the array). *)
Record Scaler := { transform : list pyval -> result (list float) }.
Record Model := { predict_proba : list float -> result (list float) }.

Record DropoutPredictor := { model : option Model; scaler : option Scaler }.

Definition feature_names : list string :=
  [ "Marital status"; "Application mode"; "Application order"; "Course";
    "Daytime/evening attendance"; "Previous qualification"; "Nacionality";
    "Mother's qualification"; "Father's qualification"; "Mother's occupation";
    "Father's occupation"; "Displaced"; "Educational special needs"; "Debtor";
    "Tuition fees up to date"; "Gender"; "Scholarship holder"; "Age at enrollment";
    "International"; "Curricular units 1st sem (credited)";
    "Curricular units 1st sem (enrolled)"; "Curricular units 1st sem (evaluations)";
    "Curricular units 1st sem (approved)"; "Curricular units 1st sem (grade)";
    "Curricular units 1st sem (without evaluations)"; "Curricular units 2nd sem (credited)";
    "Curricular units 2nd sem (enrolled)"; "Curricular units 2nd sem (evaluations)";
    "Curricular units 2nd sem (approved)"; "Curricular units 2nd sem (grade)";
    "Curricular units 2nd sem (without evaluations)"; "Unemployment rate";
    "Inflation rate"; "GDP" ].

(** The literals [0.7] and [0.4] of [predict]. *)
Definition high_threshold : float := Eval vm_compute in PyFloat.literal "0.7".
Definition medium_threshold : float := Eval vm_compute in PyFloat.literal "0.4".

Definition risk_category_of (dropout_prob : float) : string :=
  if PyFloat.geb dropout_prob high_threshold then "High"
  else if PyFloat.geb dropout_prob medium_threshold then "Medium"
  else "Low".

(** [probabilities[1] if len(probabilities) > 1 else 0]; the int [0] of the
    else branch is the float zero it compares and converts as. *)
Definition dropout_prob_of (probabilities : list float) : float :=
  if (1 <? length probabilities)%nat then nth 1 probabilities PyFloat.zero
  else PyFloat.zero.

Definition predict (self : DropoutPredictor) (features : list pyval)
  : result (float * string * list string) :=
  match model self, scaler self with
  | Some m, Some sc =>
      features_scaled ← transform sc features;
      probabilities ← predict_proba m features_scaled;
      let dropout_prob := dropout_prob_of probabilities in
      Ok (dropout_prob, risk_category_of dropout_prob, [])
  | _, _ => Raise (ValueError "Model not loaded")
  end.

End ml_model.

(** ** app.py: the persisted tables *)

Module User.
Record t := {
  id : nat;
  username : string;
  email : string;
  password_hash : string;
  role : string
}.
End User.

Module Student.
(** [columns] holds the 34 attribute columns ([marital_status] ... [gdp])
    under their column names. *)
Record t := {
  id : nat;
  user_id : option nat;
  student_id : string;
  name : string;
  columns : dict;
  dropout_risk_score : option float;
  risk_category : string;
  last_prediction_date : option Z
}.
End Student.

Module Notification.
Record t := {
  id : nat;
  student_id : nat;
  counselor_id : nat;
  message : string;
  notification_type : string;
  is_read : bool
}.
End Notification.

(** The database: one list of rows per table, in rowid order.  The
    [created_at] and [updated_at] columns, filled by column defaults, are
    left out of the rows. *)
Record DB := {
  users : list User.t;
  students : list Student.t;
  notifications : list Notification.t
}.

(** The rowid SQLite gives to an inserted row: one more than the largest
    in use, [1] for an empty table. *)
Definition next_id (ids : list nat) : nat := S (foldr Nat.max O ids).

(** ** app.py: CSV helpers *)

Module app.

(** [to_int] and [to_float], the local helpers of [_csv_to_student_fields]. *)
Definition to_int (val : pd.value) (default : Z) : pyval :=
  let r :=
    missing ← pd.isna_truth val;
    if missing : bool then Ok default
    else (f ← pd.float_of val; PyFloat.to_int f) in
  match r with
  | Ok z => VInt z
  | Raise _ => VInt default
  end.

Definition to_float (val : pd.value) (default : float) : pyval :=
  let r :=
    missing ← pd.isna_truth val;
    if missing : bool then Ok default else pd.float_of val in
  match r with
  | Ok f => VFloat f
  | Raise _ => VFloat default
  end.

(** [str(row.get(label, default))]: the text of a cell, ["nan"] for NaN,
    the printed sub-series for a label that several columns carry. *)
Definition str_get (row : pd.Series) (label : string) (default : string) : string :=
  match pd.cells row !! label with
  | Some (pd.One (pd.Text s)) => s
  | Some (pd.One pd.NaN) => "nan"
  | Some (pd.Several text) => text
  | None => default
  end.

(** The dict literal of [_csv_to_student_fields], where [ordinal] is the
    value of [int(row.name)+1]. *)
Definition student_fields (row : pd.Series) (ordinal : Z) : dict :=
  let g k d := pd.get row k (VInt d) in
  let to_int' v := to_int v 0 in
  let to_float' v := to_float v PyFloat.zero in
  [ ("student_id", VStr (str_get row "student_id" ("CSV" ++ format_05d_int ordinal)));
    ("name", VStr (str_get row "name" ("Student " ++ str_of_int ordinal)));
    ("marital_status", to_int' (g "Marital status" 0));
    ("application_mode", to_int' (g "Application mode" 0));
    ("application_order", to_int' (g "Application order" 0));
    ("course", to_int' (g "Course" 0));
    ("daytime_evening_attendance", to_int' (g "Daytime/evening attendance" 0));
    ("previous_qualification", to_int' (g "Previous qualification" 0));
    ("nationality", to_int' (g "Nacionality" 0));
    ("mothers_qualification", to_int' (g "Mother's qualification" 0));
    ("fathers_qualification", to_int' (g "Father's qualification" 0));
    ("mothers_occupation", to_int' (g "Mother's occupation" 0));
    ("fathers_occupation", to_int' (g "Father's occupation" 0));
    ("displaced", to_int' (g "Displaced" 0));
    ("educational_special_needs", to_int' (g "Educational special needs" 0));
    ("debtor", to_int' (g "Debtor" 0));
    ("tuition_fees_up_to_date", to_int' (g "Tuition fees up to date" 1));
    ("gender", to_int' (g "Gender" 0));
    ("scholarship_holder", to_int' (g "Scholarship holder" 0));
    ("age_at_enrollment", to_int (g "Age at enrollment" 18) 18);
    ("international", to_int' (g "International" 0));
    ("curricular_units_1st_sem_credited", to_float' (g "Curricular units 1st sem (credited)" 0));
    ("curricular_units_1st_sem_enrolled", to_float' (g "Curricular units 1st sem (enrolled)" 0));
    ("curricular_units_1st_sem_evaluations", to_float' (g "Curricular units 1st sem (evaluations)" 0));
    ("curricular_units_1st_sem_approved", to_float' (g "Curricular units 1st sem (approved)" 0));
    ("curricular_units_1st_sem_grade", to_float' (g "Curricular units 1st sem (grade)" 0));
    ("curricular_units_1st_sem_without_evaluations", to_float' (g "Curricular units 1st sem (without evaluations)" 0));
    ("curricular_units_2nd_sem_credited", to_float' (g "Curricular units 2nd sem (credited)" 0));
    ("curricular_units_2nd_sem_enrolled", to_float' (g "Curricular units 2nd sem (enrolled)" 0));
    ("curricular_units_2nd_sem_evaluations", to_float' (g "Curricular units 2nd sem (evaluations)" 0));
    ("curricular_units_2nd_sem_approved", to_float' (g "Curricular units 2nd sem (approved)" 0));
    ("curricular_units_2nd_sem_grade", to_float' (g "Curricular units 2nd sem (grade)" 0));
    ("curricular_units_2nd_sem_without_evaluations", to_float' (g "Curricular units 2nd sem (without evaluations)" 0));
    ("unemployment_rate", to_float' (g "Unemployment rate" 0));
    ("inflation_rate", to_float' (g "Inflation rate" 0));
    ("gdp", to_float' (g "GDP" 0)) ].

(** The two defaults of the identity fields are f-strings over
    [int(row.name)+1]: they are evaluated, and may raise, before the [get]
    they are passed to; nothing else in the dict can raise. *)
Definition _csv_to_student_fields (row : pd.Series) : result dict :=
  i ← pd.int_name row;
  Ok (student_fields row (i + 1)).

(** The [defaults] dict of [_row_to_features], in insertion order. *)
Definition defaults : dict :=
  [ ("Marital status", VInt 0);
    ("Application mode", VInt 0);
    ("Application order", VInt 0);
    ("Course", VInt 0);
    ("Daytime/evening attendance", VInt 0);
    ("Previous qualification", VInt 0);
    ("Nacionality", VInt 0);
    ("Mother's qualification", VInt 0);
    ("Father's qualification", VInt 0);
    ("Mother's occupation", VInt 0);
    ("Father's occupation", VInt 0);
    ("Displaced", VInt 0);
    ("Educational special needs", VInt 0);
    ("Debtor", VInt 0);
    ("Tuition fees up to date", VInt 1);
    ("Gender", VInt 0);
    ("Scholarship holder", VInt 0);
    ("Age at enrollment", VInt 18);
    ("International", VInt 0);
    ("Curricular units 1st sem (credited)", VInt 0);
    ("Curricular units 1st sem (enrolled)", VInt 0);
    ("Curricular units 1st sem (evaluations)", VInt 0);
    ("Curricular units 1st sem (approved)", VInt 0);
    ("Curricular units 1st sem (grade)", VInt 0);
    ("Curricular units 1st sem (without evaluations)", VInt 0);
    ("Curricular units 2nd sem (credited)", VInt 0);
    ("Curricular units 2nd sem (enrolled)", VInt 0);
    ("Curricular units 2nd sem (evaluations)", VInt 0);
    ("Curricular units 2nd sem (approved)", VInt 0);
    ("Curricular units 2nd sem (grade)", VInt 0);
    ("Curricular units 2nd sem (without evaluations)", VInt 0);
    ("Unemployment rate", VInt 0);
    ("Inflation rate", VInt 0);
    ("GDP", VInt 0) ].

(** The body of the loop of [_row_to_features] for one entry of
    [defaults]: the value appended to [features].  Only [KeyError] and
    [ValueError] are caught. *)
Definition feature_value (row : pd.Series) (feature_name : string) (default_val : pyval)
  : result pyval :=
  let attempt :=
    val ← (if pd.contains row feature_name then pd.getitem row feature_name
           else Ok (pd.Scalar default_val));
    missing ← pd.isna_truth val;
    if missing || match val with pd.Scalar VNone => true | _ => false end
    then Ok default_val
    else VFloat <$> pd.float_of val in
  match attempt with
  | Ok v => Ok v
  | Raise KeyError | Raise (ValueError _) => Ok default_val
  | Raise e => Raise e
  end.

Definition _row_to_features (row : pd.Series) : result (list pyval) :=
  mapM (fun '(feature_name, default_val) => feature_value row feature_name default_val)
       defaults.

(** The float a default converts to ([float(default_val)]). *)
Definition default_float (d : pyval) : float :=
  match py_float d with
  | Ok f => f
  | Raise _ => PyFloat.nan
  end.

(** What makes the defaults harmless: each is a number that is not
    missing and converts to a finite float. *)
Definition good_default (d : pyval) : bool :=
  negb (pd.isna d) && finite_value d &&
  match py_float d with
  | Ok f => PyFloat.is_finite f
  | Raise _ => false
  end.

(** ** app.py: the routes *)

Definition str_exn (e : exn) : string :=
  match e with
  | KeyError => "KeyError"
  | ValueError msg => msg
  | TypeError => "TypeError"
  | OverflowError => "OverflowError"
  | IntegrityError => "IntegrityError"
  | ParserError msg => msg
  end.

(** The keys and defaults of the feature list built by [predict_dropout],
    in the order of its [data.get] calls. *)
Definition api_defaults : dict :=
  [ ("marital_status", VInt 0);
    ("application_mode", VInt 0);
    ("application_order", VInt 0);
    ("course", VInt 0);
    ("daytime_evening_attendance", VInt 0);
    ("previous_qualification", VInt 0);
    ("nationality", VInt 0);
    ("mothers_qualification", VInt 0);
    ("fathers_qualification", VInt 0);
    ("mothers_occupation", VInt 0);
    ("fathers_occupation", VInt 0);
    ("displaced", VInt 0);
    ("educational_special_needs", VInt 0);
    ("debtor", VInt 0);
    ("tuition_fees_up_to_date", VInt 1);
    ("gender", VInt 0);
    ("scholarship_holder", VInt 0);
    ("age_at_enrollment", VInt 18);
    ("international", VInt 0);
    ("curricular_units_1st_sem_credited", VInt 0);
    ("curricular_units_1st_sem_enrolled", VInt 0);
    ("curricular_units_1st_sem_evaluations", VInt 0);
    ("curricular_units_1st_sem_approved", VInt 0);
    ("curricular_units_1st_sem_grade", VInt 0);
    ("curricular_units_1st_sem_without_evaluations", VInt 0);
    ("curricular_units_2nd_sem_credited", VInt 0);
    ("curricular_units_2nd_sem_enrolled", VInt 0);
    ("curricular_units_2nd_sem_evaluations", VInt 0);
    ("curricular_units_2nd_sem_approved", VInt 0);
    ("curricular_units_2nd_sem_grade", VInt 0);
    ("curricular_units_2nd_sem_without_evaluations", VInt 0);
    ("unemployment_rate", VInt 0);
    ("inflation_rate", VInt 0);
    ("gdp", VInt 0) ].

(** [data.get(key, default)] on the JSON object of a request. *)
Definition data_get (data : gmap string pyval) (key : string) (d : pyval) : pyval :=
  default d (data !! key).

Definition request_features (data : gmap string pyval) : list pyval :=
  map (fun '(key, d) => data_get data key d) api_defaults.

Inductive PredictResponse :=
| PredictOk (risk_score : float) (risk_category : string) (recommendations : list string)
| PredictError (error : string).

Definition high_risk_message (student : Student.t) : string :=
  "Student " ++ Student.name student ++ " (" ++ Student.student_id student
  ++ ") is at HIGH risk of dropout. Immediate intervention recommended.".

(** [db.session.add(Notification(...))] followed by the commit: the row
    gets the next rowid and the column defaults. *)
Definition add_notification (student : Student.t)
  (table : list Notification.t) (counselor : User.t) : list Notification.t :=
  (table ++
   [ {| Notification.id := next_id (map Notification.id table);
        Notification.student_id := Student.id student;
        Notification.counselor_id := User.id counselor;
        Notification.message := high_risk_message student;
        Notification.notification_type := "high_risk_alert";
        Notification.is_read := false |} ])%list.

(** [User.query.filter_by(role='counselor').all()]. *)
Definition counselors (db : DB) : list User.t :=
  List.filter (fun u => String.eqb (User.role u) "counselor") (users db).

(** The assignments to [student] followed by the commit; the score column
    holds what SQLite keeps of the float. *)
Definition update_prediction (now : Z) (risk_score : float) (risk_category : string)
  (student : Student.t) : Student.t :=
  {| Student.id := Student.id student;
     Student.user_id := Student.user_id student;
     Student.student_id := Student.student_id student;
     Student.name := Student.name student;
     Student.columns := Student.columns student;
     Student.dropout_risk_score := sqlite_real risk_score;
     Student.risk_category := risk_category;
     Student.last_prediction_date := Some now |}.

Definition store_student (s' : Student.t) (table : list Student.t) : list Student.t :=
  map (fun s => if Nat.eqb (Student.id s) (Student.id s') then s' else s) table.

(** An uploaded file: its name and what [file.save] followed by
    [pd.read_csv(save_path, dtype=str)] gives for its content. *)
Record Upload := { filename : string; read_csv : result pd.DataFrame }.

Record Summary := {
  created : nat;
  updated : nat;
  total : nat;
  replaced_existing : bool;
  cleared_count : nat;
  file_name : string;
  import_date : Z;
  total_in_db : nat
}.

Record Preview := {
  student_id : string;
  name : string;
  risk_score : float;
  risk_category : string
}.

Inductive ImportResponse :=
| ImportOk (summary : Summary) (results : list Preview) (missing_columns : list string)
| ImportError (status : nat) (message : string).

Definition dict_str (k : string) (d : dict) : string :=
  match dict_get k d with
  | Some (VStr s) => s
  | _ => ""
  end.

(** The [Student] constructed from the dict built in the import loop: the fields
    of [_csv_to_student_fields] updated with the prediction.  The rowid is
    given at the flush; the columns hold what SQLite keeps of the values
    bound to them. *)
Definition new_student (fields : dict) (risk_score : float) (risk_category : string)
  (now : Z) : Student.t :=
  {| Student.id := O;
     Student.user_id := None;
     Student.student_id := dict_str "student_id" fields;
     Student.name := dict_str "name" fields;
     Student.columns :=
       map (fun kv => (kv.1, sqlite_value kv.2))
           (List.filter (fun '(k, _) => negb (String.eqb k "student_id" || String.eqb k "name"))
                        fields);
     Student.dropout_risk_score := sqlite_real risk_score;
     Student.risk_category := risk_category;
     Student.last_prediction_date := Some now |}.

Definition with_id (i : nat) (s : Student.t) : Student.t :=
  {| Student.id := i;
     Student.user_id := Student.user_id s;
     Student.student_id := Student.student_id s;
     Student.name := Student.name s;
     Student.columns := Student.columns s;
     Student.dropout_risk_score := Student.dropout_risk_score s;
     Student.risk_category := Student.risk_category s;
     Student.last_prediction_date := Student.last_prediction_date s |}.

(** An int bound to an INTEGER column must fit 64 bits. *)
Definition sqlite_ints_fit (s : Student.t) : bool :=
  forallb (fun kv => match kv.2 with
                     | VInt z => (- 2 ^ 63 <=? z) && (z <? 2 ^ 63)
                     | _ => true
                     end)
          (Student.columns s).

(** The INSERTs of a commit, in the order of the [add] calls;
    [student_id] is UNIQUE. *)
Fixpoint insert_students (table pending : list Student.t) : result (list Student.t) :=
  match pending with
  | [] => Ok table
  | s :: rest =>
      if negb (sqlite_ints_fit s) then Raise OverflowError
      else if existsb (fun s' => String.eqb (Student.student_id s') (Student.student_id s))
                      table
      then Raise IntegrityError
      else insert_students
             (table ++ [with_id (next_id (map Student.id table)) s])%list rest
  end.

(** [[col for col in predictor.feature_names if col not in df.columns]]. *)
Definition missing_columns (df : pd.DataFrame) : list string :=
  List.filter (fun col => negb (existsb (String.eqb col) (pd.columns df)))
              ml_model.feature_names.
Arguments missing_columns : simpl never.

(** [df.columns = df.columns.str.strip()]. *)
Definition strip_columns (df : pd.DataFrame) : pd.DataFrame :=
  {| pd.columns := map PyStr.strip (pd.columns df); pd.data := pd.data df |}.

Definition set_students (table : list Student.t) (db : DB) : DB :=
  {| users := users db; students := table; notifications := notifications db |}.

Definition set_notifications (table : list Notification.t) (db : DB) : DB :=
  {| users := users db; students := students db; notifications := table |}.

Section Routes.

(** The process-wide [predictor], the text SQLite compares the
    [student_id] column with for a bound parameter, and the text pandas
    prints for a sub-series. *)
Variable predictor : ml_model.DropoutPredictor.
Variable sql_text : pyval -> string.
Variable series_text : pd.label -> string -> list pd.cell -> string.

(** [Student.query.filter_by(student_id=student_id).first()]. *)
Definition find_student (student_id : pyval) (db : DB) : option Student.t :=
  List.find (fun s => String.eqb (Student.student_id s) (sql_text student_id))
            (students db).

(** POST /api/predict.  [now] is the reading of [datetime.utcnow()]. *)
Definition predict_dropout (now : Z) (data : gmap string pyval) (db : DB)
  : PredictResponse * DB :=
  let features := request_features data in
  match ml_model.predict predictor features with
  | Raise e => (PredictError (str_exn e), db)
  | Ok (risk_score, risk_category, recommendations) =>
      let student_id := data_get data "student_id" VNone in
      let db' :=
        if truthy student_id then
          match find_student student_id db with
          | Some student =>
              let student := update_prediction now risk_score risk_category student in
              let db1 := set_students (store_student student (students db)) db in
              if String.eqb risk_category "High" then
                set_notifications
                  (fold_left (add_notification student) (counselors db1)
                             (notifications db1))
                  db1
              else db1
          | None => db
          end
        else db in
      (PredictOk risk_score risk_category recommendations, db')
  end.

(** The body of the loop of [import_csv] for the [k]-th row: the student
    added to the session and the preview entry.  [utcnow k] is the row's
    reading of [datetime.utcnow()]. *)
Definition import_row (utcnow : nat -> Z) (k : nat) (row : pd.Series)
  : result (Student.t * Preview) :=
  features ← _row_to_features row;
  '(risk_score, risk_category, _) ← ml_model.predict predictor features;
  fields ← _csv_to_student_fields row;
  Ok (new_student fields risk_score risk_category (utcnow k),
      {| student_id := dict_str "student_id" fields;
         name := dict_str "name" fields;
         risk_score := risk_score;
         risk_category := risk_category |}).

(** The loop of [import_csv] over the rows, in the order [iterrows] yields
    them; it stops at the first exception. *)
Definition import_rows (utcnow : nat -> Z) (rows : list pd.Series)
  : result (list (Student.t * Preview)) :=
  mapM (fun kr => import_row utcnow kr.1 kr.2) (imap pair rows).

(** POST /api/import.  [utcnow k] is the [k]-th reading of the clock
    during the request: one per row, then one for [import_date].  The
    DELETE is committed before the loop; an exception in the loop or at the
    final commit rolls back the pending inserts only, an exception while
    reading the file comes before any change. *)
Definition import_csv (current_user : User.t) (file : option Upload)
  (utcnow : nat -> Z) (db : DB) : ImportResponse * DB :=
  if negb (String.eqb (User.role current_user) "counselor"
           || String.eqb (User.role current_user) "admin")
  then (ImportError 403 "Unauthorized", db)
  else
    match file with
    | None => (ImportError 400 "No file uploaded", db)
    | Some file =>
        if negb (PyStr.endswith (PyStr.lower (filename file)) ".csv")
        then (ImportError 400 "Please upload a .csv file", db)
        else
          match read_csv file with
          | Raise e => (ImportError 500 (str_exn e), db)
          | Ok raw =>
              let df := strip_columns raw in
              let missing_columns := missing_columns df in
              let existing_count := length (students db) in
              let db1 := set_students [] db in
              match import_rows utcnow (pd.iterrows series_text df) with
              | Raise e => (ImportError 500 (str_exn e), db1)
              | Ok added =>
                  match insert_students (students db1) (map fst added) with
                  | Raise e => (ImportError 500 (str_exn e), db1)
                  | Ok table =>
                      let db2 := set_students table db1 in
                      (ImportOk
                         {| created := length added;
                            updated := 0;
                            total := length added;
                            replaced_existing := true;
                            cleared_count := existing_count;
                            file_name := filename file;
                            import_date := utcnow (length added);
                            total_in_db := length (students db2) |}
                         (take 50 (map snd added))
                         missing_columns,
                       db2)
                  end
              end
          end
    end.

End Routes.

End app.

(** ** Sample artifacts and inputs

    Concrete stand-ins for the pickled artifacts, used to run the model on
    explicit inputs: a standard scaler fitted on [length mean] columns, which
    rejects any other width and any infinite entry and otherwise centres and
    scales each entry, and a classifier that returns a fixed distribution. *)

Module Sample.

Definition fdiv : float -> float -> float := SFdiv PyFloat.prec PyFloat.emax.
Definition fsub : float -> float -> float := SFsub PyFloat.prec PyFloat.emax.

Definition standard_scaler (mean scale : list float) : ml_model.Scaler :=
  {| ml_model.transform := fun x =>
       if negb (length x =? length mean)%nat
       then Raise (ValueError "X has a different number of features than the scaler is expecting")
       else
         xs ← mapM py_float x;
         if existsb (fun v => match v with S754_infinity _ => true | _ => false end) xs
         then Raise (ValueError "Input X contains infinity")
         else Ok (zip_with (fun v ms => fdiv (fsub v ms.1) ms.2) xs (zip mean scale)) |}.

Definition constant_model (distribution : list float) : ml_model.Model :=
  {| ml_model.predict_proba := fun _ => Ok distribution |}.

Definition one : float := Eval vm_compute in PyFloat.literal "1".

(** A scaler and classifier fitted on [n] columns (mean 0, scale 1). *)
Definition predictor (n : nat) (distribution : list float) : ml_model.DropoutPredictor :=
  {| ml_model.model := Some (constant_model distribution);
     ml_model.scaler := Some (standard_scaler (replicate n PyFloat.zero) (replicate n one)) |}.

Definition high_distribution : list float :=
  [PyFloat.literal "0.2"; PyFloat.literal "0.7"; PyFloat.literal "0.1"].

Definition low_distribution : list float :=
  [PyFloat.literal "0.8"; PyFloat.literal "0.1"; PyFloat.literal "0.1"].

(** The comparison of the [student_id] column with a bound string. *)
Definition sql_text (v : pyval) : string :=
  match v with
  | VStr s => s
  | _ => ""
  end.

(** A stand-in for the text pandas prints for a sub-series: the cells, one
    per line, then the name of the row. *)
Definition series_text (name : pd.label) (k : string) (cs : list pd.cell) : string :=
  foldr (fun c text => k ++ "    "
                       ++ match c with pd.Text s => s | pd.NaN => "NaN" end
                       ++ String "010" text)
        "" cs
  ++ "Name: "
  ++ match name with
     | pd.Label (VInt z) => str_of_int z
     | pd.Label (VStr s) => s
     | _ => ""
     end
  ++ ", dtype: object".

(** The row at position [i] of a frame with the default index. *)
Definition row (i : nat) (cs : list (string * pd.cell)) : pd.Series :=
  {| pd.name := pd.Label (VInt (Z.of_nat i)); pd.cells := pd.One <$> list_to_map cs |}.


Definition counselor : User.t :=
  {| User.id := 2%nat; User.username := "counselor";
     User.email := "counselor@university.edu"; User.password_hash := "";
     User.role := "counselor" |}.

Definition admin : User.t :=
  {| User.id := 1%nat; User.username := "admin";
     User.email := "admin@university.edu"; User.password_hash := "";
     User.role := "admin" |}.

Definition alice : Student.t :=
  {| Student.id := 7%nat; Student.user_id := None;
     Student.student_id := "S001"; Student.name := "Alice";
     Student.columns := [];
     Student.dropout_risk_score := Some PyFloat.zero;
     Student.risk_category := "Low";
     Student.last_prediction_date := None |}.

Definition db0 : DB :=
  {| users := [admin; counselor]; students := [alice]; notifications := [] |}.

Definition utcnow (k : nat) : Z := 1000 + Z.of_nat k.

(** A request for Alice and an anonymous one. *)
Definition request_for_alice : gmap string pyval :=
  {[ "student_id" := VStr "S001"; "debtor" := VInt 1 ]}.


(** A two-row file with neither identity column. *)
Definition two_rows : pd.DataFrame :=
  {| pd.columns := ["Debtor"; " Gender "];
     pd.data := pd.range_index [[pd.Text "1"; pd.Text "0"]; [pd.Text "0"; pd.NaN]] |}.

Definition upload : app.Upload :=
  {| app.filename := "students.CSV"; app.read_csv := Ok two_rows |}.

End Sample.

(** * More of the code *)

(** ** ml_model.py: construction of the predictor *)

Module ml_model_init.

Import ml_model.

(** What [joblib.load(path)] gives: the unpickled object, or
    [FileNotFoundError], or another exception. *)
Inductive loaded (A : Type) :=
| Loaded (a : A)
| FileNotFoundError
| LoadFailed (e : exn).
Arguments Loaded {A} a.
Arguments FileNotFoundError {A}.
Arguments LoadFailed {A} e.

(** The two files under [models/]. *)
Record ModelFiles := {
  dropout_model_pkl : loaded Model;
  scaler_pkl : loaded Scaler
}.

(** The outcome of [DropoutPredictor()]. *)
Inductive construction :=
| Built (self : DropoutPredictor)
| RuntimeError (msg : string)
| Propagated (e : exn).

Definition model_not_found : string :=
  "❌ Model not found. Please train it first using train_model.py".

(** [load_model], called by [__init__] on an object whose [model] and
    [scaler] are [None]: the model file is read first, then the scaler
    file. *)
Definition load_model (files : ModelFiles) : construction :=
  match dropout_model_pkl files with
  | FileNotFoundError => RuntimeError model_not_found
  | LoadFailed e => Propagated e
  | Loaded m =>
      match scaler_pkl files with
      | FileNotFoundError => RuntimeError model_not_found
      | LoadFailed e => Propagated e
      | Loaded sc => Built {| model := Some m; scaler := Some sc |}
      end
  end.

Definition __init__ (files : ModelFiles) : construction := load_model files.

(** The rank of a category, Low below Medium below High. *)
Definition risk_rank (category : string) : nat :=
  if String.eqb category "High" then 2
  else if String.eqb category "Medium" then 1
  else 0.

End ml_model_init.

(** ** app.py: the field tables side by side *)

Module app_fields.

Import app.

(** The conversion [_csv_to_student_fields] applies to the cell of the
    [i]-th schema field: [to_int] for the first nineteen (with the default
    18 for the age, 0 otherwise), [to_float] for the rest. *)
Definition csv_conversion (i : nat) (val : pd.value) : pyval :=
  if (i <? 19)%nat then to_int val (if (i =? 17)%nat then 18 else 0)
  else to_float val PyFloat.zero.

(** The categories the scorer produces. *)
Definition valid_category (category : string) : bool :=
  String.eqb category "High" || String.eqb category "Medium" || String.eqb category "Low".

(** The role test of the staff routes:
    [current_user.role in ['counselor', 'admin']]. *)
Definition staff (u : User.t) : Prop :=
  User.role u = "counselor" \/ User.role u = "admin".

(** The file-name test of the import:
    [file.filename.lower().endswith('.csv')]. *)
Definition csv_name (upload : Upload) : Prop :=
  PyStr.endswith (PyStr.lower (filename upload)) ".csv" = true.

End app_fields.

(** ** app.py: the anonymous quick prediction *)

Module app_quick.

Import app.

(** The eight form fields read by [quick_predict], in the order of its
    conversions, and the 34-entry vector built from them. *)
Definition quick_features (data : gmap string pyval) : result (list pyval) :=
  age ← py_float (data_get data "age_at_enrollment" (VInt 20));
  gender ← py_int (data_get data "gender" (VInt 0));
  g1 ← py_float (data_get data "curricular_units_1st_sem_grade" (VInt 12));
  g2 ← py_float (data_get data "curricular_units_2nd_sem_grade" (VInt 12));
  tuition ← py_int (data_get data "tuition_fees_up_to_date" (VInt 1));
  scholarship ← py_int (data_get data "scholarship_holder" (VInt 0));
  approved1 ← py_int (data_get data "curricular_units_1st_sem_approved" (VInt 5));
  approved2 ← py_int (data_get data "curricular_units_2nd_sem_approved" (VInt 5));
  Ok [ VInt 0; VInt 1; VInt 1; VInt 1; VInt 0; VInt 1; VInt 1;
       VInt 1; VInt 1; VInt 1; VInt 1;
       VInt 0; VInt 0;
       VInt 0; VInt tuition; VInt gender; VInt scholarship; VFloat age; VInt 0;
       VInt 0; VInt 6; VInt 6; VInt approved1; VFloat g1; VInt 0;
       VInt 0; VInt 6; VInt 6; VInt approved2; VFloat g2; VInt 0;
       VInt 8; VInt 2; VInt 2 ].

Inductive QuickResponse :=
| QuickOk (risk_score : float) (risk_category : string) (recommendations : list string)
| QuickError (status : nat) (message : string).

(** POST /api/predict/quick. *)
Definition quick_predict (predictor : ml_model.DropoutPredictor)
  (data : gmap string pyval) : QuickResponse :=
  match (features ← quick_features data; ml_model.predict predictor features) with
  | Ok (risk_score, risk_category, _) => QuickOk risk_score risk_category []
  | Raise e => QuickError 400 (str_exn e)
  end.

(** The form fields, by the conversion [quick_predict] applies. *)
Definition int_fields : list string :=
  [ "gender"; "tuition_fees_up_to_date"; "scholarship_holder";
    "curricular_units_1st_sem_approved"; "curricular_units_2nd_sem_approved" ].

Definition float_fields : list string :=
  [ "age_at_enrollment"; "curricular_units_1st_sem_grade";
    "curricular_units_2nd_sem_grade" ].

End app_quick.

(** ** app.py and init_db.py: the default accounts *)

Module app_users.

(** [User.query.filter_by(username=username).first()]. *)
Definition find_user (username : string) (table : list User.t) : option User.t :=
  List.find (fun u => String.eqb (User.username u) username) table.

(** [User(username=..., email=..., role=...)] followed by [set_password]:
    the object before it is flushed. *)
Definition new_user (username email role password_hash : string) : User.t :=
  {| User.id := O; User.username := username; User.email := email;
     User.password_hash := password_hash; User.role := role |}.

Definition with_id (i : nat) (u : User.t) : User.t :=
  {| User.id := i; User.username := User.username u; User.email := User.email u;
     User.password_hash := User.password_hash u; User.role := User.role u |}.

(** The INSERT of one user; [username] and [email] are UNIQUE. *)
Definition insert_user (table : list User.t) (u : User.t) : result (list User.t) :=
  if existsb (fun u' => String.eqb (User.username u') (User.username u)
                        || String.eqb (User.email u') (User.email u)) table
  then Raise IntegrityError
  else Ok (table ++ [with_id (next_id (map User.id table)) u])%list.

Definition set_users (table : list User.t) (db : DB) : DB :=
  {| users := table; students := students db; notifications := notifications db |}.

Section Hashing.

(** [werkzeug.security.generate_password_hash] during one run. *)
Variable generate_password_hash : string -> string.

Definition default_admin : User.t :=
  new_user "admin" "admin@university.edu" "admin" (generate_password_hash "admin123").

Definition default_counselor : User.t :=
  new_user "counselor" "counselor@university.edu" "counselor"
           (generate_password_hash "counselor123").

(** The session of [create_default_users] up to its commit: the admin
    pending from the first [add] is flushed by the second query, the
    counselor by the commit. *)
Definition default_users_session (table : list User.t) : result (list User.t) :=
  table1 ← match find_user "admin" table with
           | None => insert_user table default_admin
           | Some _ => Ok table
           end;
  match find_user "counselor" table1 with
  | None => insert_user table1 default_counselor
  | Some _ => Ok table1
  end.

(** [create_default_users]: any exception is caught and the session
    rolled back. *)
Definition create_default_users (db : DB) : DB :=
  match default_users_session (users db) with
  | Ok table => set_users table db
  | Raise _ => db
  end.

End Hashing.

End app_users.

Module init_db.

Import app_users.

Section Hashing.

Variable generate_password_hash : string -> string.

(** [create_admin_user]: [User] has no [password] attribute, so the
    constructor call raises [TypeError]. *)
Definition create_admin_user (db : DB) : result (list string) * DB :=
  match find_user "admin" (users db) with
  | None => (Raise TypeError, db)
  | Some _ => (Ok [], db)
  end.

(** [create_counselor]; an exception at the commit is not caught. *)
Definition create_counselor (db : DB) : result (list string) * DB :=
  match find_user "counselor" (users db) with
  | None =>
      match insert_user (users db) (default_counselor generate_password_hash) with
      | Ok table => (Ok ["counselor"], set_users table db)
      | Raise e => (Raise e, db)
      end
  | Some _ => (Ok [], db)
  end.

(** [main], on a database whose tables exist: the names of the created
    users, or the exception that ended the script. *)
Definition main (db : DB) : result (list string) * DB :=
  match create_admin_user db with
  | (Raise e, db1) => (Raise e, db1)
  | (Ok created_admin, db1) =>
      match create_counselor db1 with
      | (Raise e, db2) => (Raise e, db2)
      | (Ok created_counselor, db2) => (Ok (created_admin ++ created_counselor)%list, db2)
      end
  end.

End Hashing.

End init_db.

(** ** app.py: the read routes *)

Module app_read.

Import app.

(** [Student.query.filter_by(student_id=student_id).first()] for the
    string of the URL. *)
Definition find_by_student_id (student_id : string) (db : DB) : option Student.t :=
  List.find (fun s => String.eqb (Student.student_id s) student_id) (students db).

(** [Student.query.get(id)]. *)
Definition get_by_id (id : nat) (db : DB) : option Student.t :=
  List.find (fun s => Nat.eqb (Student.id s) id) (students db).

(** An attribute column of a student; [None] when the row has no value. *)
Definition attr (column : string) (s : Student.t) : pyval :=
  default VNone (dict_get column (Student.columns s)).

(** The JSON object [get_student] answers with.  A date stands for its
    [isoformat()] text. *)
Record StudentData := {
  data_id : nat;
  data_student_id : string;
  data_name : string;
  data_risk_score : option float;
  data_risk_category : string;
  data_last_prediction_date : option Z;
  data_age_at_enrollment : pyval;
  data_gender : pyval;
  data_scholarship_holder : pyval
}.

Inductive StudentResponse :=
| StudentOk (student : StudentData)
| StudentError (message : string).

(** GET /api/student/<student_id>. *)
Definition get_student (current_user : User.t) (student_id : string) (db : DB)
  : StudentResponse :=
  match find_by_student_id student_id db with
  | None => StudentError "Student not found"
  | Some student =>
      if String.eqb (User.role current_user) "student"
         && negb (bool_decide (Student.user_id student = Some (User.id current_user)))
      then StudentError "Unauthorized"
      else StudentOk
             {| data_id := Student.id student;
                data_student_id := Student.student_id student;
                data_name := Student.name student;
                data_risk_score := Student.dropout_risk_score student;
                data_risk_category := Student.risk_category student;
                data_last_prediction_date := Student.last_prediction_date student;
                data_age_at_enrollment := attr "age_at_enrollment" student;
                data_gender := attr "gender" student;
                data_scholarship_holder := attr "scholarship_holder" student |}
  end.

(** One object of the list [get_students] answers with. *)
Record StudentRow := {
  row_id : nat;
  row_student_id : string;
  row_name : string;
  row_age_at_enrollment : pyval;
  row_gender : pyval;
  row_scholarship_holder : pyval;
  row_tuition_fees_up_to_date : pyval;
  row_curricular_units_1st_sem_grade : pyval;
  row_curricular_units_1st_sem_approved : pyval;
  row_curricular_units_2nd_sem_grade : pyval;
  row_curricular_units_2nd_sem_approved : pyval;
  row_risk_score : option float;
  row_risk_category : string;
  row_last_prediction_date : option Z
}.

Definition student_row (student : Student.t) : StudentRow :=
  {| row_id := Student.id student;
     row_student_id := Student.student_id student;
     row_name := Student.name student;
     row_age_at_enrollment := attr "age_at_enrollment" student;
     row_gender := attr "gender" student;
     row_scholarship_holder := attr "scholarship_holder" student;
     row_tuition_fees_up_to_date := attr "tuition_fees_up_to_date" student;
     row_curricular_units_1st_sem_grade := attr "curricular_units_1st_sem_grade" student;
     row_curricular_units_1st_sem_approved := attr "curricular_units_1st_sem_approved" student;
     row_curricular_units_2nd_sem_grade := attr "curricular_units_2nd_sem_grade" student;
     row_curricular_units_2nd_sem_approved := attr "curricular_units_2nd_sem_approved" student;
     row_risk_score := Student.dropout_risk_score student;
     row_risk_category := Student.risk_category student;
     row_last_prediction_date := Student.last_prediction_date student |}.

Inductive StudentsResponse :=
| StudentsOk (students : list StudentRow)
| StudentsError (message : string).

(** GET /api/students. *)
Definition get_students (current_user : User.t) (db : DB) : StudentsResponse :=
  if negb (String.eqb (User.role current_user) "counselor"
           || String.eqb (User.role current_user) "admin")
  then StudentsError "Unauthorized"
  else StudentsOk (map student_row (students db)).

(** One object of the list [get_notifications] answers with. *)
Record NotificationRow := {
  note_id : nat;
  note_message : string;
  note_student_name : string;
  note_type : string;
  note_created_at : Z
}.

Inductive NotificationsResponse :=
| NotificationsOk (notifications : list NotificationRow)
| NotificationsError (message : string).

Section Notifications.

(** The [created_at] column of a notification, and the rows of a query in
    the order [ORDER BY created_at DESC] returns them. *)
Variable created_at : Notification.t -> Z.
Variable order_by_created_at_desc : list Notification.t -> list Notification.t.

(** [student.name if student else 'Unknown'] for the student the
    notification points to. *)
Definition student_name (db : DB) (notification : Notification.t) : string :=
  match get_by_id (Notification.student_id notification) db with
  | Some student => Student.name student
  | None => "Unknown"
  end.

Definition notification_row (db : DB) (notification : Notification.t) : NotificationRow :=
  {| note_id := Notification.id notification;
     note_message := Notification.message notification;
     note_student_name := student_name db notification;
     note_type := Notification.notification_type notification;
     note_created_at := created_at notification |}.

(** GET /api/notifications. *)
Definition get_notifications (current_user : User.t) (db : DB) : NotificationsResponse :=
  if negb (String.eqb (User.role current_user) "counselor"
           || String.eqb (User.role current_user) "admin")
  then NotificationsError "Unauthorized"
  else
    let notifications :=
      take 10 (order_by_created_at_desc
                 (List.filter (fun n => Nat.eqb (Notification.counselor_id n)
                                                (User.id current_user)
                                        && negb (Notification.is_read n))
                              (notifications db))) in
    NotificationsOk (map (notification_row db) notifications).

End Notifications.

End app_read.

(** ** app.py: the figures of the dashboards *)

Module app_analytics.

Import app app_read.

Definition fmul : float -> float -> float := SFmul PyFloat.prec PyFloat.emax.

(** [a / b] for two positive ints: the binary64 number nearest to the
    quotient. *)
Definition true_div (a b : positive) : float :=
  let '(q, e, l) := SFdiv_core_binary PyFloat.prec PyFloat.emax (Zpos a) 0 (Zpos b) 0 in
  binary_round_aux PyFloat.prec PyFloat.emax false q e l.

(** The integer nearest to [n / d], ties to even, for [d > 0]. *)
Definition div_half_even (n d : Z) : Z :=
  let q := n / d in
  let r := n mod d in
  if 2 * r <? d then q
  else if d <? 2 * r then q + 1
  else if Z.even q then q else q + 1.

(** [round(x, 1)] for a float: the exact value is rounded to one decimal
    (ties to even) and the decimal is read back as a float. *)
Definition round1 (x : float) : float :=
  match x with
  | S754_finite s m e =>
      let tenths :=
        if 0 <=? e then Zpos m * 10 * 2 ^ e
        else div_half_even (Zpos m * 10) (2 ^ (- e)) in
      PyFloat.of_decimal s (Z.to_N tenths) (-1)
  | _ => x
  end.

Definition hundred : float := Eval vm_compute in PyFloat.literal "100".

(** [Student.query.filter_by(risk_category=category).count()]. *)
Definition count_category (category : string) (db : DB) : nat :=
  length (List.filter (fun s => String.eqb (Student.risk_category s) category) (students db)).

(** [round(success_rate, 1)], where [success_rate] is
    [(total - high) / total * 100] when there are students and the given
    value otherwise. *)
Definition success_rate (total high : nat) (otherwise : pyval) : pyval :=
  if (0 <? total)%nat then
    match N.of_nat (total - high), N.of_nat total with
    | Npos a, Npos b => VFloat (round1 (fmul (true_div a b) hundred))
    | _, _ => VFloat (round1 (fmul PyFloat.zero hundred))
    end
  else
    match otherwise with
    | VFloat f => VFloat (round1 f)
    | v => v
    end.

(** Thirty days, in the microseconds the clock counts. *)
Definition thirty_days : Z := 30 * 86400 * 1000000.

Record Analytics := {
  total_students : nat;
  high_risk : nat;
  medium_risk : nat;
  low_risk : nat;
  rounded_success_rate : pyval;
  active_interventions : nat
}.

Inductive AnalyticsResponse :=
| AnalyticsOk (analytics : Analytics)
| AnalyticsError (message : string).

(** The [student_data] of the student dashboard. *)
Record DashboardData := {
  dash_id : nat;
  dash_student_id : string;
  dash_name : string;
  dash_risk_score : option float;
  dash_risk_category : string;
  dash_age_at_enrollment : pyval;
  dash_scholarship_holder : pyval;
  dash_last_prediction_date : option Z
}.

(** The template a page renders and what it is given. *)
Inductive Page :=
| student_dashboard (student_data : option DashboardData)
| admin_dashboard (analytics : Analytics)
| university_dashboard (analytics : Analytics)
| index_page (analytics : Analytics)
| redirect_index.

Section Clock.

(** The [created_at] column of a notification and the reading of
    [datetime.utcnow()], in microseconds. *)
Variable created_at : Notification.t -> Z.
Variable now : Z.

(** [Notification.query.filter(Notification.created_at >= thirty_days_ago).count()]. *)
Definition count_active (db : DB) : nat :=
  length (List.filter (fun n => now - thirty_days <=? created_at n) (notifications db)).

(** The figures computed by [get_analytics] and by the staff dashboards. *)
Definition figures (db : DB) : Analytics :=
  let total := length (students db) in
  let high := count_category "High" db in
  {| total_students := total;
     high_risk := high;
     medium_risk := count_category "Medium" db;
     low_risk := count_category "Low" db;
     rounded_success_rate := success_rate total high (VInt 0);
     active_interventions := count_active db |}.

(** GET /api/analytics. *)
Definition get_analytics (current_user : User.t) (db : DB) : AnalyticsResponse :=
  if negb (String.eqb (User.role current_user) "counselor"
           || String.eqb (User.role current_user) "admin")
  then AnalyticsError "Unauthorized"
  else AnalyticsOk (figures db).

(** GET /: the home page, with its placeholder figures. *)
Definition index (db : DB) : Page :=
  let total := length (students db) in
  let high := count_category "High" db in
  let active := count_active db in
  index_page
    {| total_students := if (0 <? total)%nat then total else 1247%nat;
       high_risk := if (0 <? total)%nat then high else 89%nat;
       medium_risk := count_category "Medium" db;
       low_risk := count_category "Low" db;
       rounded_success_rate :=
         success_rate total high (VFloat (PyFloat.literal "87.3"));
       active_interventions := if (0 <? active)%nat then active else 156%nat |}.

(** GET /dashboard. *)
Definition dashboard (current_user : User.t) (db : DB) : Page :=
  if String.eqb (User.role current_user) "student" then
    student_dashboard
      (match List.find (fun s => bool_decide (Student.user_id s = Some (User.id current_user)))
                       (students db) with
       | Some student =>
           Some {| dash_id := Student.id student;
                   dash_student_id := Student.student_id student;
                   dash_name := Student.name student;
                   dash_risk_score := Student.dropout_risk_score student;
                   dash_risk_category := Student.risk_category student;
                   dash_age_at_enrollment := attr "age_at_enrollment" student;
                   dash_scholarship_holder := attr "scholarship_holder" student;
                   dash_last_prediction_date := Student.last_prediction_date student |}
       | None => None
       end)
  else if String.eqb (User.role current_user) "admin" then admin_dashboard (figures db)
  else if String.eqb (User.role current_user) "counselor" then university_dashboard (figures db)
  else redirect_index.

End Clock.

End app_analytics.

(** ** More sample inputs *)

Module Scenario.

(** A two-row file that names its students, and one whose rows share an
    identifier. *)
Definition named_rows : pd.DataFrame :=
  {| pd.columns := ["student_id"; "name"; "Debtor"];
     pd.data := pd.range_index [[pd.Text "S1"; pd.Text "Ann"; pd.Text "1"];
                                    [pd.Text "S2"; pd.Text "Bob"; pd.Text "0"]] |}.

Definition named_upload : app.Upload :=
  {| app.filename := "cohort.csv"; app.read_csv := Ok named_rows |}.

Definition duplicate_rows : pd.DataFrame :=
  {| pd.columns := ["student_id"; "name"];
     pd.data := pd.range_index [[pd.Text "S1"; pd.Text "Ann"];
                                    [pd.Text "S1"; pd.Text "Bob"]] |}.

Definition duplicate_upload : app.Upload :=
  {| app.filename := "cohort.csv"; app.read_csv := Ok duplicate_rows |}.

(** A one-row file with the default index ([Debtor], then [1]), and a
    request for the record an import of it stores. *)
Definition one_row : pd.DataFrame :=
  {| pd.columns := ["Debtor"]; pd.data := pd.range_index [[pd.Text "1"]] |}.

Definition one_row_upload : app.Upload :=
  {| app.filename := "one.csv"; app.read_csv := Ok one_row |}.

Definition request_for_imported : gmap string pyval :=
  {[ "student_id" := VStr "CSV00001"; "debtor" := VInt 1 ]}.

(** Files whose data rows have one field more than the header, so that
    [read_csv] takes the first field of each row as its index label: the
    lines [Debtor], [7,1], [7,0], and the lines [Debtor], [41,1].  [seven]
    and [forty_one] are the labels read from the fields [7] and [41]. *)
Definition indexed_rows (seven : pyval) : pd.DataFrame :=
  {| pd.columns := ["Debtor"];
     pd.data := [(pd.Label seven, [pd.Text "1"]); (pd.Label seven, [pd.Text "0"])] |}.

Definition indexed_upload (seven : pyval) : app.Upload :=
  {| app.filename := "rows.csv"; app.read_csv := Ok (indexed_rows seven) |}.

Definition indexed_row (forty_one : pyval) : pd.DataFrame :=
  {| pd.columns := ["Debtor"]; pd.data := [(pd.Label forty_one, [pd.Text "1"])] |}.

Definition indexed_row_upload (forty_one : pyval) : app.Upload :=
  {| app.filename := "row.csv"; app.read_csv := Ok (indexed_row forty_one) |}.

(** A file with the header [student_id], [student_id ] (a space after
    the second), whose two column labels are equal once stripped. *)
Definition repeated_label_rows : pd.DataFrame :=
  {| pd.columns := ["student_id"; "student_id "];
     pd.data := pd.range_index [[pd.Text "S1"; pd.Text "S1"]; [pd.Text "S1"; pd.Text "S1"]] |}.

Definition repeated_label_upload : app.Upload :=
  {| app.filename := "cohort.csv"; app.read_csv := Ok repeated_label_rows |}.

(** A no-break space (U+00A0), in UTF-8. *)
Definition nbsp : string := String "194" (String "160" "").

(** A student account, and an account that holds the counselor's default
    e-mail address under another name. *)
Definition student_user : User.t :=
  {| User.id := 3%nat; User.username := "ann"; User.email := "ann@university.edu";
     User.password_hash := ""; User.role := "student" |}.

Definition bob : User.t :=
  {| User.id := 1%nat; User.username := "bob"; User.email := "counselor@university.edu";
     User.password_hash := ""; User.role := "student" |}.

Definition taken_email_db : DB :=
  {| users := [bob]; students := []; notifications := [] |}.

Definition hash (password : string) : string := "pbkdf2:" ++ password.

Definition check_password_hash (pwhash : string) (password : pyval) : result bool :=
  match password with
  | VStr p => Ok (String.eqb pwhash (hash p))
  | _ => Raise TypeError
  end.

Definition empty_db : DB := {| users := []; students := []; notifications := [] |}.

Definition admin_login : gmap string pyval :=
  {[ "username" := VStr "admin"; "password" := VStr "admin123" ]}.

(** A request of the home-page form, and the same with a null field. *)
Definition form_request : gmap string pyval :=
  {[ "age_at_enrollment" := VFloat (PyFloat.literal "19.5");
     "gender" := VInt 1;
     "curricular_units_1st_sem_grade" := VFloat (PyFloat.literal "12.5");
     "curricular_units_2nd_sem_grade" := VFloat (PyFloat.literal "11.0");
     "tuition_fees_up_to_date" := VInt 1;
     "scholarship_holder" := VInt 0;
     "curricular_units_1st_sem_approved" := VInt 5;
     "curricular_units_2nd_sem_approved" := VInt 4 ]}.

Definition null_request : gmap string pyval := {[ "gender" := VNone ]}.

(** Two unread alerts for the counselor, raised for the records with the
    rowids 7 and 1, with their creation times; and a descending sort on
    these. *)
Definition alert (id student_id : nat) : Notification.t :=
  {| Notification.id := id; Notification.student_id := student_id;
     Notification.counselor_id := 2%nat;
     Notification.message := app.high_risk_message Sample.alice;
     Notification.notification_type := "high_risk_alert";
     Notification.is_read := false |}.

Definition alert_db : DB :=
  {| users := [Sample.admin; Sample.counselor]; students := [Sample.alice];
     notifications := [alert 1 7; alert 2 1] |}.

Definition created_at (n : Notification.t) : Z := 500 + Z.of_nat (Notification.id n).

Fixpoint insert_desc (n : Notification.t) (l : list Notification.t) : list Notification.t :=
  match l with
  | [] => [n]
  | m :: l' => if created_at m <? created_at n then n :: l else m :: insert_desc n l'
  end.

Definition order_desc (l : list Notification.t) : list Notification.t :=
  foldr insert_desc [] l.

End Scenario.

(** ** app.py: logging in *)

Module app_login.

Import app app_users.

Inductive LoginResponse :=
| LoginOk (role : string) (redirect : string)
| LoginFailed (message : string)
| LoginRaised (e : exn).

Section Login.

(** [werkzeug.security.check_password_hash] on the stored hash and the
    [password] of the request, and the text SQLite compares the [username]
    column with for a bound parameter. *)
Variable check_password_hash : string -> pyval -> result bool.
Variable sql_text : pyval -> string.

(** [User.query.filter_by(username=username).first()]; [None] is
    compared with [IS NULL], which no row satisfies. *)
Definition user_named (username : pyval) (db : DB) : option User.t :=
  match username with
  | VNone => None
  | VStr s => find_user s (users db)
  | v => find_user (sql_text v) (users db)
  end.

(** POST /login: the answer and the user [login_user] puts into the
    session. *)
Definition login (data : gmap string pyval) (db : DB) : LoginResponse * option User.t :=
  let username := data_get data "username" VNone in
  let password := data_get data "password" VNone in
  match user_named username db with
  | Some user =>
      match check_password_hash (User.password_hash user) password with
      | Raise e => (LoginRaised e, None)
      | Ok true => (LoginOk (User.role user) "/dashboard", Some user)
      | Ok false => (LoginFailed "Invalid password", None)
      end
  | None => (LoginFailed "User not found", None)
  end.

End Login.

End app_login.

(** * Properties *)

(** ** The Python model on concrete values *)

Example float_literals :
  PyFloat.literal "0.7" = S754_finite false 6305039478318694 (-53) /\
  PyFloat.literal "0.4" = S754_finite false 7205759403792794 (-54) /\
  PyFloat.literal "0.3999" = S754_finite false 7203957963941845 (-54) /\
  PyFloat.literal "1e23" = S754_finite false 5960464477539062 24.
Proof. repeat split; vm_compute; reflexivity. Qed.

Example float_of_text :
  PyFloat.of_string " 12.5 " = Some (S754_finite false 7036874417766400 (-49)) /\
  PyFloat.of_string "1_000" = PyFloat.of_string "1e3" /\
  PyFloat.of_string "inf" = Some PyFloat.inf /\
  PyFloat.of_string "-Infinity" = Some (S754_infinity true) /\
  PyFloat.of_string "1e999" = Some PyFloat.inf /\
  PyFloat.of_string " nan" = Some PyFloat.nan /\
  PyFloat.of_string "" = None /\
  PyFloat.of_string "abc" = None /\
  PyFloat.of_string "1e" = None /\
  PyFloat.of_string "1__0" = None.
Proof. repeat split; vm_compute; reflexivity. Qed.

(** A no-break space (U+00A0) and the Arabic-Indic digits one and two
    (U+0661, U+0662), in UTF-8. *)
Example float_of_unicode_text :
  let nbsp := String "194" (String "160" "") in
  let arabic_12 := String "217" (String "161" (String "217" (String "162" "")) ) in
  PyFloat.of_string (nbsp ++ "12") = PyFloat.of_string "12" /\
  PyFloat.of_string arabic_12 = PyFloat.of_string "12" /\
  int_of_string (nbsp ++ arabic_12) = Some 12 /\
  PyStr.strip (nbsp ++ "Debtor" ++ nbsp) = "Debtor" /\
  PyFloat.of_string (String "195" (String "169" "")) = None.
Proof. repeat split; vm_compute; reflexivity. Qed.

Example to_int_examples :
  app.to_int (pd.Scalar (VStr "2.9")) 0 = VInt 2 /\
  app.to_int (pd.Scalar (VStr "-2.9")) 0 = VInt (-2) /\
  app.to_int (pd.Scalar (VStr "inf")) 0 = VInt 0 /\
  app.to_int (pd.Scalar (VFloat PyFloat.nan)) 18 = VInt 18 /\
  app.to_int (pd.Scalar (VInt 1)) 0 = VInt 1 /\
  app.to_int (pd.SubSeries "Debtor    1") 0 = VInt 0.
Proof. repeat split; vm_compute; reflexivity. Qed.

Example format_05d_examples :
  format_05d 1 = "00001" /\ format_05d 42 = "00042" /\ format_05d 4999 = "04999" /\
  format_05d_int 42 = "00042" /\ format_05d_int 123456 = "123456" /\
  format_05d_int (-5) = "-0005" /\ str_of_int (-5) = "-5".
Proof. repeat split; vm_compute; reflexivity. Qed.

Example sqlite_real_examples :
  sqlite_real PyFloat.nan = None /\
  sqlite_real (S754_zero true) = Some PyFloat.zero /\
  sqlite_real PyFloat.inf = Some PyFloat.inf /\
  sqlite_real (PyFloat.literal "0.7") = Some (PyFloat.literal "0.7").
Proof. repeat split; vm_compute; reflexivity. Qed.

(** ** Comparison of binary64 numbers *)

Section FloatOrder.

Local Open Scope Z_scope.

(** Swapping the operands of a float comparison reverses its outcome. *)
Lemma SFcompare_swap (x y : float) :
  SFcompare y x = CompOpp <$> SFcompare x y.
Proof.
  destruct x as [sx|sx| |sx mx ex], y as [sy|sy| |sy my ey]; simpl;
    try reflexivity;
    try (destruct sx; reflexivity);
    try (destruct sy; reflexivity);
    try (destruct sx, sy; reflexivity).
  pose proof (Pos.compare_cont_antisym mx my Eq) as Hm. simpl in Hm.
  destruct sx, sy; simpl; try reflexivity;
    rewrite (Z.compare_antisym ex ey), <- Hm;
    destruct (ex ?= ey), (Pos.compare_cont Eq mx my); reflexivity.
Qed.

(** [a < b] excludes [a >= b]. *)
Lemma ltb_not_geb (a b : float) :
  PyFloat.ltb a b = true -> PyFloat.geb a b = false.
Proof.
  unfold PyFloat.ltb, PyFloat.geb, PyFloat.leb, SFltb, SFleb.
  rewrite (SFcompare_swap a b).
  destruct (SFcompare a b) as [[]|]; simpl; congruence.
Qed.

(** Two numbers that compare at all are ordered one way or the other. *)
Lemma not_geb_ltb (a b c : float) :
  PyFloat.geb a c = true -> PyFloat.is_nan b = false ->
  PyFloat.geb a b = false -> PyFloat.ltb a b = true.
Proof.
  unfold PyFloat.ltb, PyFloat.geb, PyFloat.leb, SFltb, SFleb.
  rewrite (SFcompare_swap a b).
  intros Hc Hb.
  assert (Ha : PyFloat.is_nan a = false).
  { destruct a; try reflexivity. destruct c; discriminate. }
  destruct a, b; try discriminate; simpl;
    repeat match goal with
           | |- context [if ?s then _ else _] => destruct s
           | |- context [(?x ?= ?y)%Z] => destruct (x ?= y)%Z
           | |- context [Pos.compare_cont ?c ?x ?y] => destruct (Pos.compare_cont c x y)
           end; simpl; congruence.
Qed.

End FloatOrder.

(** ** The scorer: thresholds of [DropoutPredictor.predict] *)

Section Scorer.

Import ml_model.

Lemma predict_inv self features p c recs :
  predict self features = Ok (p, c, recs) ->
  exists m sc y probabilities,
    model self = Some m /\ scaler self = Some sc /\
    transform sc features = Ok y /\ predict_proba m y = Ok probabilities /\
    p = dropout_prob_of probabilities /\ c = risk_category_of p /\ recs = [].
Proof.
  unfold predict.
  destruct (model self) as [m|], (scaler self) as [sc|]; try discriminate.
  unfold mbind, result_bind.
  destruct (transform sc features) as [y|] eqn:Ht; try discriminate.
  destruct (predict_proba m y) as [pr|] eqn:Hp; try discriminate.
  intros [= <- <- <-]. exists m, sc, y, pr. repeat split; assumption.
Qed.

(** The category of a probability, by the two fixed thresholds. *)
Lemma risk_category_of_spec (p : float) :
  (PyFloat.geb p high_threshold = true -> risk_category_of p = "High") /\
  (PyFloat.geb p medium_threshold = true -> PyFloat.ltb p high_threshold = true ->
   risk_category_of p = "Medium") /\
  (PyFloat.geb p high_threshold = false ->
   PyFloat.geb p medium_threshold && PyFloat.ltb p high_threshold = false ->
   risk_category_of p = "Low").
Proof.
  unfold risk_category_of. repeat split.
  - intros ->. reflexivity.
  - intros Hm Hlt. rewrite (ltb_not_geb _ _ Hlt), Hm. reflexivity.
  - intros Hh Hn. rewrite Hh.
    destruct (PyFloat.geb p medium_threshold) eqn:Hm; [|reflexivity].
    rewrite (not_geb_ltb p high_threshold medium_threshold Hm eq_refl Hh) in Hn.
    discriminate.
Qed.

(** C1. For every distribution the classifier returns on the scaled
    vector, [predict] returns the probability [p] of the second class (zero
    when there is none) together with a category, and the category follows
    the fixed thresholds with inclusive lower bounds: [p >= 0.70] gives
    High, [0.40 <= p < 0.70] gives Medium, anything else gives Low; in
    particular the probabilities 0.70, 0.4 and 0.3999 give High, Medium and
    Low. *)
Theorem predict_category_thresholds self m sc features y probabilities :
  model self = Some m -> scaler self = Some sc ->
  transform sc features = Ok y -> predict_proba m y = Ok probabilities ->
  exists p c,
    predict self features = Ok (p, c, []) /\
    match probabilities with
    | _ :: p1 :: _ => p = p1
    | _ => p = PyFloat.zero
    end /\
    (PyFloat.geb p (PyFloat.literal "0.70") = true -> c = "High") /\
    (PyFloat.geb p (PyFloat.literal "0.40") = true ->
     PyFloat.ltb p (PyFloat.literal "0.70") = true -> c = "Medium") /\
    (PyFloat.geb p (PyFloat.literal "0.70") = false ->
     PyFloat.geb p (PyFloat.literal "0.40") && PyFloat.ltb p (PyFloat.literal "0.70") = false ->
     c = "Low") /\
    (p = PyFloat.literal "0.70" -> c = "High") /\
    (p = PyFloat.literal "0.4" -> c = "Medium") /\
    (p = PyFloat.literal "0.3999" -> c = "Low").
Proof.
  intros Hm Hsc Ht Hp.
  exists (dropout_prob_of probabilities), (risk_category_of (dropout_prob_of probabilities)).
  split.
  { unfold predict. rewrite Hm, Hsc. simpl. rewrite Ht. simpl. rewrite Hp. reflexivity. }
  split.
  { destruct probabilities as [|p0 [|p1 rest]]; reflexivity. }
  change (PyFloat.literal "0.70") with high_threshold.
  change (PyFloat.literal "0.40") with medium_threshold.
  destruct (risk_category_of_spec (dropout_prob_of probabilities)) as (Hh & Hmed & Hl).
  repeat split; try assumption.
  - intros ->. reflexivity.
  - intros ->. reflexivity.
  - intros ->. reflexivity.
Qed.

End Scorer.

(** ** Generic facts on [mapM] over [result] *)

Section MapM.

Context {A B : Type} (f : A -> result B).

Lemma mapM_Ok_inv (l : list A) (k : list B) :
  mapM f l = Ok k -> Forall2 (fun x y => f x = Ok y) l k.
Proof.
  revert k. induction l as [|x l IH]; intros k; simpl.
  - intros [= <-]. constructor.
  - destruct (f x) as [y|] eqn:Hx; simpl; try discriminate.
    destruct (mapM f l) as [k'|] eqn:Hl; simpl; try discriminate.
    intros [= <-]. constructor; [assumption | apply IH; reflexivity].
Qed.

Lemma mapM_Ok_intro (l : list A) (k : list B) :
  Forall2 (fun x y => f x = Ok y) l k -> mapM f l = Ok k.
Proof.
  induction 1 as [|x y l k Hx _ IH]; simpl; [reflexivity|].
  rewrite Hx. simpl. rewrite IH. reflexivity.
Qed.

Lemma mapM_total (l : list A) :
  Forall (fun x => exists y, f x = Ok y) l -> exists k, mapM f l = Ok k.
Proof.
  induction 1 as [|x l [y Hy] _ [k Hk]]; simpl.
  - exists []. reflexivity.
  - exists (y :: k). rewrite Hy. simpl. rewrite Hk. reflexivity.
Qed.

Lemma mapM_Ok_length (l : list A) (k : list B) :
  mapM f l = Ok k -> length k = length l.
Proof.
  intros H. symmetry. eapply Forall2_length, mapM_Ok_inv, H.
Qed.

End MapM.

(** ** The row mapper: [_row_to_features] *)

Section RowMapper.

Import app.

Lemma defaults_good :
  Forall (fun kd => good_default kd.2 = true) defaults.
Proof.
  apply Forall_forall. intros kd Hin.
  assert (H : forallb (fun kd => good_default kd.2) defaults = true)
    by (vm_compute; reflexivity).
  rewrite forallb_forall in H. apply H. apply list_elem_of_In. exact Hin.
Qed.

Lemma defaults_names : defaults.*1 = ml_model.feature_names.
Proof. reflexivity. Qed.

(** The value [_row_to_features] appends for one schema entry. *)
Lemma feature_value_spec (row : pd.Series) (k : string) (d : pyval) :
  good_default d = true ->
  feature_value row k d =
  Ok match pd.cells row !! k with
     | None => VFloat (default_float d)
     | Some (pd.One pd.NaN) | Some (pd.Several _) => d
     | Some (pd.One (pd.Text s)) =>
         match PyFloat.of_string s with
         | Some f => VFloat f
         | None => d
         end
     end.
Proof.
  intros Hd. unfold good_default in Hd.
  apply andb_true_iff in Hd as [Hd Hf]. apply andb_true_iff in Hd as [Hna Hfin].
  apply negb_true_iff in Hna.
  unfold feature_value, pd.contains, pd.getitem.
  destruct (pd.cells row !! k) as [[[s|]|text]|] eqn:Hc.
  - rewrite bool_decide_eq_true_2 by eauto. simpl.
    destruct (PyFloat.of_string s); reflexivity.
  - rewrite bool_decide_eq_true_2 by eauto. reflexivity.
  - rewrite bool_decide_eq_true_2 by eauto. reflexivity.
  - rewrite bool_decide_eq_false_2 by (intros [? ?]; discriminate).
    unfold mbind, result_bind, pd.isna_truth, pd.float_of. rewrite Hna.
    unfold default_float.
    destruct d; try discriminate; simpl in *;
      match goal with
      | |- context [PyFloat.of_int ?z] => destruct (PyFloat.of_int z); [reflexivity|discriminate]
      | _ => idtac
      end.
    reflexivity.
Qed.

Lemma row_to_features_Forall2 (row : pd.Series) :
  exists features,
    _row_to_features row = Ok features /\
    Forall2 (fun kd v => feature_value row kd.1 kd.2 = Ok v) defaults features.
Proof.
  unfold _row_to_features.
  destruct (mapM_total (fun '(k, d) => feature_value row k d) defaults) as [l Hl].
  - eapply Forall_impl; [apply defaults_good|].
    intros [k d] Hd. rewrite (feature_value_spec row k d Hd). eauto.
  - exists l. split; [exact Hl|].
    apply mapM_Ok_inv in Hl.
    eapply Forall2_impl; [exact Hl|]. intros [k d] v Hv. exact Hv.
Qed.

(** C2 (as the code has it). [_row_to_features] never fails and returns
    exactly one entry per schema field, in schema order.  The entry of a
    field is its default when the column is absent (as a float), when the
    cell is missing (NaN), when several columns carry the field's label
    and when the cell's text is rejected by [float] (the empty string,
    words); it is the number the text denotes when that number is finite.
    Hence an entry can only be non-finite where the cell's text itself
    spells an infinity or a NaN. *)
Theorem row_to_features_total (row : pd.Series) :
  exists features,
    _row_to_features row = Ok features /\
    length features = length ml_model.feature_names /\
    (forall i feature_name default_val,
        defaults !! i = Some (feature_name, default_val) ->
        ml_model.feature_names !! i = Some feature_name /\
        match pd.cells row !! feature_name with
        | None =>
            features !! i = Some (VFloat (default_float default_val)) /\
            py_float default_val = Ok (default_float default_val) /\
            PyFloat.is_finite (default_float default_val) = true
        | Some (pd.One pd.NaN) | Some (pd.Several _) =>
            features !! i = Some default_val /\ finite_value default_val = true
        | Some (pd.One (pd.Text s)) =>
            match PyFloat.of_string s with
            | None =>
                features !! i = Some default_val /\ finite_value default_val = true
            | Some f =>
                PyFloat.is_finite f = true -> features !! i = Some (VFloat f)
            end
        end) /\
    (forall i v,
        features !! i = Some v -> finite_value v = false ->
        exists feature_name s f,
          ml_model.feature_names !! i = Some feature_name /\
          pd.cells row !! feature_name = Some (pd.One (pd.Text s)) /\
          PyFloat.of_string s = Some f /\ PyFloat.is_finite f = false).
Proof.
  destruct (row_to_features_Forall2 row) as (features & Hrun & Hall).
  exists features. split; [exact Hrun|]. split.
  { rewrite <- (Forall2_length _ _ _ Hall). reflexivity. }
  assert (Hname : forall i k d, defaults !! i = Some (k, d) ->
                                ml_model.feature_names !! i = Some k).
  { intros i k d Hi. rewrite <- defaults_names, list_lookup_fmap, Hi. reflexivity. }
  assert (Hgood : forall i k d, defaults !! i = Some (k, d) -> good_default d = true).
  { intros i k d Hi. pose proof defaults_good as G. rewrite Forall_lookup in G.
    apply (G i (k, d) Hi). }
  split.
  - intros i k d Hi. split; [eapply Hname, Hi|].
    destruct (Forall2_lookup_l _ _ _ _ _ Hall Hi) as (v & Hv & Hfv).
    pose proof (Hgood _ _ _ Hi) as Hd.
    simpl in Hfv. rewrite (feature_value_spec row k d Hd) in Hfv.
    injection Hfv as <-. unfold good_default in Hd.
    apply andb_true_iff in Hd as [Hd Hf]. apply andb_true_iff in Hd as [_ Hfin].
    unfold default_float in *.
    destruct (pd.cells row !! k) as [[[s|]|text]|].
    + destruct (PyFloat.of_string s); [intros _; exact Hv | split; assumption].
    + split; assumption.
    + split; assumption.
    + destruct (py_float d); [|discriminate]. repeat split; try assumption; reflexivity.
  - intros i v Hv Hnf.
    destruct (Forall2_lookup_r _ _ _ _ _ Hall Hv) as ([k d] & Hi & Hfv).
    pose proof (Hgood _ _ _ Hi) as Hd.
    simpl in Hfv. rewrite (feature_value_spec row k d Hd) in Hfv.
    injection Hfv as Hfv. unfold good_default in Hd.
    apply andb_true_iff in Hd as [Hd Hf]. apply andb_true_iff in Hd as [_ Hfin].
    unfold default_float in Hfv.
    destruct (pd.cells row !! k) as [[[s|]|text]|] eqn:Hc.
    + destruct (PyFloat.of_string s) as [f|] eqn:Hs.
      * subst v. exists k, s, f. repeat split; eauto.
      * subst v. congruence.
    + subst v. congruence.
    + subst v. congruence.
    + destruct (py_float d); [|discriminate]. subst v. simpl in Hnf. congruence.
Qed.

End RowMapper.

(** ** The feature schema *)

Section Schema.

Import app.

(** C4 (as the code has it). The schema has exactly 34 named fields, all
    distinct; the single-record request reads exactly 34 distinct keys, one
    per schema field and with that field's default; and the feature list
    built from a request has the schema's length, its [i]-th entry being
    the request's value under the [i]-th key, or the default when the key
    is absent. *)
Theorem feature_schema_length :
  length ml_model.feature_names = 34%nat /\
  NoDup ml_model.feature_names /\
  length api_defaults = 34%nat /\
  NoDup api_defaults.*1 /\
  api_defaults.*2 = defaults.*2 /\
  forall data : gmap string pyval,
    length (request_features data) = length ml_model.feature_names /\
    forall (i : nat) key d,
      api_defaults !! i = Some (key, d) ->
      request_features data !! i = Some (default d (data !! key)).
Proof.
  split; [reflexivity|].
  split; [apply (bool_decide_unpack _); vm_compute; exact I|].
  split; [reflexivity|].
  split; [apply (bool_decide_unpack _); vm_compute; exact I|].
  split; [reflexivity|].
  intros data. split.
  - unfold request_features. rewrite length_map. reflexivity.
  - intros i key d Hi. unfold request_features.
    change (map ?f ?l) with (f <$> l).
    rewrite list_lookup_fmap, Hi. reflexivity.
Qed.

End Schema.

(** ** Failures of [DropoutPredictor.predict] *)

Section ScorerFailures.

Import ml_model.

(** C8 (as the code has it). [predict] has no length or range check of
    its own.  It raises [ValueError] when no model or scaler is loaded;
    otherwise it fails exactly when the loaded scaler or classifier
    raises on the vector, with that same error, and it returns a score for
    every vector they accept, whatever its length or values.  So a vector
    whose length differs from the width [n] the scaler was fitted on is
    rejected with a [ValueError] when, and because, the scaler rejects
    it. *)
Theorem predict_fails_as_artifacts_do (self : DropoutPredictor) :
  (model self = None \/ scaler self = None ->
   forall features, predict self features = Raise (ValueError "Model not loaded")) /\
  (forall m sc, model self = Some m -> scaler self = Some sc ->
     (forall features e,
         predict self features = Raise e <->
         transform sc features = Raise e \/
         exists y, transform sc features = Ok y /\ predict_proba m y = Raise e) /\
     (forall features y d,
         transform sc features = Ok y -> predict_proba m y = Ok d ->
         predict self features =
           Ok (dropout_prob_of d, risk_category_of (dropout_prob_of d), [])) /\
     (forall n : nat,
         (forall x, length x <> n -> exists msg, transform sc x = Raise (ValueError msg)) ->
         forall features, length features <> n ->
           exists msg, predict self features = Raise (ValueError msg))).
Proof.
  split.
  - intros H features. unfold predict.
    destruct H as [-> | ->]; [reflexivity|]. destruct (model self); reflexivity.
  - intros m sc Hm Hsc.
    assert (Hp : forall features,
               predict self features =
               (y ← transform sc features; d ← predict_proba m y;
                Ok (dropout_prob_of d, risk_category_of (dropout_prob_of d), []))).
    { intros features. unfold predict. rewrite Hm, Hsc. reflexivity. }
    split; [|split].
    + intros features e. rewrite Hp. split.
      * destruct (transform sc features) as [y|e'] eqn:Ht; simpl.
        -- destruct (predict_proba m y) as [d|e''] eqn:Hd; simpl; [discriminate|].
           intros [= ->]. right. exists y. split; [reflexivity|assumption].
        -- intros [= ->]. left. reflexivity.
      * intros [Ht | (y & Ht & Hd)]; rewrite Ht; simpl; [reflexivity|].
        rewrite Hd. reflexivity.
    + intros features y d Ht Hd. rewrite Hp, Ht. simpl. rewrite Hd. reflexivity.
    + intros n Hn features Hlen. destruct (Hn features Hlen) as [msg Hmsg].
      exists msg. rewrite Hp, Hmsg. reflexivity.
Qed.

End ScorerFailures.

(** ** Record identity and the persisted fields *)

Section StudentFields.

Import app.

Lemma uint_of_string_zeros (k : nat) (s : string) (d : Decimal.uint) :
  NilEmpty.uint_of_string s = Some d ->
  NilEmpty.uint_of_string (zeros k ++ s) = Some (Nat.iter k Decimal.D0 d).
Proof.
  intros Hs. induction k as [|k IH]; [exact Hs|].
  change (NilEmpty.uint_of_string (zeros (S k) ++ s))
    with (uint_of_char "0" (NilEmpty.uint_of_string (zeros k ++ s))).
  rewrite IH. reflexivity.
Qed.

Lemma of_uint_leading_zeros (k : nat) (d : Decimal.uint) :
  Nat.of_uint (Nat.iter k Decimal.D0 d) = Nat.of_uint d.
Proof.
  induction k as [|k IH]; simpl; [reflexivity|]. exact IH.
Qed.

Lemma csv_ordinal_format (n : nat) :
  csv_ordinal ("CSV" ++ format_05d n) = Some n.
Proof.
  change (csv_ordinal ("CSV" ++ format_05d n))
    with (Nat.of_uint <$> NilEmpty.uint_of_string (format_05d n)).
  unfold format_05d, str_of_nat.
  rewrite (uint_of_string_zeros _ _ _ (NilEmpty.usu (Nat.to_uint n))). simpl.
  rewrite of_uint_leading_zeros, DecimalNat.Unsigned.of_to. reflexivity.
Qed.

Lemma format_05d_inj (n m : nat) :
  "CSV" ++ format_05d n = "CSV" ++ format_05d m -> n = m.
Proof.
  intros H. apply (f_equal csv_ordinal) in H.
  rewrite !csv_ordinal_format in H. congruence.
Qed.

Lemma format_05d_int_nat (n : nat) : format_05d_int (Z.of_nat n) = format_05d n.
Proof.
  unfold format_05d_int. destruct (Z.ltb_spec (Z.of_nat n) 0); [lia|].
  rewrite Nat2Z.id. reflexivity.
Qed.

Lemma str_of_int_nat (n : nat) : str_of_int (Z.of_nat n) = str_of_nat n.
Proof.
  unfold str_of_int. destruct (Z.ltb_spec (Z.of_nat n) 0); [lia|].
  rewrite Nat2Z.id. reflexivity.
Qed.

Section Rows.

Variable series_text : pd.label -> string -> list pd.cell -> string.

Lemma iterrows_lookup (df : pd.DataFrame) (i : nat) (row : pd.Series) :
  pd.iterrows series_text df !! i = Some row ->
  exists name cs,
    pd.data df !! i = Some (name, cs) /\
    row = {| pd.name := name;
             pd.cells := pd.row_cells series_text name (zip (pd.columns df) cs) |}.
Proof.
  unfold pd.iterrows. change (map ?f ?l) with (f <$> l). rewrite list_lookup_fmap.
  destruct (pd.data df !! i) as [[name cs]|]; simpl; [|discriminate].
  intros [= <-]. exists name, cs. split; reflexivity.
Qed.

Lemma iterrows_length (df : pd.DataFrame) :
  length (pd.iterrows series_text df) = length (pd.data df).
Proof. unfold pd.iterrows. apply length_map. Qed.

(** A row holds something under exactly the labels of the frame, and what
    it holds under a label is determined by the cells under that label. *)
Lemma row_cells_lookup (name : pd.label) (bindings : list (string * pd.cell)) (k : string) :
  pd.row_cells series_text name bindings !! k =
  if decide (k ∈ bindings.*1) then Some (pd.row_entry series_text name bindings k) else None.
Proof.
  unfold pd.row_cells.
  generalize (pd.row_entry series_text name bindings). intros f.
  induction bindings as [|[k' c] l IH].
  - rewrite decide_False by apply not_elem_of_nil. apply lookup_empty.
  - cbn [map fst snd]. rewrite list_to_map_cons, fmap_cons. cbn [fst].
    destruct (decide (k' = k)) as [->|Hne].
    + rewrite lookup_insert_eq. rewrite decide_True by (apply elem_of_cons; left; reflexivity). reflexivity.
    + rewrite lookup_insert_ne by exact Hne. rewrite IH.
      destruct (decide (k ∈ l.*1)) as [Hin|Hin].
      * rewrite decide_True by (apply elem_of_cons; right; exact Hin). reflexivity.
      * rewrite decide_False; [reflexivity|].
        intros H. apply elem_of_cons in H as [H|H]; [congruence|contradiction].
Qed.

Lemma absent_column (df : pd.DataFrame) (i : nat) (row : pd.Series) (label : string) :
  label ∉ pd.columns df -> pd.iterrows series_text df !! i = Some row ->
  pd.cells row !! label = None.
Proof.
  intros Hl Hrow. destruct (iterrows_lookup _ _ _ Hrow) as (name & cs & _ & ->). simpl.
  rewrite row_cells_lookup. apply decide_False. intros Hin.
  apply list_elem_of_fmap in Hin as ([k c] & -> & Hkc).
  apply Hl. simpl. eapply elem_of_zip_l, Hkc.
Qed.

(** Under the default index the name of the [i]-th row is [i]. *)
Lemma range_index_name (columns : list string) (rows : list (list pd.cell))
      (i : nat) (row : pd.Series) :
  pd.iterrows series_text {| pd.columns := columns; pd.data := pd.range_index rows |} !! i
    = Some row ->
  pd.int_name row = Ok (Z.of_nat i).
Proof.
  intros Hrow. destruct (iterrows_lookup _ _ _ Hrow) as (name & cs & Hd & ->).
  simpl in Hd. unfold pd.range_index in Hd. rewrite list_lookup_imap in Hd.
  destruct (rows !! i); [|discriminate]. injection Hd as <- _. reflexivity.
Qed.

End Rows.

Lemma csv_fields_inv (row : pd.Series) (fields : dict) :
  _csv_to_student_fields row = Ok fields ->
  exists i, pd.int_name row = Ok i /\ fields = student_fields row (i + 1).
Proof.
  unfold _csv_to_student_fields.
  destruct (pd.int_name row) as [i|]; simpl; [|discriminate].
  intros [= <-]. exists i. split; reflexivity.
Qed.

Lemma csv_fields_of_name (row : pd.Series) (i : Z) :
  pd.int_name row = Ok i -> _csv_to_student_fields row = Ok (student_fields row (i + 1)).
Proof. unfold _csv_to_student_fields. intros ->. reflexivity. Qed.

Lemma fields_student_id (row : pd.Series) (ordinal : Z) :
  dict_str "student_id" (student_fields row ordinal) =
  str_get row "student_id" ("CSV" ++ format_05d_int ordinal).
Proof. reflexivity. Qed.

Lemma fields_tuition (row : pd.Series) (ordinal : Z) :
  dict_get "tuition_fees_up_to_date" (student_fields row ordinal) =
  Some (to_int (pd.get row "Tuition fees up to date" (VInt 1)) 0).
Proof. reflexivity. Qed.

Lemma row_to_features_at (row : pd.Series) (i : nat) (k : string) (d : pyval) :
  defaults !! i = Some (k, d) ->
  exists features v,
    _row_to_features row = Ok features /\ features !! i = Some v /\
    feature_value row k d = Ok v.
Proof.
  intros Hi. destruct (row_to_features_Forall2 row) as (features & Hrun & Hall).
  destruct (Forall2_lookup_l _ _ _ _ _ Hall Hi) as (v & Hv & Hfv).
  exists features, v. repeat split; assumption.
Qed.

(** C9. For the field [Tuition fees up to date], the persisted fields give
    a cell whose text [float] rejects the value 0 but give a missing column
    the value 1, whereas the feature vector gives both the value 1 (the int
    default for the malformed cell, its float for the missing column).
    [absent] is the same row without that column; the fields exist for a
    row whose name [int] accepts, as the names of the default index are. *)
Theorem tuition_malformed_vs_absent (row : pd.Series) (s : string) (i : Z) :
  pd.int_name row = Ok i ->
  pd.cells row !! "Tuition fees up to date" = Some (pd.One (pd.Text s)) ->
  PyFloat.of_string s = None ->
  let absent := {| pd.name := pd.name row;
                   pd.cells := delete "Tuition fees up to date" (pd.cells row) |} in
  (exists fields,
      _csv_to_student_fields row = Ok fields /\
      dict_get "tuition_fees_up_to_date" fields = Some (VInt 0)) /\
  (exists fields,
      _csv_to_student_fields absent = Ok fields /\
      dict_get "tuition_fees_up_to_date" fields = Some (VInt 1)) /\
  (exists features,
      _row_to_features row = Ok features /\ features !! 14%nat = Some (VInt 1)) /\
  (exists features,
      _row_to_features absent = Ok features /\
      features !! 14%nat = Some (VFloat (PyFloat.literal "1.0"))).
Proof.
  intros Hn Hc Hs absent.
  assert (Hd : defaults !! 14%nat = Some ("Tuition fees up to date", VInt 1))
    by reflexivity.
  assert (Hg : good_default (VInt 1) = true) by reflexivity.
  assert (Ha : pd.cells absent !! "Tuition fees up to date" = None)
    by apply lookup_delete_eq.
  split; [|split; [|split]].
  - exists (student_fields row (i + 1)). split; [apply csv_fields_of_name, Hn|].
    rewrite fields_tuition. unfold pd.get, to_int. rewrite Hc. simpl. rewrite Hs.
    reflexivity.
  - exists (student_fields absent (i + 1)). split; [apply csv_fields_of_name, Hn|].
    rewrite fields_tuition. unfold pd.get. rewrite Ha. reflexivity.
  - destruct (row_to_features_at row _ _ _ Hd) as (features & v & Hrun & Hv & Hfv).
    exists features. split; [exact Hrun|].
    rewrite (feature_value_spec _ _ _ Hg), Hc, Hs in Hfv. congruence.
  - destruct (row_to_features_at absent _ _ _ Hd) as (features & v & Hrun & Hv & Hfv).
    exists features. split; [exact Hrun|].
    rewrite (feature_value_spec _ _ _ Hg), Ha in Hfv.
    injection Hfv as <-. exact Hv.
Qed.

End StudentFields.

(** ** The single-record route: alerts and their frame *)

Section Alerts.

Import app.

Variable predictor : ml_model.DropoutPredictor.
Variable sql_text : pyval -> string.

(** The notifications one alert adds: one per counselor, in order. *)
Lemma fold_add_notification (student : Student.t) (cs : list User.t) :
  forall table,
  exists new,
    fold_left (add_notification student) cs table = (table ++ new)%list /\
    Notification.counselor_id <$> new = User.id <$> cs /\
    Forall (fun n => Notification.student_id n = Student.id student /\
                     Notification.message n = high_risk_message student /\
                     Notification.notification_type n = "high_risk_alert" /\
                     Notification.is_read n = false) new.
Proof.
  induction cs as [|c cs IH]; intros table; simpl.
  - exists []. rewrite app_nil_r. repeat split. constructor.
  - destruct (IH (add_notification student table c)) as (new & -> & Hids & Hall).
    unfold add_notification at 1. rewrite <- app_assoc. simpl.
    eexists (_ :: new). split; [reflexivity|]. split.
    + rewrite !fmap_cons, Hids. reflexivity.
    + constructor; [repeat split|exact Hall].
Qed.

(** The request names a persisted student: the state after the route. *)
Lemma predict_dropout_found now data db student p c recs :
  ml_model.predict predictor (request_features data) = Ok (p, c, recs) ->
  truthy (data_get data "student_id" VNone) = true ->
  find_student sql_text (data_get data "student_id" VNone) db = Some student ->
  let student' := update_prediction now p c student in
  let db1 := set_students (store_student student' (students db)) db in
  (predict_dropout predictor sql_text now data db).2 =
  if String.eqb c "High" then
    set_notifications
      (fold_left (add_notification student') (counselors db1) (notifications db1)) db1
  else db1.
Proof.
  intros Hp Ht Hf. unfold predict_dropout. rewrite Hp, Ht, Hf. simpl.
  destruct (String.eqb c "High"); reflexivity.
Qed.

(** C6. When the request names a persisted student and the score is High,
    the route adds exactly one notification per counselor account, in
    order, each carrying the student's row id and a message with the
    student's name and identifier; when the category is Medium or Low it
    adds none. *)
Theorem high_risk_alert_fan_out now data db student p c recs :
  ml_model.predict predictor (request_features data) = Ok (p, c, recs) ->
  truthy (data_get data "student_id" VNone) = true ->
  find_student sql_text (data_get data "student_id" VNone) db = Some student ->
  let db' := (predict_dropout predictor sql_text now data db).2 in
  (c = "High" ->
   exists new,
     notifications db' = (notifications db ++ new)%list /\
     length new = length (counselors db) /\
     Notification.counselor_id <$> new = User.id <$> counselors db /\
     Forall (fun n =>
               Notification.student_id n = Student.id student /\
               Notification.message n =
                 "Student " ++ Student.name student ++ " (" ++ Student.student_id student
                 ++ ") is at HIGH risk of dropout. Immediate intervention recommended.")
            new) /\
  (c = "Medium" \/ c = "Low" -> notifications db' = notifications db).
Proof.
  intros Hp Ht Hf db'. unfold db'.
  rewrite (predict_dropout_found now data db student p c recs Hp Ht Hf). split.
  - intros ->. simpl.
    destruct (fold_add_notification (update_prediction now p "High" student)
                (counselors db) (notifications db)) as (new & Hnew & Hids & Hall).
    exists new. split; [exact Hnew|]. split; [|split; [exact Hids|]].
    + rewrite <- (length_fmap Notification.counselor_id), Hids, length_fmap. reflexivity.
    + eapply Forall_impl; [exact Hall|]. intros n (Hs & Hm & _). split; assumption.
  - intros [-> | ->]; reflexivity.
Qed.


End Alerts.

(** ** The batch import *)

Section BatchImport.

Import app.

Variable predictor : ml_model.DropoutPredictor.

Lemma max_seq (n start : nat) :
  foldr Nat.max O (seq start n) = match n with O => O | S k => (start + k)%nat end.
Proof.
  revert start. induction n as [|n IH]; intros start; simpl; [reflexivity|].
  rewrite IH. destruct n; lia.
Qed.

Lemma next_id_seq (n : nat) : next_id (seq 1 n) = S n.
Proof. unfold next_id. rewrite max_seq. destruct n; reflexivity. Qed.

(** Inserting into a table whose rowids are [1..k] appends the pending
    rows with the rowids [k+1, k+2, ...]. *)
Lemma insert_students_spec (pending : list Student.t) :
  forall table table',
    map Student.id table = seq 1 (length table) ->
    insert_students table pending = Ok table' ->
    table' = (table ++ imap (fun i s => with_id (S (length table + i)) s) pending)%list.
Proof.
  induction pending as [|s rest IH]; intros table table' Hids; simpl.
  - intros [= <-]. rewrite app_nil_r. reflexivity.
  - destruct (negb (sqlite_ints_fit s)); [discriminate|].
    destruct (existsb _ table); [discriminate|].
    rewrite Hids, next_id_seq. intros H.
    apply IH in H.
    + rewrite H, <- app_assoc. simpl. rewrite Nat.add_0_r. do 2 f_equal.
      apply imap_ext. intros i x _. simpl. rewrite length_app. simpl.
      f_equal. f_equal. lia.
    + rewrite map_app, length_app, Hids. simpl.
      rewrite Nat.add_1_r, seq_S. reflexivity.
Qed.

Variable series_text : pd.label -> string -> list pd.cell -> string.

(** The import never touches the users or the notifications. *)
Lemma import_csv_frame current_user file utcnow db :
  users (import_csv predictor series_text current_user file utcnow db).2 = users db /\
  notifications (import_csv predictor series_text current_user file utcnow db).2
    = notifications db.
Proof.
  unfold import_csv.
  destruct (negb _); [split; reflexivity|].
  destruct file as [file|]; [|split; reflexivity].
  destruct (negb _); [split; reflexivity|].
  destruct (read_csv file) as [raw|]; [|split; reflexivity].
  destruct (import_rows _ _ _) as [added|]; [|split; reflexivity].
  destruct (insert_students _ _); split; reflexivity.
Qed.

(** What the loop body does for one row. *)
Lemma import_row_run utcnow k row s pv :
  import_row predictor utcnow k row = Ok (s, pv) ->
  exists features p c recs i,
    _row_to_features row = Ok features /\
    ml_model.predict predictor features = Ok (p, c, recs) /\
    pd.int_name row = Ok i /\
    s = new_student (student_fields row (i + 1)) p c (utcnow k) /\
    pv = {| student_id := dict_str "student_id" (student_fields row (i + 1));
            name := dict_str "name" (student_fields row (i + 1));
            risk_score := p;
            risk_category := c |}.
Proof.
  unfold import_row, _csv_to_student_fields.
  destruct (_row_to_features row) as [features|] eqn:Hf; simpl; [|discriminate].
  destruct (ml_model.predict predictor features) as [[[p c] recs]|] eqn:Hp;
    simpl; [|discriminate].
  destruct (pd.int_name row) as [i|] eqn:Hn; simpl; [|discriminate].
  intros [= <- <-]. exists features, p, c, recs, i.
  repeat split; try reflexivity. exact Hp.
Qed.

(** The loop takes the rows in order, the [i]-th with the [i]-th reading
    of the clock. *)
Lemma import_rows_lookup utcnow rows added :
  import_rows predictor utcnow rows = Ok added ->
  length added = length rows /\
  (forall i sp, added !! i = Some sp ->
     exists row, rows !! i = Some row /\ import_row predictor utcnow i row = Ok sp) /\
  (forall i row, rows !! i = Some row ->
     exists sp, added !! i = Some sp /\ import_row predictor utcnow i row = Ok sp).
Proof.
  unfold import_rows. intros H.
  pose proof (mapM_Ok_length _ _ _ H) as Hlen. rewrite length_imap in Hlen.
  apply mapM_Ok_inv in H.
  split; [exact Hlen|]. split.
  - intros i sp Hi.
    destruct (Forall2_lookup_r _ _ _ _ _ H Hi) as ([k row] & Hk & Hrow).
    rewrite list_lookup_imap in Hk.
    destruct (rows !! i) as [row'|]; [|discriminate].
    injection Hk as <- <-. exists row'. split; [reflexivity|exact Hrow].
  - intros i row Hi.
    assert (Hk : imap pair rows !! i = Some (i, row))
      by (rewrite list_lookup_imap, Hi; reflexivity).
    destruct (Forall2_lookup_l _ _ _ _ _ H Hk) as (sp & Hsp & Hrow).
    exists sp. split; [exact Hsp|exact Hrow].
Qed.

(** C3. After a successful import the student table holds exactly one
    record per row of the file, the [i]-th built from the [i]-th row alone
    and inserted into the emptied table (rowids from 1); the resulting
    state is the same whatever the prior collection was, so no prior record
    survives and no row is matched against one. *)
Theorem import_replaces_collection current_user file utcnow db summary results missing db' :
  import_csv predictor series_text current_user file utcnow db
    = (ImportOk summary results missing, db') ->
  exists upload raw added,
    file = Some upload /\ read_csv upload = Ok raw /\
    let n := length (pd.data raw) in
    import_rows predictor utcnow (pd.iterrows series_text (strip_columns raw)) = Ok added /\
    insert_students [] (map fst added) = Ok (students db') /\
    students db' = imap (fun i s => with_id (S i) s) (map fst added) /\
    length (students db') = n /\
    created summary = n /\ total_in_db summary = n /\
    cleared_count summary = length (students db) /\
    (forall prior,
        import_csv predictor series_text current_user file utcnow (set_students prior db) =
        (ImportOk {| created := created summary; updated := updated summary;
                     total := total summary;
                     replaced_existing := replaced_existing summary;
                     cleared_count := length prior;
                     file_name := file_name summary;
                     import_date := import_date summary;
                     total_in_db := total_in_db summary |} results missing,
         db')).
Proof.
  unfold import_csv.
  destruct (negb _); [discriminate|].
  destruct file as [upload|]; [|discriminate].
  destruct (negb _); [discriminate|].
  destruct (read_csv upload) as [raw|] eqn:Hraw; [|discriminate].
  destruct (import_rows _ _ _) as [added|] eqn:Hadded; [|discriminate].
  change (students (set_students [] db)) with (@nil Student.t).
  change (students (set_students [] (set_students ?t db))) with (@nil Student.t).
  destruct (insert_students [] (map fst added)) as [table|] eqn:Hins; [|discriminate].
  intros [= <- <- <- <-]. exists upload, raw, added.
  pose proof (insert_students_spec _ [] table eq_refl Hins) as Htable.
  change ([] ++ ?l)%list with l in Htable.
  assert (Hlen : length added = length (pd.data raw)).
  { rewrite (proj1 (import_rows_lookup _ _ _ Hadded)), iterrows_length. reflexivity. }
  assert (Hlt : length table = length (pd.data raw)).
  { rewrite Htable, length_imap, length_map. exact Hlen. }
  split; [reflexivity|]. split; [exact Hraw|]. cbv zeta.
  split; [exact Hadded|]. split; [exact Hins|]. split; [exact Htable|].
  split; [exact Hlt|]. split; [exact Hlen|]. split; [exact Hlt|].
  split; [reflexivity|]. intros prior. reflexivity.
Qed.

(** The identifier a row is stored under, when its fields can be built. *)
Lemma imported_student_ids utcnow (rows : list pd.Series)
      (added : list (Student.t * Preview)) :
  import_rows predictor utcnow rows = Ok added ->
  forall f : nat -> nat,
    mapM (fun row => dict_str "student_id" <$> _csv_to_student_fields row) rows =
    Ok (Student.student_id <$> imap (fun i s => with_id (f i) s) (map fst added)).
Proof.
  intros H f. apply mapM_Ok_intro.
  destruct (import_rows_lookup _ _ _ H) as (Hlen & Hadded & Hrows).
  apply Forall2_same_length_lookup. split.
  { rewrite length_fmap, length_imap, length_map. symmetry. exact Hlen. }
  intros i row id Hrow Hid.
  destruct (Hrows _ _ Hrow) as ([s pv] & Hsp & Hrun).
  rewrite list_lookup_fmap, list_lookup_imap in Hid.
  change (map fst added) with (fst <$> added) in Hid.
  rewrite list_lookup_fmap, Hsp in Hid. simpl in Hid. injection Hid as <-.
  destruct (import_row_run _ _ _ _ _ Hrun)
    as (features & p & c & recs & n & _ & _ & Hn & -> & _).
  rewrite (csv_fields_of_name _ _ Hn). reflexivity.
Qed.

(** The identifiers persisted by a successful import are those of
    [_csv_to_student_fields], row by row. *)
Lemma import_persists_identifiers current_user upload raw utcnow db summary results missing db' :
  read_csv upload = Ok raw ->
  import_csv predictor series_text current_user (Some upload) utcnow db
    = (ImportOk summary results missing, db') ->
  mapM (fun row => dict_str "student_id" <$> _csv_to_student_fields row)
       (pd.iterrows series_text (strip_columns raw))
  = Ok (Student.student_id <$> students db').
Proof.
  intros Hraw. unfold import_csv. rewrite Hraw.
  destruct (negb _); [discriminate|].
  destruct (negb _); [discriminate|].
  destruct (import_rows _ _ _) as [added|] eqn:Hadded; [|discriminate].
  change (students (set_students [] db)) with (@nil Student.t).
  destruct (insert_students [] (map fst added)) as [table|] eqn:Hins; [|discriminate].
  intros [= _ _ _ <-].
  change (students (set_students table (set_students [] db))) with table.
  rewrite (insert_students_spec _ [] table eq_refl Hins).
  change ([] ++ ?l)%list with l.
  apply (imported_student_ids utcnow _ _ Hadded
           (fun i => S (length (@nil Student.t) + i))).
Qed.

(** X29. Under the default index (the data rows of the file have as
    many fields as its header), a file with no [student_id] column gets the
    identifiers ["CSV00001"], ["CSV00002"], ... : the prefix and the 1-based
    row ordinal, zero-padded to five digits, in row order; no two rows of
    the file get the same one; and these are the identifiers a successful
    import of the file persists. *)
Theorem default_index_identity_synthesis (columns : list string) (rows : list (list pd.cell)) :
  "student_id" ∉ columns ->
  let df := {| pd.columns := columns; pd.data := pd.range_index rows |} in
  exists ids,
    mapM (fun row => dict_str "student_id" <$> _csv_to_student_fields row)
         (pd.iterrows series_text df) = Ok ids /\
    length ids = length rows /\
    (forall (i : nat) id, ids !! i = Some id -> id = "CSV" ++ format_05d (S i)) /\
    (forall id, ids !! 0%nat = Some id -> id = "CSV00001") /\
    (forall id, ids !! 1%nat = Some id -> id = "CSV00002") /\
    NoDup ids /\
    (forall current_user upload raw utcnow db summary results missing db',
        read_csv upload = Ok raw -> strip_columns raw = df ->
        import_csv predictor series_text current_user (Some upload) utcnow db
          = (ImportOk summary results missing, db') ->
        Student.student_id <$> students db' = ids).
Proof.
  intros Hid df.
  set (id_of := fun row : pd.Series => dict_str "student_id" <$> _csv_to_student_fields row).
  assert (Hrow : forall i row, pd.iterrows series_text df !! i = Some row ->
                   id_of row = Ok ("CSV" ++ format_05d (S i))).
  { intros i row Hrow. unfold id_of.
    rewrite (csv_fields_of_name _ _ (range_index_name _ _ _ _ _ Hrow)).
    cbn [fmap result_fmap]. rewrite fields_student_id. unfold str_get.
    rewrite (absent_column series_text df i row "student_id" Hid Hrow).
    replace (Z.of_nat i + 1) with (Z.of_nat (S i)) by lia.
    rewrite format_05d_int_nat. reflexivity. }
  destruct (mapM_total id_of (pd.iterrows series_text df)) as [ids Hids].
  { apply Forall_lookup. intros i row Hi. rewrite (Hrow _ _ Hi). eauto. }
  exists ids. split; [exact Hids|].
  pose proof (mapM_Ok_inv _ _ _ Hids) as Hall.
  assert (Hat : forall (i : nat) id, ids !! i = Some id -> id = "CSV" ++ format_05d (S i)).
  { intros i id Hi. destruct (Forall2_lookup_r _ _ _ _ _ Hall Hi) as (row & Hr & Hrid).
    rewrite (Hrow _ _ Hr) in Hrid. congruence. }
  split; [|split; [exact Hat|split; [|split; [|split]]]].
  - rewrite (mapM_Ok_length _ _ _ Hids), iterrows_length. unfold df. simpl.
    unfold pd.range_index. apply length_imap.
  - intros id H. apply (Hat _ _ H).
  - intros id H. apply (Hat _ _ H).
  - apply NoDup_alt. intros i j id Hi Hj.
    apply Hat in Hi, Hj. subst id. apply format_05d_inj in Hj. lia.
  - intros current_user upload raw utcnow db summary results missing db' Hraw Hdf Himp.
    pose proof (import_persists_identifiers _ _ _ _ _ _ _ _ _ Hraw Himp) as Hp.
    rewrite Hdf in Hp. fold id_of in Hp. congruence.
Qed.

End BatchImport.

(** ** Runs of the scorer and the row mapper on sample inputs *)

(** [run t v H] poses the value [v] of [t] and the equation [H] that [t]
    evaluates to it. *)
Ltac run t v H :=
  let r := eval vm_compute in t in
  pose (v := r);
  assert (H : t = v) by (vm_compute; reflexivity).

(** The scaled vector of the request without any key, for a scaler fitted
    on the 34 schema columns. *)
Lemma scaled_empty_request :
  exists y,
    ml_model.transform
      (Sample.standard_scaler (replicate 34 PyFloat.zero) (replicate 34 Sample.one))
      (app.request_features ∅) = Ok y.
Proof. eexists. vm_compute. reflexivity. Qed.

Lemma predict_category_thresholds_witness :
  let scored p :=
    ml_model.predict (Sample.predictor 34 [PyFloat.literal "0.2"; p]) (app.request_features ∅) in
  scored (PyFloat.literal "0.70") = Ok (PyFloat.literal "0.70", "High", []) /\
  scored (PyFloat.literal "0.4") = Ok (PyFloat.literal "0.4", "Medium", []) /\
  scored (PyFloat.literal "0.3999") = Ok (PyFloat.literal "0.3999", "Low", []).
Proof.
  intros scored. unfold scored. destruct scaled_empty_request as [y Hy].
  split; [|split].
  - destruct (predict_category_thresholds
                (Sample.predictor 34 [PyFloat.literal "0.2"; PyFloat.literal "0.70"])
                _ _ _ y _ eq_refl eq_refl Hy eq_refl)
      as (p & c & Hrun & Hp & _ & _ & _ & Hc & _ & _).
    cbv beta iota in Hp. rewrite Hrun, (Hc Hp), Hp. reflexivity.
  - destruct (predict_category_thresholds
                (Sample.predictor 34 [PyFloat.literal "0.2"; PyFloat.literal "0.4"])
                _ _ _ y _ eq_refl eq_refl Hy eq_refl)
      as (p & c & Hrun & Hp & _ & _ & _ & _ & Hc & _).
    cbv beta iota in Hp. rewrite Hrun, (Hc Hp), Hp. reflexivity.
  - destruct (predict_category_thresholds
                (Sample.predictor 34 [PyFloat.literal "0.2"; PyFloat.literal "0.3999"])
                _ _ _ y _ eq_refl eq_refl Hy eq_refl)
      as (p & c & Hrun & Hp & _ & _ & _ & _ & _ & Hc).
    cbv beta iota in Hp. rewrite Hrun, (Hc Hp), Hp. reflexivity.
Defined.

(** C2, as stated, fails: a cell holding the text [inf] is read by
    [float] as an infinity and passed on, so the vector has a non-finite
    entry. *)
Lemma row_to_features_infinite_entry :
  exists features,
    app._row_to_features (Sample.row 0 [("Marital status", pd.Text "inf")]) = Ok features /\
    features !! 0%nat = Some (VFloat PyFloat.inf) /\
    forallb finite_value features = false.
Proof.
  eexists. split; [vm_compute; reflexivity|]. split; reflexivity.
Qed.

(** C4, as stated, fails: the schema and the request read 34 fields, not
    33. *)
Lemma feature_schema_is_not_33 :
  length ml_model.feature_names <> 33%nat /\
  length app.api_defaults <> 33%nat /\
  length (app.request_features ∅) <> 33%nat.
Proof. repeat split; discriminate. Qed.

(** C8, as stated, fails on both counts: with a scaler and classifier
    fitted on one column, [predict] accepts a vector of length 1, which is
    not the schema length; and with a scaler fitted on the 34 schema columns
    that rejects infinite entries, a vector of the schema length is rejected
    for one of its values. *)
Lemma predict_accepts_other_width :
  (length [VInt 5] <> length ml_model.feature_names /\
   ml_model.predict (Sample.predictor 1 Sample.low_distribution) [VInt 5] =
     Ok (PyFloat.literal "0.1", "Low", [])) /\
  (length (VFloat PyFloat.inf :: replicate 33 (VInt 0)) = length ml_model.feature_names /\
   ml_model.predict (Sample.predictor 34 Sample.low_distribution)
     (VFloat PyFloat.inf :: replicate 33 (VInt 0)) =
     Raise (ValueError "Input X contains infinity")).
Proof.
  split; (split; [try discriminate; reflexivity | vm_compute; reflexivity]).
Qed.

Lemma standard_scaler_rejects (mean scale : list float) (x : list pyval) :
  length x <> length mean ->
  exists msg,
    ml_model.transform (Sample.standard_scaler mean scale) x = Raise (ValueError msg).
Proof.
  intros H. eexists. unfold Sample.standard_scaler, ml_model.transform.
  destruct (Nat.eqb_spec (length x) (length mean)); [contradiction|reflexivity].
Qed.

Lemma predict_fails_as_artifacts_do_witness :
  (forall features, length features <> 34%nat ->
     exists msg,
       ml_model.predict (Sample.predictor 34 Sample.high_distribution) features =
       Raise (ValueError msg)) /\
  ml_model.predict (Sample.predictor 34 Sample.high_distribution) (app.request_features ∅) =
    Ok (PyFloat.literal "0.7", "High", []).
Proof.
  pose proof (predict_fails_as_artifacts_do (Sample.predictor 34 Sample.high_distribution))
    as [_ H].
  destruct (H _ _ eq_refl eq_refl) as (_ & _ & Hn).
  split; [|vm_compute; reflexivity].
  apply (Hn 34%nat). intros x Hx. apply standard_scaler_rejects. exact Hx.
Defined.

(** C5 (the code has no such step). No import creates a notification,
    whatever the file, the user and the prior state.  So importing the
    one-row file [Debtor], [1] as a counselor, with a classifier that gives
    the row the probability 0.7, stores one record with the category High
    and leaves the notifications empty, although a counselor is registered;
    the single-record route, asked afterwards about the stored record with
    the same value, does alert that counselor. *)
Theorem import_skips_alert_step :
  (forall predictor series_text current_user file utcnow db,
      notifications (app.import_csv predictor series_text current_user file utcnow db).2
      = notifications db) /\
  let predictor := Sample.predictor 34 Sample.high_distribution in
  exists summary results missing db',
    app.import_csv predictor Sample.series_text Sample.counselor
      (Some Scenario.one_row_upload) Sample.utcnow Sample.db0
    = (app.ImportOk summary results missing, db') /\
    app.risk_category <$> results = ["High"] /\
    Student.student_id <$> students db' = ["CSV00001"] /\
    Student.risk_category <$> students db' = ["High"] /\
    app.counselors db' = [Sample.counselor] /\
    notifications db' = [] /\
    let db'' := (app.predict_dropout predictor Sample.sql_text 5
                   Scenario.request_for_imported db').2 in
    Notification.counselor_id <$> notifications db'' = [2%nat] /\
    Notification.student_id <$> notifications db'' = [1%nat].
Proof.
  split.
  { intros. apply import_csv_frame. }
  intros predictor.
  run (app.import_csv predictor Sample.series_text Sample.counselor
         (Some Scenario.one_row_upload) Sample.utcnow Sample.db0) r Hr.
  destruct r as [[summary results missing|] db'] eqn:Er; [|discriminate].
  exists summary, results, missing, db'. split; [exact Hr|].
  injection Er as <- <- <- <-.
  repeat split; vm_compute; reflexivity.
Qed.

(** C7 (the code takes the index label of a row for its ordinal). In the
    file [Debtor], [7,1], [7,0], which has neither identity column, both
    rows carry the index label 7, so both get the identifier ["CSV00008"]
    and the import fails on the UNIQUE constraint, leaving the student
    table empty; in the file [Debtor], [41,1] the only row gets
    ["CSV00042"], not ["CSV00001"].  This holds whether the label is read
    as a number or as text. *)
Theorem placeholder_ids_follow_index_labels :
  let predictor := Sample.predictor 34 Sample.high_distribution in
  let ids df :=
    mapM (fun row => app.dict_str "student_id" <$> app._csv_to_student_fields row)
         (pd.iterrows Sample.series_text (app.strip_columns df)) in
  let import upload :=
    app.import_csv predictor Sample.series_text Sample.counselor (Some upload)
      Sample.utcnow Sample.db0 in
(("student_id" ∉ ["Debtor"]) /\ ("name" ∉ ["Debtor"])) /\
  (ids (Scenario.indexed_rows (VInt 7)) = Ok ["CSV00008"; "CSV00008"] /\
   ids (Scenario.indexed_rows (VStr "7")) = Ok ["CSV00008"; "CSV00008"]) /\
  (import (Scenario.indexed_upload (VInt 7))
     = (app.ImportError 500 "IntegrityError", app.set_students [] Sample.db0) /\
   import (Scenario.indexed_upload (VStr "7"))
     = (app.ImportError 500 "IntegrityError", app.set_students [] Sample.db0)) /\
  (ids (Scenario.indexed_row (VInt 41)) = Ok ["CSV00042"] /\
   ids (Scenario.indexed_row (VStr "41")) = Ok ["CSV00042"]) /\
  (Student.student_id <$> students (import (Scenario.indexed_row_upload (VInt 41))).2
     = ["CSV00042"] /\
   Student.student_id <$> students (import (Scenario.indexed_row_upload (VStr "41"))).2
     = ["CSV00042"]).
Proof.
  intros predictor ids import.
  split.
  { split; apply (bool_decide_unpack _); vm_compute; exact I. }
  repeat split; vm_compute; reflexivity.
Qed.

Lemma import_replaces_collection_witness :
  exists summary results missing db',
    app.import_csv (Sample.predictor 34 Sample.high_distribution) Sample.series_text
      Sample.counselor (Some Sample.upload) Sample.utcnow Sample.db0
    = (app.ImportOk summary results missing, db') /\
    length (students db') = 2%nat /\
    app.cleared_count summary = 1%nat /\
    Student.student_id <$> students db' = ["CSV00001"; "CSV00002"].
Proof.
  eexists _, _, _, _.
  assert (H : forall A (x : A), x = x) by reflexivity.
  split; [vm_compute; apply H|].
  destruct (import_replaces_collection
              (Sample.predictor 34 Sample.high_distribution) Sample.series_text
              Sample.counselor (Some Sample.upload) Sample.utcnow Sample.db0 _ _ _ _
              ltac:(vm_compute; reflexivity))
    as (u & raw & added & Hu & Hraw & _ & _ & _ & Hlen & _ & _ & Hc & _).
  injection Hu as <-. injection Hraw as <-.
  split; [exact Hlen|]. split; [exact Hc|]. reflexivity.
Defined.

Lemma high_risk_alert_fan_out_witness :
  let db' := (app.predict_dropout (Sample.predictor 34 Sample.high_distribution)
                Sample.sql_text 5 Sample.request_for_alice Sample.db0).2 in
  exists new,
    notifications db' = (notifications Sample.db0 ++ new)%list /\
    length new = 1%nat /\
    Notification.counselor_id <$> new = [2%nat] /\
    Notification.student_id <$> new = [7%nat] /\
    Notification.message <$> new =
      ["Student Alice (S001) is at HIGH risk of dropout. Immediate intervention recommended."].
Proof.
  intros db'.
  destruct (high_risk_alert_fan_out
              (Sample.predictor 34 Sample.high_distribution) Sample.sql_text
              5 Sample.request_for_alice Sample.db0 Sample.alice
              (PyFloat.literal "0.7") "High" []
              ltac:(vm_compute; reflexivity) ltac:(vm_compute; reflexivity)
              ltac:(vm_compute; reflexivity))
    as [Hhigh _].
  destruct (Hhigh eq_refl) as (new & Hn & Hlen & Hids & Hall).
  exists new. split; [exact Hn|]. split; [exact Hlen|]. split; [exact Hids|].
  destruct new as [|n [|n' new]]; try discriminate.
  apply Forall_cons in Hall as [[Hs Hm] _].
  rewrite !fmap_cons, Hs, Hm. split; reflexivity.
Defined.


Lemma default_index_identity_synthesis_witness :
  ("student_id" ∉ ["Debtor"; " Gender "]) /\
  mapM (fun row => app.dict_str "student_id" <$> app._csv_to_student_fields row)
       (pd.iterrows Sample.series_text Sample.two_rows) = Ok ["CSV00001"; "CSV00002"] /\
  NoDup ["CSV00001"; "CSV00002"].
Proof.
  assert (H : "student_id" ∉ ["Debtor"; " Gender "])
    by (apply (bool_decide_unpack _); vm_compute; exact I).
  split; [exact H|].
  destruct (default_index_identity_synthesis
              (Sample.predictor 34 Sample.high_distribution) Sample.series_text
              ["Debtor"; " Gender "] [[pd.Text "1"; pd.Text "0"]; [pd.Text "0"; pd.NaN]] H)
    as (ids & Hids & _ & _ & _ & _ & Hnd & _).
  assert (Hrun : mapM (fun row => app.dict_str "student_id" <$> app._csv_to_student_fields row)
                      (pd.iterrows Sample.series_text Sample.two_rows)
                 = Ok ["CSV00001"; "CSV00002"]) by (vm_compute; reflexivity).
  split; [exact Hrun|].
  change (pd.iterrows Sample.series_text Sample.two_rows)
    with (pd.iterrows Sample.series_text
            {| pd.columns := ["Debtor"; " Gender "];
               pd.data := pd.range_index [[pd.Text "1"; pd.Text "0"]; [pd.Text "0"; pd.NaN]] |})
    in Hrun.
  rewrite Hids in Hrun. injection Hrun as <-. exact Hnd.
Defined.

Lemma tuition_malformed_vs_absent_witness :
  let row := Sample.row 0 [("Tuition fees up to date", pd.Text "yes")] in
  PyFloat.of_string "yes" = None /\
  exists fields,
    app._csv_to_student_fields row = Ok fields /\
    dict_get "tuition_fees_up_to_date" fields = Some (VInt 0).
Proof.
  intros row.
  assert (Hs : PyFloat.of_string "yes" = None) by (vm_compute; reflexivity).
  assert (Hc : pd.cells row !! "Tuition fees up to date" = Some (pd.One (pd.Text "yes")))
    by (vm_compute; reflexivity).
  split; [exact Hs|].
  exact (proj1 (tuition_malformed_vs_absent row "yes" 0 eq_refl Hc Hs)).
Defined.

(** * Further properties *)

(** ** Order of binary64 numbers *)

Section FloatOrderMore.

Local Open Scope Z_scope.

(** [<=] on floats is transitive. *)
Lemma leb_trans (a b c : float) :
  PyFloat.leb a b = true -> PyFloat.leb b c = true -> PyFloat.leb a c = true.
Proof.
  unfold PyFloat.leb, SFleb.
  destruct a as [sa|sa| |sa ma ea], b as [sb|sb| |sb mb eb], c as [sc|sc| |sc mc ec];
    simpl; try discriminate; try reflexivity;
    repeat match goal with
           | s : bool |- _ => destruct s
           end; simpl; try discriminate; try reflexivity;
    repeat match goal with
           | |- context [(?x ?= ?y)%Z] =>
               destruct (Z.compare_spec x y)
           | |- context [Pos.compare_cont Eq ?x ?y] =>
               let H := fresh in
               pose proof (Pos.compare_spec x y) as H; unfold Pos.compare in H; destruct H
           end; simpl; try discriminate; try reflexivity; intros; try lia.
Qed.

End FloatOrderMore.

(** ** The scorer: construction, degenerate distributions, monotonicity *)

Section ScorerMore.

Import ml_model ml_model_init.

(** X1. A predictor that [DropoutPredictor()] returns holds both
    artifacts, those read from the two files, so [predict] on it can fail
    only where the scaler or the classifier raises; construction ends in
    [RuntimeError] exactly when the model file is missing, or the model
    file loads and the scaler file is missing. *)
Theorem constructed_predictor_is_loaded (files : ModelFiles) :
  (forall self, __init__ files = Built self ->
     exists m sc,
       dropout_model_pkl files = Loaded m /\ scaler_pkl files = Loaded sc /\
       model self = Some m /\ scaler self = Some sc /\
       forall features e,
         predict self features = Raise e ->
         transform sc features = Raise e \/
         exists y, transform sc features = Ok y /\ predict_proba m y = Raise e) /\
  (forall msg, __init__ files = RuntimeError msg <->
     msg = model_not_found /\
     (dropout_model_pkl files = FileNotFoundError \/
      exists m, dropout_model_pkl files = Loaded m /\
                scaler_pkl files = FileNotFoundError)).
Proof.
  unfold __init__, load_model. split.
  - intros self.
    destruct (dropout_model_pkl files) as [m| |]; try discriminate.
    destruct (scaler_pkl files) as [sc| |]; try discriminate.
    intros [= <-]. exists m, sc. repeat split.
    intros features e. unfold predict. simpl.
    destruct (transform sc features) as [y|e'] eqn:Ht; simpl.
    + destruct (predict_proba m y) as [d|e''] eqn:Hd; simpl; [discriminate|].
      intros [= ->]. right. exists y. split; [reflexivity|assumption].
    + intros [= ->]. left. reflexivity.
  - intros msg.
    destruct (dropout_model_pkl files) as [m| |].
    + destruct (scaler_pkl files) as [sc| |]; split;
        try discriminate;
        try (intros [_ [H | (m' & _ & H)]]; discriminate).
      * intros [= <-]. split; [reflexivity|]. right. exists m. split; reflexivity.
      * intros [-> _]. reflexivity.
    + split.
      * intros [= <-]. split; [reflexivity|]. left. reflexivity.
      * intros [-> _]. reflexivity.
    + split; [discriminate|]. intros [_ [H | (m' & H & _)]]; discriminate.
Qed.

(** X2. The score is the second entry of the classifier's distribution
    and nothing else of it; a distribution with fewer than two entries (a
    classifier that knows a single class) gives the score 0 and the
    category Low. *)
Theorem predict_reads_dropout_class_only self m sc features y d :
  model self = Some m -> scaler self = Some sc ->
  transform sc features = Ok y -> predict_proba m y = Ok d ->
  ((length d <= 1)%nat -> predict self features = Ok (PyFloat.zero, "Low", [])) /\
  (forall p0 p1 rest, d = p0 :: p1 :: rest ->
     predict self features = Ok (p1, risk_category_of p1, [])).
Proof.
  intros Hm Hsc Ht Hd. unfold predict. rewrite Hm, Hsc, Ht. simpl. rewrite Hd. simpl.
  split.
  - intros Hlen. unfold dropout_prob_of.
    destruct (Nat.ltb_spec 1 (length d)); [lia|]. reflexivity.
  - intros p0 p1 rest ->. reflexivity.
Qed.

(** X3. The category never decreases when the probability increases:
    of two scores returned by [predict], the larger one has the same or a
    higher category (Low below Medium below High). *)
Theorem risk_category_monotone self features p c recs self' features' q c' recs' :
  predict self features = Ok (p, c, recs) ->
  predict self' features' = Ok (q, c', recs') ->
  PyFloat.leb p q = true ->
  (risk_rank c <= risk_rank c')%nat.
Proof.
  intros H H' Hle.
  pose proof (predict_inv _ _ _ _ _ H) as (m & sc & y & d & _ & _ & _ & _ & _ & Hc & _).
  pose proof (predict_inv _ _ _ _ _ H') as (m' & sc' & y' & d' & _ & _ & _ & _ & _ & Hc' & _).
  rewrite Hc, Hc'. unfold risk_category_of, PyFloat.geb.
  destruct (PyFloat.leb high_threshold p) eqn:Hh.
  - rewrite (leb_trans _ _ _ Hh Hle). reflexivity.
  - destruct (PyFloat.leb medium_threshold p) eqn:Hm.
    + rewrite (leb_trans _ _ _ Hm Hle).
      destruct (PyFloat.leb high_threshold q); cbv; lia.
    + destruct (PyFloat.leb high_threshold q), (PyFloat.leb medium_threshold q); cbv; lia.
Qed.

End ScorerMore.

(** ** The CSV helpers: tables, agreement, missing columns *)

Section CsvHelpersMore.

Import app app_fields.

Lemma api_default_at (i : nat) (key : string) (d : pyval) :
  api_defaults !! i = Some (key, d) ->
  (i < 34)%nat /\
  d = VInt (if (i =? 14)%nat then 1 else if (i =? 17)%nat then 18 else 0) /\
  exists name, ml_model.feature_names !! i = Some name /\
               defaults !! i = Some (name, d).
Proof.
  intros H.
  do 34 (destruct i as [|i];
         [injection H as <- <-; split; [lia|]; split; [reflexivity|];
          eexists; split; reflexivity|]).
  discriminate.
Qed.

(** The persisted field under the [i]-th API key is read from the
    [i]-th header. *)
Lemma csv_field_at (i : nat) (key name : string) (d : pyval) (row : pd.Series)
      (ordinal : Z) :
  api_defaults !! i = Some (key, d) ->
  ml_model.feature_names !! i = Some name ->
  dict_get key (student_fields row ordinal) = Some (csv_conversion i (pd.get row name d)).
Proof.
  intros H Hn.
  do 34 (destruct i as [|i];
         [injection H as <- <-; injection Hn as <-; reflexivity|]).
  discriminate.
Qed.

(** X4. [_csv_to_student_fields] raises exactly when [int(row.name)]
    does, and otherwise returns a dict that always has the same 36 keys:
    [student_id], [name] and then the 34 API keys in schema order; the
    field under the [i]-th API key is converted from the cell under the
    [i]-th schema header, with the schema default for an absent column. *)
Theorem csv_fields_follow_schema (row : pd.Series) :
  _csv_to_student_fields row
    = (fun i => student_fields row (i + 1)) <$> pd.int_name row /\
  (forall e, _csv_to_student_fields row = Raise e <-> pd.int_name row = Raise e) /\
  forall fields,
    _csv_to_student_fields row = Ok fields ->
    fields.*1 = "student_id" :: "name" :: api_defaults.*1 /\
    forall (i : nat) key d name,
      api_defaults !! i = Some (key, d) ->
      ml_model.feature_names !! i = Some name ->
      defaults !! i = Some (name, d) /\
      dict_get key fields = Some (csv_conversion i (pd.get row name d)).
Proof.
  split; [|split].
  - unfold _csv_to_student_fields. destruct (pd.int_name row); reflexivity.
  - intros e. unfold _csv_to_student_fields.
    destruct (pd.int_name row); simpl; split; congruence.
  - intros fields Hf. destruct (csv_fields_inv _ _ Hf) as (n & _ & ->).
    split; [reflexivity|].
    intros i key d name H Hn. split.
    + destruct (api_default_at _ _ _ H) as (_ & _ & name' & Hn' & Hd). congruence.
    + apply csv_field_at; assumption.
Qed.

(** X5. Outside the field [Tuition fees up to date], the persisted fields
    and the feature vector agree on every cell that is absent, missing,
    repeated or malformed (both hold the schema default, as equal
    numbers), and on a cell that reads as a finite number (the feature is
    that number, the persisted field is it or, for the integer fields, its
    truncation toward zero). *)
Theorem fields_agree_with_features (row : pd.Series) (i : nat) key d name features fields :
  api_defaults !! i = Some (key, d) ->
  ml_model.feature_names !! i = Some name ->
  _row_to_features row = Ok features ->
  _csv_to_student_fields row = Ok fields ->
  i <> 14%nat ->
  exists v w,
    features !! i = Some v /\
    dict_get key fields = Some w /\
    match pd.cells row !! name with
    | Some (pd.One (pd.Text s)) =>
        match PyFloat.of_string s with
        | Some f =>
            PyFloat.is_finite f = true ->
            v = VFloat f /\
            if (i <? 19)%nat then exists z, PyFloat.to_int f = Ok z /\ w = VInt z
            else w = VFloat f
        | None => py_float v = py_float w /\ py_float w = py_float d
        end
    | _ => py_float v = py_float w /\ py_float w = py_float d
    end.
Proof.
  intros H Hn Hrun Hfields Hi.
  destruct (csv_fields_inv _ _ Hfields) as (n & _ & ->).
  destruct (api_default_at _ _ _ H) as (Hlt & Hd & name' & Hn' & Hdef).
  assert (name' = name) by congruence. subst name'.
  destruct (row_to_features_at row _ _ _ Hdef) as (features' & v & Hrun' & Hv & Hfv).
  assert (features' = features) by congruence. subst features'.
  assert (Hg : good_default d = true).
  { pose proof defaults_good as G. rewrite Forall_lookup in G. apply (G _ _ Hdef). }
  rewrite (feature_value_spec _ _ _ Hg) in Hfv. injection Hfv as Hfv.
  exists v, (csv_conversion i (pd.get row name d)).
  split; [exact Hv|]. split; [apply csv_field_at; assumption|].
  unfold csv_conversion, pd.get.
  assert (Hz : (d = VInt 0 /\ (i =? 17)%nat = false) \/ (i = 17%nat /\ d = VInt 18)).
  { rewrite Hd. destruct (Nat.eqb_spec i 14); [contradiction|].
    destruct (Nat.eqb_spec i 17); [right | left]; split; try assumption; reflexivity. }
  clear Hd Hg H Hdef.
  destruct (pd.cells row !! name) as [[[s|]|text]|].
  - unfold to_int, to_float, pd.entry_val, pd.cell_val, pd.isna_truth, pd.float_of,
      pd.isna, py_float.
    destruct (PyFloat.of_string s) as [f|].
    + intros Hfin. split; [symmetry; exact Hfv|].
      destruct (i <? 19)%nat; [|reflexivity].
      cbn [mbind result_bind].
      destruct f; try discriminate; eexists; split; reflexivity.
    + subst v. cbn [mbind result_bind].
      destruct Hz as [[-> E] | [-> ->]]; rewrite ?E; [destruct (i <? 19)%nat|];
        split; reflexivity.
  - subst v.
    destruct Hz as [[-> E] | [-> ->]]; rewrite ?E; [destruct (i <? 19)%nat|];
      split; reflexivity.
  - subst v.
    destruct Hz as [[-> E] | [-> ->]]; rewrite ?E; [destruct (i <? 19)%nat|];
      split; reflexivity.
  - subst v. unfold default_float.
    destruct Hz as [[-> E] | [-> ->]]; rewrite ?E; [destruct (i <? 19)%nat|];
      split; reflexivity.
Qed.

End CsvHelpersMore.

Section MissingColumns.

Import app.

Lemma missing_columns_spec (df : pd.DataFrame) (name : string) :
  name ∈ missing_columns df <->
  name ∈ ml_model.feature_names /\ name ∉ pd.columns df.
Proof.
  unfold missing_columns.
  rewrite (list_elem_of_In (List.filter _ _) name), filter_In, negb_true_iff.
  rewrite (list_elem_of_In ml_model.feature_names name).
  split; intros [Hin Hex]; (split; [exact Hin|]).
  - intros Hc. apply (proj1 (list_elem_of_In _ _)) in Hc.
    assert (existsb (String.eqb name) (pd.columns df) = true); [|congruence].
    apply existsb_exists. exists name. split; [exact Hc | apply String.eqb_refl].
  - destruct (existsb _ _) eqn:E; [|reflexivity].
    apply existsb_exists in E as (h & Hh & Heq). apply String.eqb_eq in Heq. subst h.
    exfalso. apply Hex. apply (proj2 (list_elem_of_In _ _)). exact Hh.
Qed.

(** X6. A schema field is reported in [missing_columns] exactly when no
    header of the file, stripped of surrounding white space, is its name;
    the row mapper does not fail on such a field but gives every row the
    field's default at the field's position of the feature vector; and an
    import that succeeds reports exactly these fields. *)
Theorem missing_column_robustness series_text (raw : pd.DataFrame) (name : string) :
  let df := strip_columns raw in
  (name ∈ missing_columns df <->
   name ∈ ml_model.feature_names /\
   forall h, h ∈ pd.columns raw -> PyStr.strip h <> name) /\
  (name ∈ missing_columns df ->
   forall (i k : nat) d row,
     defaults !! i = Some (name, d) -> pd.iterrows series_text df !! k = Some row ->
     exists features,
       _row_to_features row = Ok features /\
       features !! i = Some (VFloat (default_float d))) /\
  (forall predictor current_user upload utcnow db summary results missing db',
      read_csv upload = Ok raw ->
      import_csv predictor series_text current_user (Some upload) utcnow db
        = (ImportOk summary results missing, db') ->
      missing = missing_columns df).
Proof.
  intros df. split; [|split].
  - rewrite missing_columns_spec. unfold df, strip_columns. simpl.
    split; intros [Hin Hno]; (split; [exact Hin|]).
    + intros h Hh Heq. apply Hno. rewrite <- Heq.
      apply (proj2 (list_elem_of_In _ _)), in_map, (proj1 (list_elem_of_In _ _)), Hh.
    + intros Hc. apply (proj1 (list_elem_of_In _ _)), in_map_iff in Hc as (h & Heq & Hh).
      apply (Hno h); [apply (proj2 (list_elem_of_In _ _)), Hh | exact Heq].
  - intros Hmiss i k d row Hd Hrow.
    apply missing_columns_spec in Hmiss as [_ Hno].
    pose proof (absent_column series_text df k row name Hno Hrow) as Hc.
    destruct (row_to_features_at row _ _ _ Hd) as (features & v & Hrun & Hv & Hfv).
    exists features. split; [exact Hrun|].
    assert (Hg : good_default d = true).
    { pose proof defaults_good as G. rewrite Forall_lookup in G. apply (G _ _ Hd). }
    rewrite (feature_value_spec _ _ _ Hg), Hc in Hfv. congruence.
  - intros predictor current_user upload utcnow db summary results missing db' Hraw.
    unfold import_csv. rewrite Hraw.
    destruct (negb _); [discriminate|].
    destruct (negb _); [discriminate|].
    destruct (import_rows _ _ _); [|discriminate].
    destruct (insert_students _ _); [|discriminate].
    intros [= _ _ <- _]. reflexivity.
Qed.

End MissingColumns.

(** ** The batch import: invariants, preview, failures *)

Section BatchImportMore.

Import app app_fields.

Variable predictor : ml_model.DropoutPredictor.
Variable series_text : pd.label -> string -> list pd.cell -> string.

Lemma staff_check (u : User.t) :
  staff u ->
  negb (String.eqb (User.role u) "counselor" || String.eqb (User.role u) "admin") = false.
Proof. intros [-> | ->]; reflexivity. Qed.

Lemma staff_check_inv (u : User.t) :
  negb (String.eqb (User.role u) "counselor" || String.eqb (User.role u) "admin") = false ->
  staff u.
Proof.
  intros H. apply negb_false_iff, orb_true_iff in H as [H | H];
    apply String.eqb_eq in H; [left | right]; exact H.
Qed.

(** The import once the checks and the read have passed. *)
Lemma import_csv_after_read current_user upload raw utcnow db :
  staff current_user -> csv_name upload -> read_csv upload = Ok raw ->
  import_csv predictor series_text current_user (Some upload) utcnow db =
  match import_rows predictor utcnow (pd.iterrows series_text (strip_columns raw)) with
  | Raise e => (ImportError 500 (str_exn e), set_students [] db)
  | Ok added =>
      match insert_students [] (map fst added) with
      | Raise e => (ImportError 500 (str_exn e), set_students [] db)
      | Ok table =>
          (ImportOk
             {| created := length added; updated := 0; total := length added;
                replaced_existing := true; cleared_count := length (students db);
                file_name := filename upload; import_date := utcnow (length added);
                total_in_db := length table |}
             (take 50 (map snd added))
             (missing_columns (strip_columns raw)),
           set_students table (set_students [] db))
      end
  end.
Proof.
  intros Hs Hn Hraw. unfold import_csv.
  rewrite (staff_check _ Hs). unfold csv_name in Hn. rewrite Hn, Hraw.
  cbn [negb].
  destruct (import_rows _ _ _) as [added|]; [|reflexivity].
  change (students (set_students [] db)) with (@nil Student.t).
  destruct (insert_students [] (map fst added)); reflexivity.
Qed.

Lemma import_csv_success current_user file utcnow db summary results missing db' :
  import_csv predictor series_text current_user file utcnow db = (ImportOk summary results missing, db') ->
  exists upload raw added table,
    file = Some upload /\ staff current_user /\ csv_name upload /\
    read_csv upload = Ok raw /\
    import_rows predictor utcnow (pd.iterrows series_text (strip_columns raw)) = Ok added /\
    insert_students [] (map fst added) = Ok table /\
    table = imap (fun i s => with_id (S i) s) (map fst added) /\
    db' = set_students table (set_students [] db) /\
    results = take 50 (map snd added).
Proof.
  intros H.
  assert (Hs : staff current_user).
  { apply staff_check_inv. unfold import_csv in H.
    destruct (negb (_ || _)); [discriminate|reflexivity]. }
  destruct file as [upload|];
    [|unfold import_csv in H; rewrite (staff_check _ Hs) in H; discriminate].
  assert (Hn : csv_name upload).
  { unfold csv_name. unfold import_csv in H. rewrite (staff_check _ Hs) in H.
    destruct (PyStr.endswith _ _); [reflexivity|discriminate]. }
  destruct (read_csv upload) as [raw|e] eqn:Hraw.
  2:{ unfold import_csv in H. rewrite (staff_check _ Hs), Hn, Hraw in H. discriminate. }
  rewrite (import_csv_after_read _ _ _ _ _ Hs Hn Hraw) in H.
  destruct (import_rows _ _ _) as [added|] eqn:Hadded; [|discriminate].
  destruct (insert_students [] (map fst added)) as [table|] eqn:Hins; [|discriminate].
  injection H as _ <- _ <-.
  exists upload, raw, added, table. repeat split; try assumption.
  apply (insert_students_spec _ [] table eq_refl Hins).
Qed.

Lemma insert_students_nodup (pending : list Student.t) :
  forall table table',
    insert_students table pending = Ok table' ->
    NoDup (Student.student_id <$> table) -> NoDup (Student.student_id <$> table').
Proof.
  induction pending as [|s rest IH]; intros table table'; simpl.
  - intros [= <-]. trivial.
  - destruct (negb (sqlite_ints_fit s)); [discriminate|].
    destruct (existsb _ table) eqn:E; [discriminate|].
    intros H Hnd. apply (IH _ _ H).
    rewrite fmap_app. apply NoDup_app. split; [exact Hnd|]. split.
    + intros x Hx Hx'. apply list_elem_of_singleton in Hx'. subst x.
      apply list_elem_of_fmap in Hx as (s' & Heq & Hs').
      assert (existsb (fun s' => String.eqb (Student.student_id s') (Student.student_id s))
                      table = true); [|congruence].
      apply existsb_exists. exists s'. split.
      * apply (proj1 (list_elem_of_In _ _)), Hs'.
      * apply String.eqb_eq. symmetry. exact Heq.
    + apply NoDup_singleton.
Qed.

Lemma risk_category_valid (p : float) :
  valid_category (ml_model.risk_category_of p) = true.
Proof.
  unfold ml_model.risk_category_of.
  destruct (PyFloat.geb p _); [reflexivity|]. destruct (PyFloat.geb p _); reflexivity.
Qed.

(** What the loop body of the import builds for a row. *)
Lemma import_row_inv utcnow k row s pv :
  import_row predictor utcnow k row = Ok (s, pv) ->
  exists fields,
    _csv_to_student_fields row = Ok fields /\
    Student.student_id s = dict_str "student_id" fields /\
    Student.name s = dict_str "name" fields /\
    Student.user_id s = None /\
    (Student.columns s).*1 = api_defaults.*1 /\
    valid_category (Student.risk_category s) = true /\
    Student.last_prediction_date s = Some (utcnow k) /\
    student_id pv = Student.student_id s /\ name pv = Student.name s /\
    sqlite_real (risk_score pv) = Student.dropout_risk_score s /\
    risk_category pv = Student.risk_category s.
Proof.
  intros H.
  destruct (import_row_run predictor _ _ _ _ _ H)
    as (features & p & c & recs & n & _ & Hp & Hn & -> & ->).
  exists (student_fields row (n + 1)). split; [apply csv_fields_of_name, Hn|].
  destruct (predict_inv _ _ _ _ _ Hp) as (m & sc & y & d & _ & _ & _ & _ & _ & Hc & _).
  repeat split; try reflexivity.
  cbn [new_student Student.risk_category]. rewrite Hc. apply risk_category_valid.
Qed.

End BatchImportMore.

Section BatchImportResults.

Import app app_fields.

Variable predictor : ml_model.DropoutPredictor.
Variable series_text : pd.label -> string -> list pd.cell -> string.

Lemma imap_with_id_ids (l : list Student.t) :
  forall k, map Student.id (imap (fun i s => with_id (k + i) s) l) = seq k (length l).
Proof.
  induction l as [|s l IH]; intros k; [reflexivity|].
  cbn [imap map length seq with_id Student.id]. rewrite Nat.add_0_r. f_equal.
  rewrite <- (IH (S k)). f_equal. apply imap_ext. intros i x _.
  unfold compose. f_equal. lia.
Qed.

(** X7. After a successful import the student table satisfies the
    invariants the rest of the application relies on: the rowids are
    1, 2, ..., N in row order, no two records share a [student_id], and
    every record is linked to no user account, carries one of the three
    categories, holds exactly the 34 schema columns and has a prediction
    date. *)
Theorem import_establishes_invariants current_user file utcnow db summary results missing db' :
  import_csv predictor series_text current_user file utcnow db = (ImportOk summary results missing, db') ->
  map Student.id (students db') = seq 1 (length (students db')) /\
  NoDup (Student.student_id <$> students db') /\
  Forall (fun s => Student.user_id s = None /\
                   valid_category (Student.risk_category s) = true /\
                   (Student.columns s).*1 = api_defaults.*1 /\
                   is_Some (Student.last_prediction_date s))
         (students db').
Proof.
  intros H.
  destruct (import_csv_success predictor series_text _ _ _ _ _ _ _ _ H)
    as (upload & raw & added & table & _ & _ & _ & _ & Hadded & Hins & Htable & -> & _).
  change (students (set_students table (set_students [] db))) with table.
  split; [|split].
  - rewrite Htable, length_imap. exact (imap_with_id_ids (map fst added) 1).
  - apply (insert_students_nodup _ _ _ Hins). constructor.
  - apply Forall_lookup. intros i s. rewrite Htable, list_lookup_imap.
    change (map fst added) with (fst <$> added). rewrite list_lookup_fmap.
    destruct (added !! i) as [[s0 pv]|] eqn:Hi; [|discriminate].
    intros [= <-].
    destruct (proj1 (proj2 (import_rows_lookup _ _ _ _ Hadded)) _ _ Hi) as (row & _ & Hrow).
    destruct (import_row_inv predictor _ _ _ _ _ Hrow)
      as (fields & _ & _ & _ & Hu & Hc & Hv & Hd & _).
    cbn [fst with_id Student.user_id Student.risk_category Student.columns
         Student.last_prediction_date].
    split; [exact Hu|]. split; [exact Hv|]. split; [exact Hc|].
    rewrite Hd. eexists. reflexivity.
Qed.

(** X8. The preview returned by a successful import lists the first 50
    imported records in table order: it has [min N 50] entries, and its
    [i]-th entry shows the identifier, name, score and category stored in
    the [i]-th record of the table (the score as SQLite keeps it). *)
Theorem import_preview_matches_table current_user file utcnow db summary results missing db' :
  import_csv predictor series_text current_user file utcnow db = (ImportOk summary results missing, db') ->
  length results = Nat.min 50 (length (students db')) /\
  forall (i : nat) pv,
    results !! i = Some pv ->
    (i < 50)%nat /\
    exists s, students db' !! i = Some s /\
              Student.id s = S i /\
              student_id pv = Student.student_id s /\
              name pv = Student.name s /\
              sqlite_real (risk_score pv) = Student.dropout_risk_score s /\
              risk_category pv = Student.risk_category s.
Proof.
  intros H.
  destruct (import_csv_success predictor series_text _ _ _ _ _ _ _ _ H)
    as (upload & raw & added & table & _ & _ & _ & _ & Hadded & Hins & Htable & -> & ->).
  change (students (set_students table (set_students [] db))) with table.
  split.
  - rewrite length_take, Htable, length_imap, !length_map. reflexivity.
  - intros i pv Hi. apply lookup_take_Some in Hi as [Hi Hlt]. split; [exact Hlt|].
    change (map snd added) with (snd <$> added) in Hi. rewrite list_lookup_fmap in Hi.
    destruct (added !! i) as [[s0 pv0]|] eqn:Ha; [|discriminate].
    injection Hi as <-.
    destruct (proj1 (proj2 (import_rows_lookup _ _ _ _ Hadded)) _ _ Ha) as (row & _ & Hrow).
    destruct (import_row_inv predictor _ _ _ _ _ Hrow)
      as (fields & _ & _ & _ & _ & _ & _ & _ & H1 & H2 & H3 & H4).
    exists (with_id (S i) s0). rewrite Htable, list_lookup_imap.
    change (map fst added) with (fst <$> added). rewrite list_lookup_fmap, Ha.
    repeat split; assumption.
Qed.

(** X9. A failed import is not transactional.  A refusal (403, 400) and
    a failure to read the file leave the database as it was; any failure
    after the file was read (a row the scorer rejects, a failed commit)
    answers 500 and leaves the student table empty, since the deletion was
    committed before the loop.  Users and notifications are never touched. *)
Theorem import_failure_states current_user file utcnow db status message db' :
  import_csv predictor series_text current_user file utcnow db = (ImportError status message, db') ->
  (status = 403%nat /\ ~ staff current_user /\ db' = db) \/
  (status = 400%nat /\ staff current_user /\ db' = db /\
   (file = None \/ exists upload, file = Some upload /\ ~ csv_name upload)) \/
  (status = 500%nat /\ staff current_user /\
   exists upload, file = Some upload /\ csv_name upload /\
     ((exists e, read_csv upload = Raise e /\ message = str_exn e /\ db' = db) \/
      (exists raw, read_csv upload = Ok raw /\ db' = set_students [] db))).
Proof.
  intros H.
  destruct (negb (String.eqb (User.role current_user) "counselor"
                  || String.eqb (User.role current_user) "admin")) eqn:Hrole.
  { left. unfold import_csv in H. rewrite Hrole in H. injection H as <- _ <-.
    split; [reflexivity|]. split; [|reflexivity].
    intros Hs. rewrite (staff_check _ Hs) in Hrole. discriminate. }
  right. pose proof (staff_check_inv _ Hrole) as Hs.
  destruct file as [upload|].
  2:{ left. unfold import_csv in H. rewrite Hrole in H. injection H as <- _ <-.
      repeat split; try assumption. left. reflexivity. }
  destruct (PyStr.endswith (PyStr.lower (filename upload)) ".csv") eqn:Hn.
  2:{ left. unfold import_csv in H. rewrite Hrole, Hn in H. injection H as <- _ <-.
      repeat split; try assumption. right. exists upload. split; [reflexivity|].
      unfold csv_name. rewrite Hn. discriminate. }
  right.
  destruct (read_csv upload) as [raw|e] eqn:Hraw.
  - rewrite (import_csv_after_read predictor series_text _ _ _ _ _ Hs Hn Hraw) in H.
    assert (status = 500%nat /\ db' = set_students [] db) as [-> ->].
    { destruct (import_rows _ _ _) as [added|]; [|injection H as <- _ <-; split; reflexivity].
      destruct (insert_students _ _); [discriminate|].
      injection H as <- _ <-; split; reflexivity. }
    split; [reflexivity|]. split; [exact Hs|]. exists upload.
    split; [reflexivity|]. split; [exact Hn|]. right. exists raw. split; [exact Hraw|reflexivity].
  - unfold import_csv in H. rewrite Hrole, Hn, Hraw in H. injection H as <- <- <-.
    split; [reflexivity|]. split; [exact Hs|]. exists upload.
    split; [reflexivity|]. split; [exact Hn|]. left. exists e. split; [exact Hraw|split; reflexivity].
Qed.

(** X10. A file in which two rows get the same [student_id] cannot be
    imported: the request answers 500 and the student table is left empty
    (the prior records are gone, none of the file's rows is stored), because
    the column is UNIQUE and the inserts of the single commit are rolled
    back together. *)
Theorem import_rejects_duplicate_ids current_user upload raw utcnow db
        (i j : nat) row_i row_j fields_i fields_j :
  staff current_user -> csv_name upload -> read_csv upload = Ok raw ->
  let rows := pd.iterrows series_text (strip_columns raw) in
  rows !! i = Some row_i -> rows !! j = Some row_j -> i <> j ->
  _csv_to_student_fields row_i = Ok fields_i ->
  _csv_to_student_fields row_j = Ok fields_j ->
  dict_str "student_id" fields_i = dict_str "student_id" fields_j ->
  exists message,
    import_csv predictor series_text current_user (Some upload) utcnow db =
    (ImportError 500 message, set_students [] db).
Proof.
  intros Hs Hn Hraw rows Hi Hj Hij Hfi Hfj Heq.
  rewrite (import_csv_after_read predictor series_text _ _ _ _ _ Hs Hn Hraw).
  fold rows.
  destruct (import_rows _ _ _) as [added|] eqn:Hadded; [|eexists; reflexivity].
  destruct (insert_students [] (map fst added)) as [table|] eqn:Hins; [|eexists; reflexivity].
  exfalso. apply Hij.
  pose proof (imported_student_ids predictor utcnow _ _ Hadded
                (fun i => S (length (@nil Student.t) + i))) as Hids.
  pose proof (insert_students_spec _ [] table eq_refl Hins) as Htable.
  change ([] ++ ?l)%list with l in Htable. cbv beta in Hids. rewrite <- Htable in Hids.
  assert (Hnd : NoDup (Student.student_id <$> table)).
  { apply (insert_students_nodup _ _ _ Hins). constructor. }
  apply mapM_Ok_inv in Hids.
  destruct (Forall2_lookup_l _ _ _ _ _ Hids Hi) as (id_i & Hid_i & Hrun_i).
  destruct (Forall2_lookup_l _ _ _ _ _ Hids Hj) as (id_j & Hid_j & Hrun_j).
  rewrite Hfi in Hrun_i. rewrite Hfj in Hrun_j.
  injection Hrun_i as <-. injection Hrun_j as <-.
  rewrite <- Heq in Hid_j.
  apply (proj1 (NoDup_alt _) Hnd i j _ Hid_i Hid_j).
Qed.

End BatchImportResults.

(** ** The single-record route: what it stores and what it keeps *)

Section PredictRoute.

Import app app_fields.

Variable predictor : ml_model.DropoutPredictor.
Variable sql_text : pyval -> string.

Lemma same_id_same_record (l : list Student.t) (s t : Student.t) :
  NoDup (Student.id <$> l) -> s ∈ l -> t ∈ l -> Student.id s = Student.id t -> s = t.
Proof.
  intros Hnd Hs Ht Hid.
  apply list_elem_of_lookup in Hs as [i Hi]. apply list_elem_of_lookup in Ht as [j Hj].
  assert (i = j) as ->; [|congruence].
  apply (proj1 (NoDup_alt _) Hnd i j (Student.id s)).
  - rewrite list_lookup_fmap, Hi. reflexivity.
  - rewrite list_lookup_fmap, Hj, Hid. reflexivity.
Qed.

Lemma find_student_elem (v : pyval) (db : DB) (student : Student.t) :
  find_student sql_text v db = Some student ->
  student ∈ students db /\ Student.student_id student = sql_text v.
Proof.
  unfold find_student. intros H. apply find_some in H as [Hin Heq]. split.
  - apply (proj2 (list_elem_of_In _ _)), Hin.
  - apply String.eqb_eq, Heq.
Qed.

(** Looking the student up again after the write gives the written record. *)
Lemma find_student_store (v : pyval) (db : DB) (student s' : Student.t) :
  find_student sql_text v db = Some student ->
  Student.id s' = Student.id student ->
  Student.student_id s' = Student.student_id student ->
  find_student sql_text v (set_students (store_student s' (students db)) db) = Some s'.
Proof.
  unfold find_student. cbn [set_students students]. intros Hf Hid Hsid.
  assert (Hs' : String.eqb (Student.student_id s') (sql_text v) = true).
  { rewrite Hsid. apply find_some in Hf as [_ H]. exact H. }
  induction (students db) as [|s l IH]; [discriminate|].
  cbn [store_student map List.find] in *.
  destruct (String.eqb (Student.student_id s) (sql_text v)) eqn:E.
  - injection Hf as ->. rewrite Hid, Nat.eqb_refl, Hs'. reflexivity.
  - destruct (Nat.eqb (Student.id s) (Student.id s')).
    + rewrite Hs'. reflexivity.
    + rewrite E. apply IH, Hf.
Qed.

Lemma store_student_lookup (s' : Student.t) (l : list Student.t) (i : nat) (s : Student.t) :
  l !! i = Some s ->
  store_student s' l !! i = Some (if Nat.eqb (Student.id s) (Student.id s') then s' else s).
Proof.
  intros H. unfold store_student.
  change (map ?f l) with (f <$> l). rewrite list_lookup_fmap, H. reflexivity.
Qed.

Lemma store_student_ids (s' : Student.t) (l : list Student.t) :
  Student.id <$> store_student s' l = Student.id <$> l.
Proof.
  unfold store_student. change (map ?f l) with (f <$> l).
  rewrite <- list_fmap_compose. apply list_fmap_ext. intros i s _. simpl.
  destruct (Nat.eqb_spec (Student.id s) (Student.id s')); congruence.
Qed.

Lemma next_id_fresh (ids : list nat) : next_id ids ∉ ids.
Proof.
  assert (H : forall x, x ∈ ids -> (x <= foldr Nat.max O ids)%nat).
  { induction ids as [|y ids IH]; intros x Hx; [inversion Hx|].
    apply elem_of_cons in Hx as [-> | Hx]; simpl; [lia|].
    specialize (IH _ Hx). lia. }
  intros Hin. apply H in Hin. unfold next_id in Hin. lia.
Qed.

(** The alerts are appended with fresh rowids. *)
Lemma fold_add_notification_ids (student : Student.t) (cs : list User.t) :
  forall table,
    NoDup (Notification.id <$> table) ->
    NoDup (Notification.id <$> fold_left (add_notification student) cs table).
Proof.
  induction cs as [|c cs IH]; intros table Hnd; [exact Hnd|].
  cbn [fold_left]. apply IH. unfold add_notification.
  rewrite fmap_app. apply NoDup_app. split; [exact Hnd|]. split.
  - intros x Hx Hx'. cbn in Hx'. apply list_elem_of_singleton in Hx'. subst x.
    revert Hx. change (map Notification.id table) with (Notification.id <$> table).
    apply next_id_fresh.
  - apply NoDup_singleton.
Qed.

(** X11. When the request names a persisted student, the route stores
    the prediction it answers with: looking the student up again gives the
    same record with the returned score (as SQLite keeps it), the returned
    category and the request's time as prediction date; identity, account link and academic
    columns are as before, and every other record is unchanged. *)
Theorem predict_stores_what_it_returns now data db student p c recs :
  ml_model.predict predictor (request_features data) = Ok (p, c, recs) ->
  truthy (data_get data "student_id" VNone) = true ->
  find_student sql_text (data_get data "student_id" VNone) db = Some student ->
  NoDup (Student.id <$> students db) ->
  let out := predict_dropout predictor sql_text now data db in
  out.1 = PredictOk p c recs /\
  (exists stored,
     find_student sql_text (data_get data "student_id" VNone) out.2 = Some stored /\
     Student.dropout_risk_score stored = sqlite_real p /\
     Student.risk_category stored = c /\
     Student.last_prediction_date stored = Some now /\
     Student.id stored = Student.id student /\
     Student.user_id stored = Student.user_id student /\
     Student.student_id stored = Student.student_id student /\
     Student.name stored = Student.name student /\
     Student.columns stored = Student.columns student) /\
  length (students out.2) = length (students db) /\
  (forall (i : nat) s, students db !! i = Some s -> s <> student ->
                       students out.2 !! i = Some s).
Proof.
  intros Hp Ht Hf Hnd out.
  pose proof (predict_dropout_found predictor sql_text now data db student p c recs Hp Ht Hf)
    as Hdb.
  cbv zeta in Hdb. fold out in Hdb.
  set (student' := update_prediction now p c student) in *.
  assert (Hst : students out.2 = store_student student' (students db)).
  { rewrite Hdb. destruct (String.eqb c "High"); reflexivity. }
  split; [|split; [|split]].
  - unfold out, predict_dropout. rewrite Hp. reflexivity.
  - exists student'. split; [|repeat split].
    assert (find_student sql_text (data_get data "student_id" VNone)
              (set_students (store_student student' (students db)) db) = Some student') as Hfs.
    { apply (find_student_store _ _ student); [exact Hf|reflexivity|reflexivity]. }
    unfold find_student in *. rewrite Hst. exact Hfs.
  - rewrite Hst. unfold store_student. apply length_map.
  - intros i s Hi Hne. rewrite Hst, (store_student_lookup _ _ _ _ Hi).
    destruct (Nat.eqb_spec (Student.id s) (Student.id student')) as [E|]; [|reflexivity].
    exfalso. apply Hne.
    apply (same_id_same_record (students db)); [exact Hnd| |apply (find_student_elem _ _ _ Hf)|exact E].
    apply list_elem_of_lookup. exists i. exact Hi.
Qed.

(** X12. Whatever the request and whether or not it succeeds, the route
    keeps the database well formed: user accounts are untouched, the
    student table keeps its rowids and its [student_id]s in place (so no
    record is added, removed or re-keyed), the notifications present before
    are still there in the same order (alerts are only appended), and
    notification rowids stay distinct. *)
Theorem predict_keeps_tables_well_formed now data db :
  NoDup (Student.id <$> students db) ->
  let db' := (predict_dropout predictor sql_text now data db).2 in
  users db' = users db /\
  Student.id <$> students db' = Student.id <$> students db /\
  Student.student_id <$> students db' = Student.student_id <$> students db /\
  notifications db `prefix_of` notifications db' /\
  (NoDup (Notification.id <$> notifications db) ->
   NoDup (Notification.id <$> notifications db')).
Proof.
  intros Hnd db'. unfold db', predict_dropout. clear db'.
  destruct (ml_model.predict predictor (request_features data)) as [[[p c] recs]|e];
    [|repeat split; [reflexivity|trivial]].
  cbn [snd].
  destruct (truthy _); [|repeat split; [reflexivity|trivial]].
  destruct (find_student sql_text _ db) as [student|] eqn:Hf;
    [|repeat split; [reflexivity|trivial]].
  set (student' := update_prediction now p c student).
  assert (Hsid : Student.student_id <$> store_student student' (students db)
                 = Student.student_id <$> students db).
  { apply list_eq. intros i. rewrite !list_lookup_fmap.
    destruct (students db !! i) as [s|] eqn:Hi.
    - rewrite (store_student_lookup _ _ _ _ Hi).
      destruct (Nat.eqb_spec (Student.id s) (Student.id student')) as [E|]; [|reflexivity].
      cbn [fmap option_fmap option_map]. f_equal.
      change (Student.student_id student = Student.student_id s). f_equal.
      symmetry.
      apply (same_id_same_record (students db));
        [exact Hnd| |apply (find_student_elem _ _ _ Hf)|exact E].
      apply list_elem_of_lookup. exists i. exact Hi.
    - unfold store_student. change (map ?f (students db)) with (f <$> students db).
      rewrite list_lookup_fmap, Hi. reflexivity. }
  destruct (String.eqb c "High").
  - cbn [set_notifications set_students users students notifications].
    split; [reflexivity|]. split; [apply store_student_ids|]. split; [exact Hsid|].
    destruct (fold_add_notification student'
                (counselors (set_students (store_student student' (students db)) db))
                (notifications db)) as (new & Hnew & _).
    split.
    + cbn [set_notifications set_students users students notifications] in Hnew.
      rewrite Hnew. exists new. reflexivity.
    + apply fold_add_notification_ids.
  - cbn [set_students users students notifications].
    split; [reflexivity|]. split; [apply store_student_ids|]. split; [exact Hsid|].
    split; [reflexivity|trivial].
Qed.

(** X13. Alerts are not de-duplicated: sending the same High-risk
    request again adds one more notification per counselor, so after two
    requests the table has grown by twice the number of counselor
    accounts. *)
Theorem repeated_high_prediction_alerts_again now now' data db student p recs :
  ml_model.predict predictor (request_features data) = Ok (p, "High", recs) ->
  truthy (data_get data "student_id" VNone) = true ->
  find_student sql_text (data_get data "student_id" VNone) db = Some student ->
  let db1 := (predict_dropout predictor sql_text now data db).2 in
  let db2 := (predict_dropout predictor sql_text now' data db1).2 in
  length (notifications db1) = (length (notifications db) + length (counselors db))%nat /\
  length (notifications db2) = (length (notifications db) + 2 * length (counselors db))%nat.
Proof.
  intros Hp Ht Hf db1 db2.
  assert (Hstep : forall t dba st,
             find_student sql_text (data_get data "student_id" VNone) dba = Some st ->
             let dbb := (predict_dropout predictor sql_text t data dba).2 in
             users dbb = users dba /\
             length (notifications dbb)
             = (length (notifications dba) + length (counselors dba))%nat /\
             find_student sql_text (data_get data "student_id" VNone) dbb
             = Some (update_prediction t p "High" st)).
  { intros t dba st Hfa dbb. unfold dbb.
    rewrite (predict_dropout_found predictor sql_text t data dba st p "High" recs Hp Ht Hfa).
    cbn [String.eqb Ascii.eqb Bool.eqb andb].
    set (st' := update_prediction t p "High" st).
    destruct (fold_add_notification st'
                (counselors (set_students (store_student st' (students dba)) dba))
                (notifications (set_students (store_student st' (students dba)) dba)))
      as (new & Hnew & Hids & _).
    split; [reflexivity|]. split.
    - cbn [set_notifications notifications]. rewrite Hnew, length_app. f_equal.
      rewrite <- (length_fmap Notification.counselor_id), Hids, length_fmap. reflexivity.
    - pose proof (find_student_store _ dba st st' Hfa eq_refl eq_refl) as H.
      unfold find_student in *. exact H. }
  destruct (Hstep now db student Hf) as (Hu1 & Hl1 & Hf1). fold db1 in Hu1, Hl1, Hf1.
  destruct (Hstep now' db1 _ Hf1) as (_ & Hl2 & _). fold db2 in Hl2.
  split; [exact Hl1|]. rewrite Hl2, Hl1.
  unfold counselors. rewrite Hu1. lia.
Qed.

End PredictRoute.

(** ** The anonymous quick prediction *)

Section QuickPredict.

Import app app_quick.

Lemma elem_of_existsb (key : string) (l : list string) :
  key ∈ l -> existsb (String.eqb key) l = true.
Proof.
  intros H. apply existsb_exists. exists key. split.
  - apply (proj1 (list_elem_of_In _ _)), H.
  - apply String.eqb_refl.
Qed.

Lemma request_features_at (data : gmap string pyval) (i : nat) key d :
  api_defaults !! i = Some (key, d) ->
  request_features data !! i = Some (data_get data key d).
Proof.
  intros H. unfold request_features.
  change (map ?f api_defaults) with (f <$> api_defaults).
  rewrite list_lookup_fmap, H. reflexivity.
Qed.

(** X14. For a request that carries the eight form fields with JSON
    numbers of the expected kind (integers for the five counters and
    flags, floats for the age and the two grades), the quick route builds a
    vector of the scorer's 34 entries in which each of these fields sits at
    the position where the full prediction route puts the same key, with
    the same value. *)
Theorem quick_fields_sit_at_schema_positions (data : gmap string pyval) :
  (forall key, key ∈ int_fields -> exists z, data !! key = Some (VInt z)) ->
  (forall key, key ∈ float_fields -> exists f, data !! key = Some (VFloat f)) ->
  exists features,
    quick_features data = Ok features /\
    length features = length ml_model.feature_names /\
    forall (i : nat) key d,
      api_defaults !! i = Some (key, d) ->
      key ∈ (int_fields ++ float_fields)%list ->
      features !! i = request_features data !! i.
Proof.
  intros Hint Hfloat.
  destruct (Hint "gender" ltac:(repeat constructor)) as [gender Hgender].
  destruct (Hint "tuition_fees_up_to_date" ltac:(repeat constructor)) as [tuition Htuition].
  destruct (Hint "scholarship_holder" ltac:(repeat constructor)) as [scholarship Hscholarship].
  destruct (Hint "curricular_units_1st_sem_approved" ltac:(repeat constructor))
    as [approved1 Happroved1].
  destruct (Hint "curricular_units_2nd_sem_approved" ltac:(repeat constructor))
    as [approved2 Happroved2].
  destruct (Hfloat "age_at_enrollment" ltac:(repeat constructor)) as [age Hage].
  destruct (Hfloat "curricular_units_1st_sem_grade" ltac:(repeat constructor)) as [g1 Hg1].
  destruct (Hfloat "curricular_units_2nd_sem_grade" ltac:(repeat constructor)) as [g2 Hg2].
  eexists. split; [|split].
  - unfold quick_features, data_get.
    rewrite Hgender, Htuition, Hscholarship, Happroved1, Happroved2, Hage, Hg1, Hg2.
    reflexivity.
  - reflexivity.
  - intros i key d Hi Hkey. rewrite (request_features_at _ _ _ _ Hi).
    apply elem_of_existsb in Hkey. unfold data_get.
    do 34 (destruct i as [|i];
           [injection Hi as <- <-;
            first [ discriminate Hkey
                  | rewrite ?Hgender, ?Htuition, ?Hscholarship, ?Happroved1, ?Happroved2,
                            ?Hage, ?Hg1, ?Hg2; reflexivity ]|]).
    discriminate Hi.
Qed.

(** X15. An explicit JSON null for any of the eight form fields is not
    replaced by the field's default: the conversion fails and the quick
    route answers 400, whatever the other fields hold and whatever the
    scorer would have said. *)
Theorem quick_null_field_is_rejected (predictor : ml_model.DropoutPredictor)
    (data : gmap string pyval) (key : string) :
  key ∈ (int_fields ++ float_fields)%list ->
  data !! key = Some VNone ->
  exists message, quick_predict predictor data = QuickError 400 message.
Proof.
  intros Hkey Hnull. unfold quick_predict, quick_features.
  assert (Hget : forall d, data_get data key d = VNone).
  { intros d. unfold data_get. rewrite Hnull. reflexivity. }
  repeat (apply elem_of_cons in Hkey as [-> | Hkey]); [..|inversion Hkey];
    rewrite Hget; cbn [py_int py_float];
    repeat (match goal with
            | |- context [py_float ?v] => destruct (py_float v)
            | |- context [py_int ?v] => destruct (py_int v)
            end; cbn [mbind result_bind]);
    eexists; reflexivity.
Qed.

(** X16. The quick route reads the eight form fields and nothing else:
    two requests that agree on them get the same answer, whatever other
    keys (a [student_id], the remaining schema fields) they carry. *)
Theorem quick_predict_reads_eight_fields (predictor : ml_model.DropoutPredictor)
    (data data' : gmap string pyval) :
  (forall key, key ∈ (int_fields ++ float_fields)%list -> data !! key = data' !! key) ->
  quick_predict predictor data = quick_predict predictor data'.
Proof.
  intros H. unfold quick_predict, quick_features, data_get.
  rewrite (H "gender" ltac:(repeat constructor)),
          (H "tuition_fees_up_to_date" ltac:(repeat constructor)),
          (H "scholarship_holder" ltac:(repeat constructor)),
          (H "curricular_units_1st_sem_approved" ltac:(repeat constructor)),
          (H "curricular_units_2nd_sem_approved" ltac:(repeat constructor)),
          (H "age_at_enrollment" ltac:(repeat constructor)),
          (H "curricular_units_1st_sem_grade" ltac:(repeat constructor)),
          (H "curricular_units_2nd_sem_grade" ltac:(repeat constructor)).
  reflexivity.
Qed.

End QuickPredict.

(** ** The default accounts *)

Section DefaultAccounts.

Import app_users.

Lemma find_user_app (name : string) (table : list User.t) (u : User.t) :
  find_user name (table ++ [u]) =
  match find_user name table with
  | Some v => Some v
  | None => if String.eqb (User.username u) name then Some u else None
  end.
Proof.
  unfold find_user. induction table as [|v table IH]; [reflexivity|].
  cbn [app List.find]. destruct (String.eqb (User.username v) name); [reflexivity|exact IH].
Qed.

Lemma insert_user_inv (table table' : list User.t) (u : User.t) :
  insert_user table u = Ok table' ->
  table' = (table ++ [with_id (next_id (map User.id table)) u])%list /\
  Forall (fun u' => User.username u' <> User.username u /\ User.email u' <> User.email u)
         table.
Proof.
  unfold insert_user. destruct (existsb _ table) eqn:E; [discriminate|].
  intros [= <-]. split; [reflexivity|].
  apply Forall_forall. intros v Hv.
  assert (H : String.eqb (User.username v) (User.username u)
              || String.eqb (User.email v) (User.email u) = false).
  { destruct (_ || _) eqn:E'; [|reflexivity].
    rewrite <- E. symmetry. apply existsb_exists. exists v. split; [|exact E'].
    apply (proj1 (list_elem_of_In _ _)), Hv. }
  apply orb_false_iff in H as [H1 H2].
  split; [apply String.eqb_neq, H1 | apply String.eqb_neq, H2].
Qed.

Lemma insert_user_conflict (table : list User.t) (u v : User.t) :
  v ∈ table -> User.username v = User.username u \/ User.email v = User.email u ->
  insert_user table u = Raise IntegrityError.
Proof.
  intros Hv Hc. unfold insert_user.
  assert (E : existsb (fun u' => String.eqb (User.username u') (User.username u)
                                 || String.eqb (User.email u') (User.email u)) table = true).
  { apply existsb_exists. exists v. split; [apply (proj1 (list_elem_of_In _ _)), Hv|].
    apply orb_true_iff. destruct Hc as [-> | ->]; [left | right]; apply String.eqb_refl. }
  rewrite E. reflexivity.
Qed.

(** What a committed session of [create_default_users] leaves. *)
Lemma default_users_session_inv h (table table' : list User.t) :
  default_users_session h table = Ok table' ->
  table `prefix_of` table' /\
  is_Some (find_user "admin" table') /\ is_Some (find_user "counselor" table').
Proof.
  unfold default_users_session.
  destruct (find_user "admin" table) as [a|] eqn:Ha; cbn [mbind result_bind].
  - destruct (find_user "counselor" table) as [c|] eqn:Hc.
    + intros [= <-]. rewrite Ha, Hc.
      split; [reflexivity|]. split; eexists; reflexivity.
    + intros H. apply insert_user_inv in H as [-> _].
      rewrite !find_user_app, Ha, Hc.
      split; [eexists; reflexivity|]. split; eexists; reflexivity.
  - destruct (insert_user table (default_admin h)) as [table1|] eqn:H1; [|discriminate].
    cbn [mbind result_bind]. apply insert_user_inv in H1 as [-> _].
    rewrite (find_user_app "counselor").
    destruct (find_user "counselor" table) as [c|] eqn:Hc.
    + intros [= <-]. rewrite !find_user_app, Ha, Hc.
      split; [eexists; reflexivity|]. split; eexists; reflexivity.
    + cbn [default_admin new_user with_id User.username String.eqb Ascii.eqb Bool.eqb andb].
      intros H. apply insert_user_inv in H as [-> _].
      rewrite !find_user_app, Ha, Hc.
      split; [rewrite <- app_assoc; eexists; reflexivity|].
      split; eexists; reflexivity.
Qed.

(** Whether the session fails does not depend on the hashes. *)
Lemma default_users_session_fails h h' (table : list User.t) e :
  default_users_session h table = Raise e ->
  exists e', default_users_session h' table = Raise e'.
Proof.
  unfold default_users_session, insert_user.
  destruct (find_user "admin" table) as [a|] eqn:Ha; cbn [mbind result_bind].
  - destruct (find_user "counselor" table) as [c|]; [discriminate|].
    cbn [default_counselor new_user User.username User.email].
    destruct (existsb _ table); [|discriminate]. eexists; reflexivity.
  - cbn [default_admin new_user User.username User.email].
    destruct (existsb _ table); [eexists; reflexivity|].
    cbn [mbind result_bind]. rewrite !(find_user_app "counselor").
    destruct (find_user "counselor" table) as [c|]; [discriminate|].
    cbn [with_id User.username User.email String.eqb Ascii.eqb Bool.eqb andb].
    cbn [default_counselor new_user User.username User.email].
    rewrite !existsb_app.
    destruct (existsb _ table); [eexists; reflexivity|].
    cbn [existsb with_id User.username User.email String.eqb Ascii.eqb Bool.eqb andb orb].
    discriminate.
Qed.

(** X17. Setting up the default accounts is conservative and idempotent:
    the accounts present before are kept as they were (an existing admin or
    counselor keeps its password and role), students and notifications are
    untouched, either nothing is added or both names exist afterwards, and
    running the setup again (even with other salts for the hashes) changes
    nothing more. *)
Theorem create_default_users_idempotent (h h' : string -> string) (db : DB) :
  let db1 := create_default_users h db in
  users db `prefix_of` users db1 /\
  students db1 = students db /\ notifications db1 = notifications db /\
  (users db1 = users db \/
   (is_Some (find_user "admin" (users db1)) /\ is_Some (find_user "counselor" (users db1)))) /\
  create_default_users h' db1 = db1.
Proof.
  cbv zeta.
  destruct (default_users_session h (users db)) as [table|e] eqn:Hs.
  - assert (Hdb1 : create_default_users h db = set_users table db).
    { unfold create_default_users. rewrite Hs. reflexivity. }
    rewrite Hdb1.
    destruct (default_users_session_inv _ _ _ Hs) as (Hpre & [a Ha] & [c Hc]).
    split; [exact Hpre|]. split; [reflexivity|]. split; [reflexivity|].
    split; [right; split; eexists; eassumption|].
    unfold create_default_users, default_users_session.
    cbn [set_users users]. rewrite Ha. cbn [mbind result_bind]. rewrite Hc.
    reflexivity.
  - assert (Hdb1 : create_default_users h db = db).
    { unfold create_default_users. rewrite Hs. reflexivity. }
    rewrite Hdb1.
    split; [reflexivity|]. split; [reflexivity|]. split; [reflexivity|].
    split; [left; reflexivity|].
    destruct (default_users_session_fails h h' _ _ Hs) as [e' He'].
    unfold create_default_users. rewrite He'. reflexivity.
Qed.

(** X18. The setup is all or nothing.  When a default account is missing
    by name but its e-mail address belongs to another account, the insert
    violates the uniqueness of e-mails, the exception is swallowed and the
    session rolled back: the database is left exactly as it was, so the
    other default account is not created either. *)
Theorem create_default_users_all_or_nothing (h : string -> string) (db : DB) (u : User.t) :
  u ∈ users db ->
  (find_user "admin" (users db) = None /\ User.email u = "admin@university.edu") \/
  (find_user "counselor" (users db) = None /\ User.email u = "counselor@university.edu") ->
  create_default_users h db = db.
Proof.
  intros Hu Hc. unfold create_default_users.
  assert (H : exists e, default_users_session h (users db) = Raise e);
    [|destruct H as [e ->]; reflexivity].
  unfold default_users_session. destruct Hc as [[Ha He] | [Hc He]].
  - rewrite Ha, (insert_user_conflict _ _ u Hu); [eexists; reflexivity|].
    right. exact He.
  - destruct (find_user "admin" (users db)) as [a|] eqn:Ha; cbn [mbind result_bind].
    + rewrite Hc, (insert_user_conflict _ _ u Hu); [eexists; reflexivity|].
      right. exact He.
    + destruct (insert_user (users db) (default_admin h)) as [table1|] eqn:H1;
        [|eexists; reflexivity].
      cbn [mbind result_bind]. apply insert_user_inv in H1 as [-> _].
      rewrite find_user_app, Hc.
      cbn [default_admin new_user with_id User.username String.eqb Ascii.eqb Bool.eqb andb].
      rewrite (insert_user_conflict _ _ u); [eexists; reflexivity| |right; exact He].
      apply elem_of_app. left. exact Hu.
Qed.

(** X19. The initialisation script never creates the admin account: on
    a database without a user named [admin] it stops with a [TypeError]
    (the constructor is given a [password] argument the model does not
    have) before the counselor is created, leaving the database as it was;
    with an admin present it only adds the counselor, if missing. *)
Theorem init_db_never_creates_admin (h : string -> string) (db : DB) :
  let out := init_db.main h db in
  find_user "admin" (users out.2) = find_user "admin" (users db) /\
  (find_user "admin" (users db) = None -> out = (Raise TypeError, db)) /\
  (forall created, out.1 = Ok created ->
     is_Some (find_user "admin" (users db)) /\
     is_Some (find_user "counselor" (users out.2)) /\
     users db `prefix_of` users out.2).
Proof.
  cbv zeta. unfold init_db.main, init_db.create_admin_user.
  destruct (find_user "admin" (users db)) as [a|] eqn:Ha.
  2:{ split; [exact Ha|]. split; [reflexivity|]. intros created [=]. }
  unfold init_db.create_counselor.
  destruct (find_user "counselor" (users db)) as [c|] eqn:Hc.
  { split; [exact Ha|]. split; [discriminate|]. intros created _. cbn [snd].
    split; [eexists; reflexivity|]. split; [rewrite Hc; eexists; reflexivity|reflexivity]. }
  destruct (insert_user (users db) (default_counselor h)) as [table|e] eqn:Hi.
  - apply insert_user_inv in Hi as [-> _]. cbn [fst snd set_users users].
    rewrite !find_user_app, Ha, Hc.
    split; [reflexivity|]. split; [discriminate|]. intros created _.
    split; [eexists; reflexivity|]. split; eexists; reflexivity.
  - split; [exact Ha|]. split; [discriminate|]. intros created [=].
Qed.

End DefaultAccounts.

(** ** The read routes *)

Section ReadRoutes.

Import app app_fields app_read.

Variable predictor : ml_model.DropoutPredictor.
Variable series_text : pd.label -> string -> list pd.cell -> string.

Lemma find_by_student_id_unique (db : DB) (i : nat) (s : Student.t) :
  NoDup (Student.student_id <$> students db) ->
  students db !! i = Some s ->
  find_by_student_id (Student.student_id s) db = Some s.
Proof.
  unfold find_by_student_id. revert i.
  induction (students db) as [|x l IH]; intros i Hnd Hi; [discriminate|].
  rewrite fmap_cons in Hnd. apply NoDup_cons in Hnd as [Hx Hnd].
  cbn [List.find]. destruct i as [|i].
  - injection Hi as ->. rewrite String.eqb_refl. reflexivity.
  - cbn in Hi. destruct (String.eqb_spec (Student.student_id x) (Student.student_id s)) as [E|_].
    + exfalso. apply Hx. rewrite E. apply list_elem_of_fmap. exists s. split; [reflexivity|].
      apply list_elem_of_lookup. exists i. exact Hi.
    + apply (IH i Hnd Hi).
Qed.

Lemma find_by_student_id_elem (db : DB) (sid : string) (s : Student.t) :
  find_by_student_id sid db = Some s -> s ∈ students db.
Proof.
  unfold find_by_student_id. intros H. apply find_some in H as [H _].
  apply (proj2 (list_elem_of_In _ _)), H.
Qed.

(** Rowids 1, 2, ..., N: the lookup by primary key is the lookup by
    position. *)
Lemma get_by_id_seq (db : DB) (k : nat) :
  map Student.id (students db) = seq 1 (length (students db)) ->
  get_by_id k db = match k with O => None | S i => students db !! i end.
Proof.
  unfold get_by_id.
  assert (H : forall l a, map Student.id l = seq a (length l) ->
                          List.find (fun s => Nat.eqb (Student.id s) k) l =
                          if (k <? a)%nat then None else l !! (k - a)%nat).
  { induction l as [|x l IH]; intros a Hl; cbn [List.find].
    - destruct (k <? a)%nat; reflexivity.
    - cbn [map length seq] in Hl. injection Hl as Hx Hl. rewrite (IH _ Hl), Hx.
      destruct (Nat.eqb_spec a k) as [->|Hne].
      + rewrite Nat.ltb_irrefl, Nat.sub_diag. reflexivity.
      + destruct (Nat.ltb_spec k (S a)), (Nat.ltb_spec k a); try lia; [reflexivity|].
        replace (k - a)%nat with (S (k - S a)) by lia. reflexivity. }
  intros Hids. rewrite (H _ _ Hids). destruct k as [|i]; [reflexivity|].
  replace (S i - 1)%nat with i by lia. reflexivity.
Qed.

(** X20. An import cuts every student account off from the records: the
    imported records are linked to no account, so after a successful import
    a user with the role [student] gets "Unauthorized" (or "Student not
    found") for every identifier, while any other user is shown each
    imported record under its identifier. *)
Theorem import_unlinks_student_accounts current_user file utcnow db summary results
    missing db' :
  import_csv predictor series_text current_user file utcnow db = (ImportOk summary results missing, db') ->
  (forall user sid,
      User.role user = "student" ->
      get_student user sid db' = StudentError "Student not found" \/
      get_student user sid db' = StudentError "Unauthorized") /\
  (forall user (i : nat) s,
      User.role user <> "student" -> students db' !! i = Some s ->
      exists d, get_student user (Student.student_id s) db' = StudentOk d /\
                data_id d = S i /\ data_name d = Student.name s /\
                data_risk_score d = Student.dropout_risk_score s /\
                data_risk_category d = Student.risk_category s).
Proof.
  intros H.
  destruct (import_csv_success predictor series_text _ _ _ _ _ _ _ _ H)
    as (upload & raw & added & table & _ & _ & _ & _ & Hadded & Hins & Htable & -> & _).
  assert (Hnd : NoDup (Student.student_id <$> table)).
  { apply (insert_students_nodup _ _ _ Hins). constructor. }
  assert (Hat : forall (i : nat) s, table !! i = Some s ->
                                    Student.id s = S i /\ Student.user_id s = None).
  { intros i s. rewrite Htable, list_lookup_imap.
    change (map fst added) with (fst <$> added). rewrite list_lookup_fmap.
    destruct (added !! i) as [[s0 pv]|] eqn:Hi; [|discriminate].
    intros [= <-].
    destruct (proj1 (proj2 (import_rows_lookup _ _ _ _ Hadded)) _ _ Hi) as (row & _ & Hrow).
    destruct (import_row_inv predictor _ _ _ _ _ Hrow) as (fields & _ & _ & _ & Hu & _).
    split; [reflexivity|exact Hu]. }
  split.
  - intros user sid Hrole. unfold get_student.
    destruct (find_by_student_id sid _) as [s|] eqn:Hf; [right | left; reflexivity].
    apply find_by_student_id_elem, list_elem_of_lookup in Hf as [i Hi].
    destruct (Hat i s Hi) as [_ Hu]. rewrite Hrole, Hu. reflexivity.
  - intros user i s Hrole Hi. unfold get_student.
    rewrite (find_by_student_id_unique (set_students table (set_students [] db)) i s Hnd Hi).
    destruct (String.eqb_spec (User.role user) "student") as [E|_]; [contradiction|].
    cbn [andb]. eexists. split; [reflexivity|]. cbn.
    destruct (Hat i s Hi) as [Hid _]. repeat split. exact Hid.
Qed.

(** X21. The list and the detail route agree: for a counselor or
    admin, each entry of the student list names a record whose detail view
    shows the same rowid, name, score, category, prediction date, age,
    gender and scholarship flag.  (Identifiers are unique in the table.) *)
Theorem student_list_matches_detail current_user db :
  staff current_user ->
  NoDup (Student.student_id <$> students db) ->
  exists rows,
    get_students current_user db = StudentsOk rows /\
    length rows = length (students db) /\
    forall (i : nat) r,
      rows !! i = Some r ->
      exists d,
        get_student current_user (row_student_id r) db = StudentOk d /\
        data_id d = row_id r /\ data_student_id d = row_student_id r /\
        data_name d = row_name r /\
        data_risk_score d = row_risk_score r /\
        data_risk_category d = row_risk_category r /\
        data_last_prediction_date d = row_last_prediction_date r /\
        data_age_at_enrollment d = row_age_at_enrollment r /\
        data_gender d = row_gender r /\
        data_scholarship_holder d = row_scholarship_holder r.
Proof.
  intros Hs Hnd. unfold get_students. rewrite (staff_check _ Hs).
  eexists. split; [reflexivity|]. split; [apply length_map|].
  intros i r. change (map student_row (students db)) with (student_row <$> students db).
  rewrite list_lookup_fmap. destruct (students db !! i) as [s|] eqn:Hi; [|discriminate].
  intros [= <-]. unfold get_student. cbn [student_row row_student_id].
  rewrite (find_by_student_id_unique _ i s Hnd Hi).
  assert (Hr : String.eqb (User.role current_user) "student" = false).
  { destruct Hs as [-> | ->]; reflexivity. }
  rewrite Hr. cbn [andb]. eexists. split; [reflexivity|]. repeat split.
Qed.

Variable created_at : Notification.t -> Z.
Variable order_by_created_at_desc : list Notification.t -> list Notification.t.

(** X22. An import leaves the alerts in place but not the records they
    point to.  After a successful import the notification list of any
    counselor or admin shows the same alerts as before it, in the same
    order: the ten first, by creation time, of the viewer's unread alerts
    (all of them when there are at most ten).  Only the student names
    differ: each alert is attributed by rowid to the new table, so an alert
    for the old record with rowid [k] carries the name of the [k]-th row of
    the imported file, or "Unknown" when the file has fewer rows. *)
Theorem alerts_are_reattributed_by_import current_user file utcnow db summary results
    missing db' viewer :
  (forall l, order_by_created_at_desc l ≡ₚ l) ->
  import_csv predictor series_text current_user file utcnow db
    = (ImportOk summary results missing, db') ->
  staff viewer ->
  let unread :=
    List.filter (fun n => Nat.eqb (Notification.counselor_id n) (User.id viewer)
                          && negb (Notification.is_read n))
                (notifications db) in
  let listed := take 10 (order_by_created_at_desc unread) in
  get_notifications created_at order_by_created_at_desc viewer db'
    = NotificationsOk (notification_row created_at db' <$> listed) /\
  get_notifications created_at order_by_created_at_desc viewer db
    = NotificationsOk (notification_row created_at db <$> listed) /\
  length listed = Nat.min 10 (length unread) /\
  (forall n, n ∈ listed ->
     n ∈ notifications db /\
     Notification.counselor_id n = User.id viewer /\ Notification.is_read n = false) /\
  ((length unread <= 10)%nat ->
   forall n, n ∈ notifications db ->
     Notification.counselor_id n = User.id viewer -> Notification.is_read n = false ->
     n ∈ listed) /\
  (forall n,
     let r := notification_row created_at db' n in
     note_id r = Notification.id n /\ note_message r = Notification.message n /\
     note_type r = Notification.notification_type n /\
     note_created_at r = created_at n /\
     note_student_name r =
       match Notification.student_id n with
       | O => "Unknown"
       | S i => match students db' !! i with
                | Some s => Student.name s
                | None => "Unknown"
                end
       end).
Proof.
  intros Horder H Hv unread listed.
  destruct (import_csv_frame predictor series_text current_user file utcnow db) as [_ Hn].
  rewrite H in Hn. cbn [snd] in Hn.
  destruct (import_csv_success predictor series_text _ _ _ _ _ _ _ _ H)
    as (upload & raw & added & table & _ & Hs & _ & _ & Hadded & Hins & Htable & Hdb' & _).
  assert (Hids : map Student.id (students db') = seq 1 (length (students db'))).
  { rewrite Hdb'. cbn [set_students students]. rewrite Htable, length_imap.
    exact (imap_with_id_ids (map fst added) 1). }
  assert (Hunread : forall n, n ∈ unread <->
                      n ∈ notifications db /\
                      Notification.counselor_id n = User.id viewer /\
                      Notification.is_read n = false).
  { intros n. unfold unread. rewrite (list_elem_of_In (List.filter _ _) n), filter_In.
    rewrite <- (list_elem_of_In (notifications db) n), andb_true_iff, Nat.eqb_eq,
      negb_true_iff. reflexivity. }
  split; [|split; [|split; [|split; [|split]]]].
  - unfold get_notifications. rewrite (staff_check _ Hv), Hn. reflexivity.
  - unfold get_notifications. rewrite (staff_check _ Hv). reflexivity.
  - unfold listed. rewrite length_take, (Permutation_length (Horder unread)). reflexivity.
  - intros n Hin. apply Hunread. rewrite <- (Horder unread).
    unfold listed in Hin. apply elem_of_take in Hin as (j & Hj & _).
    apply list_elem_of_lookup. exists j. exact Hj.
  - intros Hlen n Hin Hc Hr. unfold listed.
    rewrite take_ge by (rewrite (Permutation_length (Horder unread)); exact Hlen).
    rewrite (Horder unread). apply Hunread. repeat split; assumption.
  - intros n r. unfold r. repeat split.
    cbn [notification_row note_student_name]. unfold student_name.
    rewrite (get_by_id_seq _ _ Hids).
    destruct (Notification.student_id n) as [|i]; reflexivity.
Qed.

End ReadRoutes.

(** ** The figures of the dashboards *)

Section Figures.

Import app app_fields app_read app_analytics.

Variable predictor : ml_model.DropoutPredictor.
Variable series_text : pd.label -> string -> list pd.cell -> string.
Variable created_at : Notification.t -> Z.
Variable now : Z.

Lemma category_counts (l : list Student.t) :
  let count c := length (List.filter (fun s => String.eqb (Student.risk_category s) c) l) in
  (count "High" + count "Medium" + count "Low" <= length l)%nat /\
  (Forall (fun s => valid_category (Student.risk_category s) = true) l ->
   (count "High" + count "Medium" + count "Low")%nat = length l).
Proof.
  cbv zeta. induction l as [|s l [IHle IHeq]]; [split; [reflexivity|intros _; reflexivity]|].
  cbn [List.filter length].
  assert (Hcases : Student.risk_category s = "High" \/ Student.risk_category s = "Medium" \/
                   Student.risk_category s = "Low" \/
                   valid_category (Student.risk_category s) = false).
  { unfold valid_category.
    destruct (String.eqb_spec (Student.risk_category s) "High") as [->|_]; [left; reflexivity|].
    destruct (String.eqb_spec (Student.risk_category s) "Medium") as [->|_];
      [right; left; reflexivity|].
    destruct (String.eqb_spec (Student.risk_category s) "Low") as [->|_];
      [right; right; left; reflexivity|].
    right; right; right; reflexivity. }
  split.
  - destruct Hcases as [-> | [-> | [-> | H]]]; cbn [String.eqb Ascii.eqb Bool.eqb andb length];
      try lia.
    unfold valid_category in H. apply orb_false_iff in H as [H H3].
    apply orb_false_iff in H as [H1 H2]. rewrite H1, H2, H3. lia.
  - intros Hall. apply Forall_cons in Hall as [Hs Hall]. specialize (IHeq Hall).
    destruct Hcases as [-> | [-> | [-> | H]]]; cbn [String.eqb Ascii.eqb Bool.eqb andb length];
      try lia.
    congruence.
Qed.

(** X23. The analytics route counts every student once: the High,
    Medium and Low counts never exceed the total, and they add up to it
    whenever every record carries one of the three categories (as the
    records written by the import and by the prediction route do); the
    recent alerts counted are among the stored notifications. *)
Theorem analytics_counts_partition current_user db a :
  get_analytics created_at now current_user db = AnalyticsOk a ->
  staff current_user /\
  total_students a = length (students db) /\
  (high_risk a + medium_risk a + low_risk a <= total_students a)%nat /\
  (Forall (fun s => valid_category (Student.risk_category s) = true) (students db) ->
   (high_risk a + medium_risk a + low_risk a)%nat = total_students a) /\
  (active_interventions a <= length (notifications db))%nat /\
  (students db = [] -> rounded_success_rate a = VInt 0).
Proof.
  unfold get_analytics.
  destruct (negb _) eqn:Hrole; [discriminate|]. intros [= <-].
  destruct (category_counts (students db)) as [Hle Heq].
  split; [apply staff_check_inv, Hrole|]. split; [reflexivity|].
  split; [exact Hle|]. split; [exact Heq|]. split.
  - cbn [figures active_interventions]. unfold count_active. apply filter_length_le.
  - intros Hnil. cbn [figures rounded_success_rate]. rewrite Hnil. reflexivity.
Qed.

(** X24. The pages show the figures of the analytics route: the admin
    and the counselor dashboard always, and the home page whenever there is
    at least one student and one alert of the last thirty days (otherwise it
    shows placeholders). *)
Theorem dashboards_show_analytics current_user db :
  staff current_user ->
  exists a,
    get_analytics created_at now current_user db = AnalyticsOk a /\
    (User.role current_user = "admin" ->
     dashboard created_at now current_user db = admin_dashboard a) /\
    (User.role current_user = "counselor" ->
     dashboard created_at now current_user db = university_dashboard a) /\
    (students db <> [] -> (0 < active_interventions a)%nat ->
     index created_at now db = index_page a).
Proof.
  intros Hs. unfold get_analytics. rewrite (staff_check _ Hs).
  eexists. split; [reflexivity|]. split; [|split].
  - intros Hr. unfold dashboard. rewrite Hr. reflexivity.
  - intros Hr. unfold dashboard. rewrite Hr. reflexivity.
  - intros Hne Hact. unfold index, figures. cbn [figures active_interventions] in Hact.
    assert (Ht : (0 <? length (students db))%nat = true).
    { apply Nat.ltb_lt. destruct (students db); [contradiction|simpl; lia]. }
    apply Nat.ltb_lt in Hact.
    rewrite Ht, Hact. unfold success_rate. rewrite Ht. reflexivity.
Qed.

(** X25. After a successful import the student dashboard is empty for
    every student account: no imported record is linked to an account, so
    the page is rendered without student data. *)
Theorem import_empties_student_dashboards current_user file utcnow db summary results
    missing db' user :
  import_csv predictor series_text current_user file utcnow db = (ImportOk summary results missing, db') ->
  User.role user = "student" ->
  dashboard created_at now user db' = student_dashboard None.
Proof.
  intros H Hrole.
  destruct (import_csv_success predictor series_text _ _ _ _ _ _ _ _ H)
    as (upload & raw & added & table & _ & _ & _ & _ & Hadded & Hins & Htable & -> & _).
  unfold dashboard. rewrite Hrole. cbn [String.eqb Ascii.eqb Bool.eqb andb].
  destruct (List.find _ _) as [s|] eqn:Hf; [|reflexivity].
  exfalso. apply find_some in Hf as [Hin Hu].
  apply bool_decide_eq_true in Hu.
  apply (proj2 (list_elem_of_In _ _)), list_elem_of_lookup in Hin as [i Hi].
  cbn [set_students students] in Hi. rewrite Htable, list_lookup_imap in Hi.
  change (map fst added) with (fst <$> added) in Hi. rewrite list_lookup_fmap in Hi.
  destruct (added !! i) as [[s0 pv]|] eqn:Ha; [|discriminate].
  injection Hi as <-.
  destruct (proj1 (proj2 (import_rows_lookup _ _ _ _ Hadded)) _ _ Ha) as (row & _ & Hrow).
  destruct (import_row_inv predictor _ _ _ _ _ Hrow) as (fields & _ & _ & _ & Hnone & _).
  cbn [with_id Student.user_id] in Hu. congruence.
Qed.

End Figures.

(** ** Logging in with the default accounts *)

Section DefaultLogin.

Import app app_users app_login.

Variable check_password_hash : string -> pyval -> result bool.
Variable sql_text : pyval -> string.

(** X27. The default credentials work exactly for the accounts the setup
    creates.  If [create_default_users] adds the admin (the name was free
    and the session committed), logging in as [admin] with [admin123]
    succeeds with the role [admin] and that account in the session,
    provided a hash checks against its own password; an admin account that
    existed before keeps its hash, so the answer for it is whatever the
    check of the old hash says. *)
Theorem default_admin_can_log_in (h : string -> string) (db : DB) (data : gmap string pyval) :
  (forall password, check_password_hash (h password) (VStr password) = Ok true) ->
  data !! "username" = Some (VStr "admin") ->
  data !! "password" = Some (VStr "admin123") ->
  let db1 := create_default_users h db in
  (find_user "admin" (users db) = None -> users db1 <> users db ->
   exists admin,
     login check_password_hash sql_text data db1 = (LoginOk "admin" "/dashboard", Some admin) /\
     User.username admin = "admin" /\ User.email admin = "admin@university.edu" /\
     User.id admin = next_id (map User.id (users db))) /\
  (forall old, find_user "admin" (users db) = Some old ->
     find_user "admin" (users db1) = Some old /\
     login check_password_hash sql_text data db1 =
     match check_password_hash (User.password_hash old) (VStr "admin123") with
     | Raise e => (LoginRaised e, None)
     | Ok true => (LoginOk (User.role old) "/dashboard", Some old)
     | Ok false => (LoginFailed "Invalid password", None)
     end).
Proof.
  intros Hhash Hu Hp db1.
  assert (Hlogin : forall dbx,
             login check_password_hash sql_text data dbx =
             match find_user "admin" (users dbx) with
             | Some user =>
                 match check_password_hash (User.password_hash user) (VStr "admin123") with
                 | Raise e => (LoginRaised e, None)
                 | Ok true => (LoginOk (User.role user) "/dashboard", Some user)
                 | Ok false => (LoginFailed "Invalid password", None)
                 end
             | None => (LoginFailed "User not found", None)
             end).
  { intros dbx. unfold login, data_get. rewrite Hu, Hp. reflexivity. }
  assert (Hpre : users db `prefix_of` users db1).
  { unfold db1, create_default_users.
    destruct (default_users_session h (users db)) as [table|] eqn:Hs; [|reflexivity].
    apply (default_users_session_inv _ _ _ Hs). }
  split.
  - intros Hnone Hchanged. unfold db1, create_default_users in *.
    destruct (default_users_session h (users db)) as [table|] eqn:Hs;
      [|exfalso; apply Hchanged; reflexivity].
    cbn [set_users users] in *. clear Hchanged Hpre.
    unfold default_users_session in Hs. rewrite Hnone in Hs.
    destruct (insert_user (users db) (default_admin h)) as [table1|] eqn:H1; [|discriminate].
    cbn [mbind result_bind] in Hs. apply insert_user_inv in H1 as [-> _].
    set (admin := with_id (next_id (map User.id (users db))) (default_admin h)) in *.
    assert (Hfound : find_user "admin" table = Some admin).
    { destruct (find_user "counselor" (users db ++ [admin])).
      - injection Hs as <-. rewrite find_user_app, Hnone. reflexivity.
      - apply insert_user_inv in Hs as [-> _].
        rewrite !find_user_app, Hnone. reflexivity. }
    exists admin. rewrite Hlogin. cbn [set_users users]. rewrite Hfound.
    change (User.password_hash admin) with (h "admin123"). rewrite Hhash.
    repeat split.
  - intros old Hold.
    assert (Hkept : find_user "admin" (users db1) = Some old).
    { destruct Hpre as [k ->]. clear -Hold. revert Hold. unfold find_user.
      induction (users db) as [|u l IH]; [discriminate|].
      cbn [app List.find]. destruct (String.eqb (User.username u) "admin"); [trivial|exact IH]. }
    split; [exact Hkept|]. rewrite Hlogin, Hkept. reflexivity.
Qed.

End DefaultLogin.

(** ** Predictions and the figures *)

Section FiguresAfterPrediction.

Import app app_fields app_analytics.

Variable predictor : ml_model.DropoutPredictor.
Variable sql_text : pyval -> string.
Variable created_at : Notification.t -> Z.

(** The prediction route writes only categories the scorer produces. *)
Lemma predict_dropout_keeps_categories now data db :
  Forall (fun s => valid_category (Student.risk_category s) = true) (students db) ->
  Forall (fun s => valid_category (Student.risk_category s) = true)
         (students (predict_dropout predictor sql_text now data db).2).
Proof.
  intros Hall. unfold predict_dropout.
  destruct (ml_model.predict predictor (request_features data)) as [[[p c] recs]|e] eqn:Hp;
    [|exact Hall].
  cbn [snd]. destruct (truthy _); [|exact Hall].
  destruct (find_student sql_text _ db) as [student|]; [|exact Hall].
  assert (Hc : valid_category c = true).
  { destruct (predict_inv _ _ _ _ _ Hp) as (m & sc & y & d & _ & _ & _ & _ & _ & -> & _).
    apply risk_category_valid. }
  assert (Hst : Forall (fun s => valid_category (Student.risk_category s) = true)
                       (store_student (update_prediction now p c student) (students db))).
  { unfold store_student. change (map ?f (students db)) with (f <$> students db).
    apply Forall_fmap. eapply Forall_impl; [exact Hall|]. intros s Hs. cbn.
    destruct (Nat.eqb (Student.id s) (Student.id student)); [exact Hc|exact Hs]. }
  destruct (String.eqb c "High"); exact Hst.
Qed.

(** X28. Predictions keep the figures consistent: if every record
    carries one of the three categories, then after any prediction request
    the analytics route still counts as many students as before, and its
    High, Medium and Low counts still add up to that total. *)
Theorem analytics_consistent_after_prediction now data db later current_user a :
  Forall (fun s => valid_category (Student.risk_category s) = true) (students db) ->
  get_analytics created_at later current_user
    (predict_dropout predictor sql_text now data db).2 = AnalyticsOk a ->
  total_students a = length (students db) /\
  (high_risk a + medium_risk a + low_risk a)%nat = length (students db).
Proof.
  intros Hall. unfold get_analytics.
  destruct (negb _); [discriminate|]. intros [= <-].
  pose proof (predict_dropout_keeps_categories now data db Hall) as Hall'.
  destruct (category_counts (students (predict_dropout predictor sql_text now data db).2))
    as [_ Heq].
  assert (Hlen : length (students (predict_dropout predictor sql_text now data db).2)
                 = length (students db)).
  { unfold predict_dropout.
    destruct (ml_model.predict predictor (request_features data)) as [[[p c] recs]|e];
      [|reflexivity].
    cbn [snd]. destruct (truthy _); [|reflexivity].
    destruct (find_student sql_text _ db) as [student|]; [|reflexivity].
    destruct (String.eqb c "High"); cbn [set_notifications set_students students];
      unfold store_student; apply length_map. }
  cbn [figures total_students high_risk medium_risk low_risk].
  split; [exact Hlen|]. unfold count_category. rewrite (Heq Hall'). exact Hlen.
Qed.

End FiguresAfterPrediction.

(** ** Runs on sample inputs *)

Lemma predict_reads_dropout_class_only_witness :
  ml_model.predict (Sample.predictor 34 Sample.high_distribution) (app.request_features ∅)
  = Ok (PyFloat.literal "0.7", "High", []).
Proof.
  pose (sc := Sample.standard_scaler (replicate 34 PyFloat.zero) (replicate 34 Sample.one)).
  pose (m := Sample.constant_model Sample.high_distribution).
  let r := eval vm_compute in (ml_model.transform sc (app.request_features ∅)) in
  match r with
  | Ok ?y =>
      assert (Ht : ml_model.transform sc (app.request_features ∅) = Ok y)
        by (vm_compute; reflexivity);
      assert (Hd : ml_model.predict_proba m y = Ok Sample.high_distribution) by reflexivity;
      destruct (predict_reads_dropout_class_only
                  (Sample.predictor 34 Sample.high_distribution) m sc
                  (app.request_features ∅) y _ eq_refl eq_refl Ht Hd) as [_ H]
  end.
  exact (H (PyFloat.literal "0.2") (PyFloat.literal "0.7") [PyFloat.literal "0.1"] eq_refl).
Defined.

Lemma risk_category_monotone_witness :
  PyFloat.leb (PyFloat.literal "0.1") (PyFloat.literal "0.7") = true /\
  (ml_model_init.risk_rank "Low" <= ml_model_init.risk_rank "High")%nat.
Proof.
  assert (Hlow : ml_model.predict (Sample.predictor 34 Sample.low_distribution)
                   (app.request_features ∅) = Ok (PyFloat.literal "0.1", "Low", []))
    by (vm_compute; reflexivity).
  assert (Hhigh : ml_model.predict (Sample.predictor 34 Sample.high_distribution)
                    (app.request_features ∅) = Ok (PyFloat.literal "0.7", "High", []))
    by (vm_compute; reflexivity).
  assert (Hle : PyFloat.leb (PyFloat.literal "0.1") (PyFloat.literal "0.7") = true)
    by (vm_compute; reflexivity).
  split; [exact Hle|].
  exact (risk_category_monotone _ _ _ _ _ _ _ _ _ _ Hlow Hhigh Hle).
Defined.

Lemma fields_agree_with_features_witness :
  let row := Sample.row 0 [("Gender", pd.Text (Scenario.nbsp ++ "1.9"))] in
  exists features fields v w,
    app._row_to_features row = Ok features /\
    app._csv_to_student_fields row = Ok fields /\
    features !! 15%nat = Some v /\
    dict_get "gender" fields = Some w /\
    v = VFloat (PyFloat.literal "1.9") /\ w = VInt 1.
Proof.
  intros row.
  destruct (row_to_features_Forall2 row) as (features & Hrun & _).
  pose proof (csv_fields_of_name row 0 eq_refl) as Hfields.
  destruct (fields_agree_with_features row 15 "gender" (VInt 0) "Gender" features _
              eq_refl eq_refl Hrun Hfields ltac:(discriminate)) as (v & w & Hv & Hw & Hm).
  exists features, (app.student_fields row (0 + 1)), v, w.
  split; [exact Hrun|]. split; [exact Hfields|]. split; [exact Hv|]. split; [exact Hw|].
  assert (Hcell : pd.cells row !! "Gender" = Some (pd.One (pd.Text (Scenario.nbsp ++ "1.9"))))
    by (vm_compute; reflexivity).
  assert (Hnum : PyFloat.of_string (Scenario.nbsp ++ "1.9") = Some (PyFloat.literal "1.9"))
    by (vm_compute; reflexivity).
  rewrite Hcell, Hnum in Hm.
  destruct (Hm ltac:(vm_compute; reflexivity)) as [-> (z & Hz & ->)].
  split; [reflexivity|]. vm_compute in Hz. injection Hz as <-. reflexivity.
Defined.

Lemma import_establishes_invariants_witness :
  exists summary results missing db',
    app.import_csv (Sample.predictor 34 Sample.high_distribution) Sample.series_text
      Sample.counselor (Some Scenario.named_upload) Sample.utcnow Sample.db0
    = (app.ImportOk summary results missing, db') /\
    map Student.id (students db') = [1; 2]%nat /\
    Student.student_id <$> students db' = ["S1"; "S2"] /\
    NoDup (Student.student_id <$> students db').
Proof.
  run (app.import_csv (Sample.predictor 34 Sample.high_distribution) Sample.series_text
      Sample.counselor (Some Scenario.named_upload) Sample.utcnow Sample.db0) out Hout.
  destruct out as [[summary results missing|] db'] eqn:E; [|discriminate E].
  exists summary, results, missing, db'. split; [exact Hout|].
  destruct (import_establishes_invariants _ _ _ _ _ _ _ _ _ _ Hout) as (Hids & Hnd & _).
  injection E as _ _ _ <-.
  split; [reflexivity|]. split; [reflexivity|exact Hnd].
Defined.

Lemma import_preview_matches_table_witness :
  exists summary results missing db',
    app.import_csv (Sample.predictor 34 Sample.high_distribution) Sample.series_text
      Sample.counselor (Some Scenario.named_upload) Sample.utcnow Sample.db0
    = (app.ImportOk summary results missing, db') /\
    length results = 2%nat /\
    app.name <$> results = Student.name <$> students db'.
Proof.
  run (app.import_csv (Sample.predictor 34 Sample.high_distribution) Sample.series_text
      Sample.counselor (Some Scenario.named_upload) Sample.utcnow Sample.db0) out Hout.
  destruct out as [[summary results missing|] db'] eqn:E; [|discriminate E].
  exists summary, results, missing, db'. split; [exact Hout|].
  destruct (import_preview_matches_table _ _ _ _ _ _ _ _ _ _ Hout) as (Hlen & _).
  injection E as _ <- _ <-.
  split; reflexivity.
Defined.

Lemma import_failure_states_witness :
  exists message db',
    app.import_csv (Sample.predictor 33 Sample.high_distribution) Sample.series_text
      Sample.counselor (Some Scenario.named_upload) Sample.utcnow Sample.db0
    = (app.ImportError 500 message, db') /\
    students db' = [] /\ students Sample.db0 = [Sample.alice].
Proof.
  run (app.import_csv (Sample.predictor 33 Sample.high_distribution) Sample.series_text
      Sample.counselor (Some Scenario.named_upload) Sample.utcnow Sample.db0) out Hout.
  destruct out as [[|status message] db'] eqn:E; [discriminate E|].
  assert (Hstatus : status = 500%nat) by (injection E as <- _ _; reflexivity).
  clear E. subst status.
  exists message, db'. split; [exact Hout|]. split; [|reflexivity].
  destruct (import_failure_states _ _ _ _ _ _ _ _ _ Hout)
    as [(Hst & _) | [(Hst & _) | (_ & _ & upload & Hfile & _ & Hread)]];
    [discriminate Hst | discriminate Hst |].
  injection Hfile as <-.
  destruct Hread as [(e & Hread & _) | (raw & _ & ->)]; [discriminate Hread|reflexivity].
Defined.

Lemma import_rejects_duplicate_ids_witness :
  exists message,
    app.import_csv (Sample.predictor 34 Sample.high_distribution) Sample.series_text
      Sample.counselor (Some Scenario.duplicate_upload) Sample.utcnow Sample.db0
    = (app.ImportError 500 message, app.set_students [] Sample.db0).
Proof.
  assert (Hname : app_fields.csv_name Scenario.duplicate_upload) by (vm_compute; reflexivity).
  pose (ann := Sample.row 0 [("student_id", pd.Text "S1"); ("name", pd.Text "Ann")]).
  pose (bob := Sample.row 1 [("student_id", pd.Text "S1"); ("name", pd.Text "Bob")]).
  assert (H0 : pd.iterrows Sample.series_text (app.strip_columns Scenario.duplicate_rows)
                 !! 0%nat = Some ann) by (vm_compute; reflexivity).
  assert (H1 : pd.iterrows Sample.series_text (app.strip_columns Scenario.duplicate_rows)
                 !! 1%nat = Some bob) by (vm_compute; reflexivity).
  assert (Heq : app.dict_str "student_id" (app.student_fields ann (0 + 1))
                = app.dict_str "student_id" (app.student_fields bob (1 + 1)))
    by (vm_compute; reflexivity).
  exact (import_rejects_duplicate_ids
           (Sample.predictor 34 Sample.high_distribution) Sample.series_text Sample.counselor
           Scenario.duplicate_upload Scenario.duplicate_rows Sample.utcnow Sample.db0
           0 1 ann bob _ _ (or_introl eq_refl) Hname eq_refl H0 H1 (O_S 0)
           (csv_fields_of_name ann 0 eq_refl) (csv_fields_of_name bob 1 eq_refl) Heq).
Defined.

(** Two columns whose labels become equal once stripped: each row holds a
    sub-series under the label, the identifier stored is its printed text,
    which names the row, and the import succeeds. *)
Example import_repeated_label :
  exists summary results missing db',
    app.import_csv (Sample.predictor 34 Sample.high_distribution) Sample.series_text
      Sample.counselor (Some Scenario.repeated_label_upload) Sample.utcnow Sample.db0
    = (app.ImportOk summary results missing, db') /\
    Student.student_id <$> students db'
    = [Sample.series_text (pd.Label (VInt 0)) "student_id" [pd.Text "S1"; pd.Text "S1"];
       Sample.series_text (pd.Label (VInt 1)) "student_id" [pd.Text "S1"; pd.Text "S1"]] /\
    NoDup (Student.student_id <$> students db').
Proof.
  run (app.import_csv (Sample.predictor 34 Sample.high_distribution) Sample.series_text
         Sample.counselor (Some Scenario.repeated_label_upload) Sample.utcnow Sample.db0)
      out Hout.
  destruct out as [[summary results missing|] db'] eqn:E; [|discriminate E].
  exists summary, results, missing, db'. split; [exact Hout|].
  injection E as _ _ _ <-.
  split; [vm_compute; reflexivity|].
  apply (bool_decide_unpack _). vm_compute. exact I.
Qed.

Lemma request_for_alice_scores_high :
  ml_model.predict (Sample.predictor 34 Sample.high_distribution)
    (app.request_features Sample.request_for_alice) = Ok (PyFloat.literal "0.7", "High", []) /\
  truthy (app.data_get Sample.request_for_alice "student_id" VNone) = true /\
  app.find_student Sample.sql_text (app.data_get Sample.request_for_alice "student_id" VNone)
    Sample.db0 = Some Sample.alice.
Proof. repeat split; vm_compute; reflexivity. Qed.

Lemma predict_stores_what_it_returns_witness :
  let out := app.predict_dropout (Sample.predictor 34 Sample.high_distribution)
               Sample.sql_text 5 Sample.request_for_alice Sample.db0 in
  exists stored,
    app.find_student Sample.sql_text
      (app.data_get Sample.request_for_alice "student_id" VNone) out.2 = Some stored /\
    Student.dropout_risk_score stored = Some (PyFloat.literal "0.7") /\
    Student.risk_category stored = "High" /\
    Student.last_prediction_date stored = Some 5.
Proof.
  intros out.
  destruct request_for_alice_scores_high as (Hp & Ht & Hf).
  destruct (predict_stores_what_it_returns
              (Sample.predictor 34 Sample.high_distribution) Sample.sql_text
              5 Sample.request_for_alice Sample.db0 Sample.alice
              (PyFloat.literal "0.7") "High" [] Hp Ht Hf (NoDup_singleton _))
    as (_ & (stored & Hs & Hsc & Hc & Hd & _) & _).
  exists stored. split; [exact Hs|]. split; [|split; [exact Hc|exact Hd]].
  rewrite Hsc. vm_compute. reflexivity.
Defined.

Lemma predict_keeps_tables_well_formed_witness :
  let db' := (app.predict_dropout (Sample.predictor 34 Sample.high_distribution)
                Sample.sql_text 5 Sample.request_for_alice Sample.db0).2 in
  users db' = users Sample.db0 /\
  Student.id <$> students db' = [7%nat] /\
  Student.student_id <$> students db' = ["S001"] /\
  notifications Sample.db0 `prefix_of` notifications db'.
Proof.
  intros db'.
  destruct (predict_keeps_tables_well_formed
              (Sample.predictor 34 Sample.high_distribution) Sample.sql_text
              5 Sample.request_for_alice Sample.db0 (NoDup_singleton _))
    as (Hu & Hi & Hs & Hp & _).
  split; [exact Hu|]. split; [exact Hi|]. split; [exact Hs|exact Hp].
Defined.

Lemma repeated_high_prediction_alerts_again_witness :
  let db1 := (app.predict_dropout (Sample.predictor 34 Sample.high_distribution)
                Sample.sql_text 5 Sample.request_for_alice Sample.db0).2 in
  let db2 := (app.predict_dropout (Sample.predictor 34 Sample.high_distribution)
                Sample.sql_text 6 Sample.request_for_alice db1).2 in
  length (notifications db1) = 1%nat /\ length (notifications db2) = 2%nat.
Proof.
  destruct request_for_alice_scores_high as (Hp & Ht & Hf).
  exact (repeated_high_prediction_alerts_again
           (Sample.predictor 34 Sample.high_distribution) Sample.sql_text
           5 6 Sample.request_for_alice Sample.db0 Sample.alice
           (PyFloat.literal "0.7") [] Hp Ht Hf).
Defined.

Lemma form_request_fields :
  (forall key, key ∈ app_quick.int_fields ->
               exists z, Scenario.form_request !! key = Some (VInt z)) /\
  (forall key, key ∈ app_quick.float_fields ->
               exists f, Scenario.form_request !! key = Some (VFloat f)).
Proof.
  assert (H : forall A (x : A), x = x) by reflexivity.
  split; intros key Hkey;
    repeat (apply elem_of_cons in Hkey as [-> | Hkey]);
    try (eexists; vm_compute; apply H); inversion Hkey.
Qed.

Lemma quick_fields_sit_at_schema_positions_witness :
  exists features,
    app_quick.quick_features Scenario.form_request = Ok features /\
    features !! 17%nat = Some (VFloat (PyFloat.literal "19.5")) /\
    app.request_features Scenario.form_request !! 17%nat
    = Some (VFloat (PyFloat.literal "19.5")).
Proof.
  destruct (quick_fields_sit_at_schema_positions Scenario.form_request
              (proj1 form_request_fields) (proj2 form_request_fields))
    as (features & Hq & _ & Hat).
  exists features. split; [exact Hq|].
  assert (Hr : app.request_features Scenario.form_request !! 17%nat
               = Some (VFloat (PyFloat.literal "19.5"))) by (vm_compute; reflexivity).
  split; [|exact Hr]. rewrite <- Hr.
  apply (Hat 17%nat "age_at_enrollment" (VInt 18) eq_refl).
  apply elem_of_app. right. repeat constructor.
Defined.

Lemma quick_null_field_is_rejected_witness :
  exists message,
    app_quick.quick_predict (Sample.predictor 34 Sample.high_distribution)
      Scenario.null_request = app_quick.QuickError 400 message.
Proof.
  assert (Hnull : Scenario.null_request !! "gender" = Some VNone) by (vm_compute; reflexivity).
  apply (quick_null_field_is_rejected
           (Sample.predictor 34 Sample.high_distribution) Scenario.null_request "gender");
    [|exact Hnull].
  apply elem_of_app. left. repeat constructor.
Defined.

Lemma form_request_with_student_id (key : string) :
  key ∈ (app_quick.int_fields ++ app_quick.float_fields)%list ->
  Scenario.form_request !! key
  = (<["student_id" := VStr "S001"]> Scenario.form_request) !! key.
Proof.
  intros Hkey. symmetry. apply lookup_insert_ne. intros <-.
  apply elem_of_existsb in Hkey. vm_compute in Hkey. discriminate.
Qed.

Lemma quick_predict_reads_eight_fields_witness :
  app_quick.quick_predict (Sample.predictor 34 Sample.high_distribution)
    Scenario.form_request
  = app_quick.quick_predict (Sample.predictor 34 Sample.high_distribution)
      (<["student_id" := VStr "S001"]> Scenario.form_request).
Proof.
  exact (quick_predict_reads_eight_fields
           (Sample.predictor 34 Sample.high_distribution) Scenario.form_request
           (<["student_id" := VStr "S001"]> Scenario.form_request)
           form_request_with_student_id).
Defined.

Lemma create_default_users_all_or_nothing_witness :
  app_users.find_user "admin" (users Scenario.taken_email_db) = None /\
  app_users.create_default_users Scenario.hash Scenario.taken_email_db
  = Scenario.taken_email_db.
Proof.
  split; [reflexivity|].
  apply (create_default_users_all_or_nothing Scenario.hash Scenario.taken_email_db
           Scenario.bob).
  - repeat constructor.
  - right. split; reflexivity.
Defined.

Lemma import_unlinks_student_accounts_witness :
  exists summary results missing db',
    app.import_csv (Sample.predictor 34 Sample.high_distribution) Sample.series_text
      Sample.counselor (Some Scenario.named_upload) Sample.utcnow Sample.db0
    = (app.ImportOk summary results missing, db') /\
    app_read.get_student Scenario.student_user "S1" db' = app_read.StudentError "Unauthorized" /\
    exists d, app_read.get_student Sample.counselor "S1" db' = app_read.StudentOk d.
Proof.
  run (app.import_csv (Sample.predictor 34 Sample.high_distribution) Sample.series_text
      Sample.counselor (Some Scenario.named_upload) Sample.utcnow Sample.db0) out Hout.
  destruct out as [[summary results missing|] db'] eqn:E; [|discriminate E].
  exists summary, results, missing, db'. split; [exact Hout|].
  destruct (import_unlinks_student_accounts _ _ _ _ _ _ _ _ _ _ Hout) as (Hstudent & _).
  injection E as _ _ _ <-.
  split.
  - destruct (Hstudent Scenario.student_user "S1" eq_refl) as [Hn | Hu]; [|exact Hu].
    vm_compute in Hn. discriminate Hn.
  - eexists. reflexivity.
Defined.

Lemma student_list_matches_detail_witness :
  exists rows d,
    app_read.get_students Sample.counselor Sample.db0 = app_read.StudentsOk rows /\
    length rows = 1%nat /\
    app_read.get_student Sample.counselor "S001" Sample.db0 = app_read.StudentOk d /\
    app_read.data_name d = "Alice".
Proof.
  destruct (student_list_matches_detail Sample.counselor Sample.db0
              (or_introl eq_refl) (NoDup_singleton _)) as (rows & Hrows & Hlen & _).
  exists rows. eexists. split; [exact Hrows|]. split; [exact Hlen|].
  split; reflexivity.
Defined.

Lemma order_desc_permutation (l : list Notification.t) : Scenario.order_desc l ≡ₚ l.
Proof.
  assert (Hins : forall m k, Scenario.insert_desc m k ≡ₚ m :: k).
  { intros m k. induction k as [|x k IH]; cbn [Scenario.insert_desc]; [reflexivity|].
    destruct (Scenario.created_at x <? Scenario.created_at m); [reflexivity|].
    rewrite IH. apply Permutation_swap. }
  induction l as [|m l IH]; [reflexivity|].
  cbn [Scenario.order_desc foldr]. rewrite Hins. constructor. exact IH.
Qed.

Lemma alerts_are_reattributed_by_import_witness :
  exists summary results missing db' rows,
    app.import_csv (Sample.predictor 34 Sample.high_distribution) Sample.series_text
      Sample.counselor (Some Scenario.named_upload) Sample.utcnow Scenario.alert_db
    = (app.ImportOk summary results missing, db') /\
    app_read.get_notifications Scenario.created_at Scenario.order_desc Sample.admin db'
    = app_read.NotificationsOk [] /\
    app_read.get_notifications Scenario.created_at Scenario.order_desc Sample.counselor db'
    = app_read.NotificationsOk rows /\
    app_read.note_id <$> rows = [2; 1]%nat /\
    app_read.note_student_name <$> rows = ["Ann"; "Unknown"] /\
    Notification.student_id <$> notifications Scenario.alert_db = [7; 1]%nat.
Proof.
  run (app.import_csv (Sample.predictor 34 Sample.high_distribution) Sample.series_text
         Sample.counselor (Some Scenario.named_upload) Sample.utcnow Scenario.alert_db)
      out Hout.
  destruct out as [[summary results missing|] db'] eqn:E; [|discriminate E].
  destruct (alerts_are_reattributed_by_import
              (Sample.predictor 34 Sample.high_distribution) Sample.series_text
              Scenario.created_at Scenario.order_desc _ _ _ _ _ _ _ _ Sample.admin
              order_desc_permutation Hout (or_intror eq_refl)) as (Hadmin & _).
  destruct (alerts_are_reattributed_by_import
              (Sample.predictor 34 Sample.high_distribution) Sample.series_text
              Scenario.created_at Scenario.order_desc _ _ _ _ _ _ _ _ Sample.counselor
              order_desc_permutation Hout (or_introl eq_refl)) as (Hrows & _).
  eexists summary, results, missing, db', _.
  split; [exact Hout|]. split; [exact Hadmin|]. split; [exact Hrows|].
  injection E as _ _ _ <-.
  repeat split; vm_compute; reflexivity.
Defined.

Lemma analytics_counts_partition_witness :
  exists a,
    app_analytics.get_analytics Scenario.created_at 1000 Sample.counselor Scenario.alert_db
    = app_analytics.AnalyticsOk a /\
    app_analytics.total_students a = 1%nat /\
    (app_analytics.high_risk a + app_analytics.medium_risk a + app_analytics.low_risk a)%nat
    = 1%nat /\
    app_analytics.rounded_success_rate a = VFloat (PyFloat.literal "100.0").
Proof.
  eexists. split; [reflexivity|].
  destruct (analytics_counts_partition Scenario.created_at 1000 Sample.counselor
              Scenario.alert_db _ eq_refl) as (_ & Ht & _ & Hsum & _).
  split; [exact Ht|]. split; [|vm_compute; reflexivity].
  rewrite Hsum; [exact Ht|]. repeat constructor.
Defined.

Lemma dashboards_show_analytics_witness :
  exists a,
    app_analytics.get_analytics Scenario.created_at 1000 Sample.counselor Scenario.alert_db
    = app_analytics.AnalyticsOk a /\
    app_analytics.dashboard Scenario.created_at 1000 Sample.counselor Scenario.alert_db
    = app_analytics.university_dashboard a /\
    app_analytics.index Scenario.created_at 1000 Scenario.alert_db
    = app_analytics.index_page a.
Proof.
  destruct (dashboards_show_analytics Scenario.created_at 1000 Sample.counselor
              Scenario.alert_db (or_introl eq_refl)) as (a & Ha & _ & Hc & Hi).
  exists a. split; [exact Ha|]. split; [exact (Hc eq_refl)|].
  apply Hi; [discriminate|].
  injection Ha as <-. vm_compute. lia.
Defined.

Lemma import_empties_student_dashboards_witness :
  exists summary results missing db',
    app.import_csv (Sample.predictor 34 Sample.high_distribution) Sample.series_text
      Sample.counselor (Some Scenario.named_upload) Sample.utcnow Sample.db0
    = (app.ImportOk summary results missing, db') /\
    app_analytics.dashboard Scenario.created_at 1000 Scenario.student_user db'
    = app_analytics.student_dashboard None.
Proof.
  run (app.import_csv (Sample.predictor 34 Sample.high_distribution) Sample.series_text
      Sample.counselor (Some Scenario.named_upload) Sample.utcnow Sample.db0) out Hout.
  destruct out as [[summary results missing|] db'] eqn:E; [|discriminate E].
  exists summary, results, missing, db'. split; [exact Hout|].
  exact (import_empties_student_dashboards
           (Sample.predictor 34 Sample.high_distribution) Sample.series_text
           Scenario.created_at 1000
           _ _ _ _ _ _ _ _ Scenario.student_user Hout eq_refl).
Defined.

Lemma default_admin_can_log_in_witness :
  exists admin,
    app_login.login Scenario.check_password_hash Sample.sql_text Scenario.admin_login
      (app_users.create_default_users Scenario.hash Scenario.empty_db)
    = (app_login.LoginOk "admin" "/dashboard", Some admin) /\
    User.id admin = 1%nat.
Proof.
  assert (Hhash : forall password,
             Scenario.check_password_hash (Scenario.hash password) (VStr password) = Ok true).
  { intros password. unfold Scenario.check_password_hash.
    rewrite String.eqb_refl. reflexivity. }
  assert (Hu : Scenario.admin_login !! "username" = Some (VStr "admin"))
    by (vm_compute; reflexivity).
  assert (Hp : Scenario.admin_login !! "password" = Some (VStr "admin123"))
    by (vm_compute; reflexivity).
  destruct (default_admin_can_log_in Scenario.check_password_hash Sample.sql_text
              Scenario.hash Scenario.empty_db Scenario.admin_login Hhash Hu Hp)
    as [Hnew _].
  destruct (Hnew eq_refl ltac:(discriminate)) as (admin & Hlogin & _ & _ & Hid).
  exists admin. split; [exact Hlogin|exact Hid].
Defined.

Lemma analytics_consistent_after_prediction_witness :
  exists a,
    app_analytics.get_analytics Scenario.created_at 1000 Sample.counselor
      (app.predict_dropout (Sample.predictor 34 Sample.high_distribution) Sample.sql_text 5
         Sample.request_for_alice Sample.db0).2 = app_analytics.AnalyticsOk a /\
    app_analytics.total_students a = 1%nat /\
    (app_analytics.high_risk a + app_analytics.medium_risk a + app_analytics.low_risk a)%nat
    = 1%nat.
Proof.
  eexists. split; [reflexivity|].
  apply (analytics_consistent_after_prediction
           (Sample.predictor 34 Sample.high_distribution) Sample.sql_text
           Scenario.created_at 5 Sample.request_for_alice Sample.db0 1000 Sample.counselor);
    [|reflexivity].
  repeat constructor.
Defined.
